(** * Renderer of the PBR demo (src/opengl.cpp), OpenGL 4.5 backend

    A shallow embedding of [OpenGL::Renderer]: every member function is a
    computation in a small monad that threads the renderer object and the
    backend's name generators, records each backend call in program order
    and can end in a C++ exception, a failed [assert] or undefined
    behaviour. *)

From Stdlib Require Import ZArith List String Ascii Bool Lia Permutation.
From Stdlib Require Import DecimalString.
From Stdlib Require Import Floats.SpecFloat.
Import ListNotations.

Local Open Scope string_scope.
Local Open Scope Z_scope.
Local Open Scope list_scope.

(** ** Machine integers *)

(** [int] is 32 bits wide; values are kept as [Z]. *)
Definition INT_MAX : Z := 2147483647.
Definition INT_MIN : Z := -2147483648.

Definition in_int (x : Z) : Prop := INT_MIN <= x <= INT_MAX.

(** The [int] a value ends up as, by conversion from an unsigned type or
    as the result of an operation on [int] that leaves the range: the
    value modulo 2^32, which is what the builds compute (the language
    leaves the overflowing operation undefined). *)
Definition to_int (x : Z) : Z := (x + 2147483648) mod 4294967296 - 2147483648.
Arguments to_int : simpl never.

(** [x >> n] on [int]: arithmetic shift; the behaviour is undefined when
    the count is negative or at least the width of the type. *)
Definition int_shr (x n : Z) : option Z :=
  if (0 <=? n) && (n <? 32) then Some (Z.shiftr x n) else None.

(** [x / y] on [int] truncates toward zero. *)
Definition int_div (x y : Z) : Z := Z.quot x y.

(** ** IEEE 754 binary32 ([float], [GLfloat]) *)

Module F32.
Definition prec : Z := 24.
Definition emax : Z := 128.

Definition float32 : Type := spec_float.

(** [float(n)] for an integer [n], rounding to nearest even. *)
Definition of_int (n : Z) : float32 := binary_normalize prec emax n 0 false.

Definition zero : float32 := S754_zero false.
Definition one : float32 := of_int 1.

Definition div (x y : float32) : float32 := SFdiv prec emax x y.
Definition mul (x y : float32) : float32 := SFmul prec emax x y.
Definition neg (x : float32) : float32 := SFopp x.
Definition ltb (x y : float32) : bool := SFltb x y.

(** [glm::max(x, y)] is [(x < y) ? y : x]. *)
Definition max (x y : float32) : float32 := if ltb x y then y else x.
End F32.

Definition float32 : Type := F32.float32.

(** ** OpenGL and GLFW enumerants (values of the Khronos and GLFW headers) *)

Definition GLenum := Z.
Definition GLuint := Z.
Definition GLint := Z.

Definition GL_NONE : GLenum := 0.
Definition GL_FALSE : Z := 0.
Definition GL_TRUE : Z := 1.
Definition GL_TRIANGLES : GLenum := 4.
Definition GL_TRIANGLE_STRIP : GLenum := 5.
Definition GL_DEPTH_BUFFER_BIT : Z := 256.
Definition GL_STENCIL_BUFFER_BIT : Z := 1024.
Definition GL_COLOR_BUFFER_BIT : Z := 16384.
Definition GL_CCW : GLenum := 2305.
Definition GL_CULL_FACE : GLenum := 2884.
Definition GL_DEPTH_TEST : GLenum := 2929.
Definition GL_TEXTURE_2D : GLenum := 3553.
Definition GL_UNSIGNED_BYTE : GLenum := 5121.
Definition GL_UNSIGNED_INT : GLenum := 5125.
Definition GL_FLOAT : GLenum := 5126.
Definition GL_RED : GLenum := 6403.
Definition GL_RGB : GLenum := 6407.
Definition GL_NEAREST : GLenum := 9728.
Definition GL_LINEAR : GLenum := 9729.
Definition GL_LINEAR_MIPMAP_LINEAR : GLenum := 9987.
Definition GL_TEXTURE_MAG_FILTER : GLenum := 10240.
Definition GL_TEXTURE_MIN_FILTER : GLenum := 10241.
Definition GL_RGB8 : GLenum := 32849.
Definition GL_DEPTH_STENCIL_ATTACHMENT : GLenum := 33306.
Definition GL_R8 : GLenum := 33321.
Definition GL_RG16F : GLenum := 33327.
Definition GL_DEBUG_OUTPUT_SYNCHRONOUS : GLenum := 33346.
Definition GL_TEXTURE_CUBE_MAP : GLenum := 34067.
Definition GL_TEXTURE_CUBE_MAP_SEAMLESS : GLenum := 34895.
Definition GL_RGBA16F : GLenum := 34842.
Definition GL_RGB16F : GLenum := 34843.
Definition GL_WRITE_ONLY : GLenum := 35001.
Definition GL_DEPTH24_STENCIL8 : GLenum := 35056.
Definition GL_FRAGMENT_SHADER : GLenum := 35632.
Definition GL_VERTEX_SHADER : GLenum := 35633.
Definition GL_COMPILE_STATUS : GLenum := 35713.
Definition GL_LINK_STATUS : GLenum := 35714.
Definition GL_VALIDATE_STATUS : GLenum := 35715.
Definition GL_INFO_LOG_LENGTH : GLenum := 35716.
Definition GL_SRGB8 : GLenum := 35905.
Definition GL_DRAW_FRAMEBUFFER : GLenum := 36009.
Definition GL_FRAMEBUFFER_COMPLETE : GLenum := 36053.
Definition GL_COLOR_ATTACHMENT0 : GLenum := 36064.
Definition GL_FRAMEBUFFER : GLenum := 36160.
Definition GL_RENDERBUFFER : GLenum := 36161.
Definition GL_COMPUTE_SHADER : GLenum := 37305.

Definition GLFW_SAMPLES : Z := 135181.
Definition GLFW_DEPTH_BITS : Z := 135173.
Definition GLFW_STENCIL_BITS : Z := 135174.
Definition GLFW_CLIENT_API : Z := 139265.
Definition GLFW_CONTEXT_VERSION_MAJOR : Z := 139266.
Definition GLFW_CONTEXT_VERSION_MINOR : Z := 139267.
Definition GLFW_OPENGL_DEBUG_CONTEXT : Z := 139271.
Definition GLFW_OPENGL_PROFILE : Z := 139272.
Definition GLFW_OPENGL_API : Z := 196609.
Definition GLFW_OPENGL_CORE_PROFILE : Z := 204801.

(** [enum UniformLocations]: location 0 is shared by two programs. *)
Definition ViewProjectionMatrix : GLuint := 0.
Definition EyePosition : GLuint := 1.
Definition SpecularMapRoughness : GLuint := 0.

(** ** Resource handles

    The structs are declared in opengl.hpp; the fields are the ones the
    member functions of opengl.cpp read and write. *)

Record Texture := mkTexture {
  tex_id : GLuint;
  tex_width : Z;
  tex_height : Z;
  tex_levels : Z
}.

Record FrameBuffer := mkFrameBuffer {
  fb_id : GLuint;
  fb_colorTarget : GLuint;
  fb_depthStencilTarget : GLuint;
  fb_width : Z;
  fb_height : Z;
  fb_samples : Z
}.

Record VertexBuffer := mkVertexBuffer {
  vb_vbo : GLuint;
  vb_ibo : GLuint;
  vb_vao : GLuint;
  vb_numElements : GLuint
}.

(** Modelled from the spec: the default constructors of the handle structs
    are in opengl.hpp, which is not part of the sources at hand.  A handle
    that has not been given a backend object holds the empty identifier 0
    (the spec: "the colorTarget identifier stays empty"); the member
    functions test identifiers against 0 in the same sense. *)
Definition Texture_default : Texture := mkTexture 0 0 0 0.
Definition FrameBuffer_default : FrameBuffer := mkFrameBuffer 0 0 0 0 0 0.
Definition VertexBuffer_default : VertexBuffer := mkVertexBuffer 0 0 0 0.

(** [std::memset(&x, 0, sizeof x)]: every field becomes zero. *)
Definition Texture_zeroed : Texture := mkTexture 0 0 0 0.
Definition FrameBuffer_zeroed : FrameBuffer := mkFrameBuffer 0 0 0 0 0 0.
Definition VertexBuffer_zeroed : VertexBuffer := mkVertexBuffer 0 0 0 0.

(** [glm::mat4] as its 16 floats ([glm::value_ptr]), [glm::vec3] as 3. *)
Definition mat4 : Type := list float32.
Definition vec3 : Type := list float32.

Record ViewSettings := mkViewSettings {
  view_pitch : float32;
  view_yaw : float32;
  view_distance : float32;
  view_fov : float32
}.

Definition GLFWwindow := Z.
Definition nullptr : Z := 0.

(** ** Backend calls

    One constructor per OpenGL, GLFW or libc entry point the renderer
    calls, with the arguments of the call (out-parameters appear as the
    value the backend wrote). *)

Inductive GLCall : Type :=
| glfwWindowHint (hint value : Z)
| glfwCreateWindow (width height : Z) (title : string)
| glfwMakeContextCurrent (window : GLFWwindow)
| glfwSwapInterval (interval : Z)
| glfwSwapBuffers (window : GLFWwindow)
| gladLoadGLLoader
| glDebugMessageCallback
| printf (text : string)
| glEnable (cap : GLenum)
| glDisable (cap : GLenum)
| glFrontFace (mode : GLenum)
| glFinish
| glClear (mask : Z)
| glCreateShader (type : GLenum) (shader : GLuint)
| glShaderSource (shader : GLuint) (source : string)
| glCompileShader (shader : GLuint)
| glGetShaderiv (shader : GLuint) (pname : GLenum)
| glGetShaderInfoLog (shader : GLuint) (bufSize : Z)
| glDeleteShader (shader : GLuint)
| glCreateProgram (program : GLuint)
| glAttachShader (program shader : GLuint)
| glDetachShader (program shader : GLuint)
| glLinkProgram (program : GLuint)
| glValidateProgram (program : GLuint)
| glGetProgramiv (program : GLuint) (pname : GLenum)
| glGetProgramInfoLog (program : GLuint) (bufSize : Z)
| glUseProgram (program : GLuint)
| glDeleteProgram (program : GLuint)
| glProgramUniform1f (program location : GLuint) (v : float32)
| glProgramUniform3fv (program location : GLuint) (count : Z) (v : vec3)
| glProgramUniformMatrix4fv (program location : GLuint) (count : Z)
    (transpose : Z) (m : mat4)
| glCreateTextures (target : GLenum) (texture : GLuint)
| glTextureStorage2D (texture : GLuint) (levels : Z) (internalformat : GLenum)
    (width height : Z)
| glTextureParameteri (texture : GLuint) (pname : GLenum) (param : Z)
| glGenerateTextureMipmap (texture : GLuint)
| glDeleteTextures (texture : GLuint)
| glBindTextureUnit (unit texture : GLuint)
| glBindImageTexture (unit texture : GLuint) (level : Z) (layered : Z)
    (layer : Z) (access format : GLenum)
| glDispatchCompute (x y z : Z)
| glCreateRenderbuffers (renderbuffer : GLuint)
| glNamedRenderbufferStorage (renderbuffer : GLuint) (internalformat : GLenum)
    (width height : Z)
| glNamedRenderbufferStorageMultisample (renderbuffer : GLuint) (samples : Z)
    (internalformat : GLenum) (width height : Z)
| glDeleteRenderbuffers (renderbuffer : GLuint)
| glCreateFramebuffers (framebuffer : GLuint)
| glNamedFramebufferRenderbuffer (framebuffer : GLuint) (attachment : GLenum)
    (renderbuffertarget : GLenum) (renderbuffer : GLuint)
| glNamedFramebufferTexture (framebuffer : GLuint) (attachment : GLenum)
    (texture : GLuint) (level : Z)
| glCheckNamedFramebufferStatus (framebuffer : GLuint) (target : GLenum)
| glBindFramebuffer (target : GLenum) (framebuffer : GLuint)
| glBlitNamedFramebuffer (read draw : GLuint) (srcX0 srcY0 srcX1 srcY1 : Z)
    (dstX0 dstY0 dstX1 dstY1 : Z) (mask : Z) (filter : GLenum)
| glInvalidateNamedFramebufferData (framebuffer : GLuint) (numAttachments : Z)
    (attachments : list GLenum)
| glDeleteFramebuffers (framebuffer : GLuint)
| glBindVertexArray (array : GLuint)
| glDeleteVertexArrays (array : GLuint)
| glDeleteBuffers (buffer : GLuint)
| glDrawElements (mode : GLenum) (count : Z) (type : GLenum) (offset : Z)
| glDrawArrays (mode : GLenum) (first count : Z).

(** ** The renderer object and the backend's state *)

Record Renderer := mkRenderer {
  m_framebuffer : FrameBuffer;
  m_resolveFramebuffer : FrameBuffer;
  m_screenQuad : VertexBuffer;
  m_skybox : VertexBuffer;
  m_pbrModel : VertexBuffer;
  m_tonemapProgram : GLuint;
  m_skyboxProgram : GLuint;
  m_pbrProgram : GLuint;
  m_envTexture : Texture;
  m_irmapTexture : Texture;
  m_spmapTexture : Texture;
  m_spBRDF_LUT : Texture;
  m_albedoTexture : Texture;
  m_normalTexture : Texture;
  m_metalnessTexture : Texture;
  m_roughnessTexture : Texture
}.

(** The next unused name of each OpenGL name space.  [glCreate*] hands out
    the name and moves on, so names are non-zero and never handed out
    twice; shaders and programs share one name space. *)
Record Names := mkNames {
  next_texture : GLuint;
  next_renderbuffer : GLuint;
  next_framebuffer : GLuint;
  next_shader_program : GLuint
}.

Record World := mkWorld {
  this : Renderer;
  names : Names
}.

(** ** The monad *)

(** How a run ends: with a value; with an exception, of which the text of
    [what()] is kept; aborted by an assertion that failed, [assert] or a
    check of the library; or in behaviour the language leaves undefined
    and for which no build gives a definite result. *)
Inductive outcome (A : Type) : Type :=
| Ok (a : A)
| Throw (what : string)
| AssertFailed
| Undefined.

Arguments Ok {A} a.
Arguments Throw {A} what.
Arguments AssertFailed {A}.
Arguments Undefined {A}.

Definition GL (A : Type) : Type := World -> outcome A * World * list GLCall.

Definition ret {A} (a : A) : GL A := fun w => (Ok a, w, []).

Definition bind {A B} (m : GL A) (f : A -> GL B) : GL B :=
  fun w =>
    match m w with
    | (Ok a, w1, c1) => let '(r, w2, c2) := f a w1 in (r, w2, c1 ++ c2)
    | (Throw s, w1, c1) => (Throw s, w1, c1)
    | (AssertFailed, w1, c1) => (AssertFailed, w1, c1)
    | (Undefined, w1, c1) => (Undefined, w1, c1)
    end.

Notation "x <- m ;; k" := (bind m (fun x => k))
  (at level 61, m at next level, right associativity).
Notation "m ;; k" := (bind m (fun _ => k))
  (at level 61, right associativity).

Definition call (c : GLCall) : GL unit := fun w => (Ok tt, w, [c]).
Definition throw {A} (what : string) : GL A := fun w => (Throw what, w, []).
Definition assert (b : bool) : GL unit :=
  fun w => (if b then Ok tt else AssertFailed, w, []).
Definition undefined {A} : GL A := fun w => (Undefined, w, []).
Definition lift {A} (o : outcome A) : GL A := fun w => (o, w, []).

Definition get_this : GL Renderer := fun w => (Ok (this w), w, []).
Definition modify_this (f : Renderer -> Renderer) : GL unit :=
  fun w => (Ok tt, mkWorld (f (this w)) (names w), []).

Definition when (b : bool) (m : GL unit) : GL unit := if b then m else ret tt.

(** [for (x : xs) body(x)] *)
Fixpoint for_each {A} (xs : list A) (body : A -> GL unit) : GL unit :=
  match xs with
  | [] => ret tt
  | x :: xs' => body x ;; for_each xs' body
  end.

Definition result_of {A} (r : outcome A * World * list GLCall) : outcome A :=
  fst (fst r).
Definition world_of {A} (r : outcome A * World * list GLCall) : World :=
  snd (fst r).
Definition calls_of {A} (r : outcome A * World * list GLCall) : list GLCall :=
  snd r.

(** Name generation of [glCreateTextures], [glCreateRenderbuffers],
    [glCreateFramebuffers], [glCreateShader] and [glCreateProgram]. *)
Definition fresh_texture : GL GLuint := fun w =>
  let n := names w in
  (Ok (next_texture n),
   mkWorld (this w) (mkNames (next_texture n + 1) (next_renderbuffer n)
                       (next_framebuffer n) (next_shader_program n)), []).

Definition fresh_renderbuffer : GL GLuint := fun w =>
  let n := names w in
  (Ok (next_renderbuffer n),
   mkWorld (this w) (mkNames (next_texture n) (next_renderbuffer n + 1)
                       (next_framebuffer n) (next_shader_program n)), []).

Definition fresh_framebuffer : GL GLuint := fun w =>
  let n := names w in
  (Ok (next_framebuffer n),
   mkWorld (this w) (mkNames (next_texture n) (next_renderbuffer n)
                       (next_framebuffer n + 1) (next_shader_program n)), []).

Definition fresh_shader_program : GL GLuint := fun w =>
  let n := names w in
  (Ok (next_shader_program n),
   mkWorld (this w) (mkNames (next_texture n) (next_renderbuffer n)
                       (next_framebuffer n) (next_shader_program n + 1)), []).

(** The names still to be handed out are positive: 0 is never a name. *)
Definition names_ok (n : Names) : Prop :=
  0 < next_texture n /\ 0 < next_renderbuffer n /\
  0 < next_framebuffer n /\ 0 < next_shader_program n.

(** ** What the backend and the collaborators answer

    The answers of the window system, the extension loader, the file
    reader, of the OpenGL queries and of the C++ runtime are not decided
    by the renderer.  An info log comes with the length the backend
    reports for it ([GL_INFO_LOG_LENGTH], the terminator included, 0
    when there is no log), which need not be the length of the text.
    [bad_array_new_length_what] is the text of the exception that
    [new T[n]] throws for a negative [n]. *)
Record Backend := mkBackend {
  glfwCreateWindow_result : Z -> Z -> GLFWwindow;
  gladLoadGLLoader_result : bool;
  File_readText : string -> string;
  compile_status : GLuint -> GLint;
  shader_info_log_length : GLuint -> GLint;
  shader_info_log : GLuint -> string;
  link_status : GLuint -> GLint;
  validate_status : GLuint -> GLint;
  program_info_log_length : GLuint -> GLint;
  program_info_log : GLuint -> string;
  framebuffer_status : GLuint -> GLenum;
  bad_array_new_length_what : string
}.

(** The build: whether [_DEBUG] is set, whether [NDEBUG] removes
    [assert], and whether the standard library checks the index of
    [operator[]] on a vector and aborts when it is out of range (the
    assertions of libstdc++, the iterator debugging of a debug runtime).
    Without the check, [&v[0]] of an empty vector is the pointer the
    vector holds, and nothing is read through it. *)
Record Build := mkBuild {
  _DEBUG : bool;
  NDEBUG : bool;
  checked_subscript : bool
}.

(** What the code reads back from an info log: [glGetShaderInfoLog] and
    [glGetProgramInfoLog] write at most [size - 1] characters of the log
    and a terminator into the buffer of [size] characters, which is then
    read as a C string. *)
Definition info_log_read (size : Z) (log : string) : string :=
  substring 0 (Z.to_nat (size - 1)) log.

(** [std::to_string] of an unsigned value. *)
Definition to_string (n : Z) : string :=
  NilEmpty.string_of_uint (N.to_uint (Z.to_N n)).

Definition newline : string := String (ascii_of_nat 10) EmptyString.

(** The part of glm the renderer uses; trigonometry and matrix algebra
    are the library's business. *)
Record Glm := mkGlm {
  perspectiveFov : float32 -> float32 -> float32 -> float32 -> float32 -> mat4;
  eulerAngleXY : float32 -> float32 -> mat4;
  radians : float32 -> float32;
  translate : mat4 -> vec3 -> mat4;
  mat4_default : mat4;
  inverse : mat4 -> mat4;
  mat4_mul : mat4 -> mat4 -> mat4
}.

(** [glm::vec3(m[3])]: the first three floats of the fourth column. *)
Definition column3_xyz (m : mat4) : vec3 := firstn 3 (skipn 12 m).

(** ** Assignments to the members of the renderer *)

Definition set_m_framebuffer (fb : FrameBuffer) (r : Renderer) : Renderer :=
  mkRenderer fb (m_resolveFramebuffer r) (m_screenQuad r) (m_skybox r)
    (m_pbrModel r) (m_tonemapProgram r) (m_skyboxProgram r) (m_pbrProgram r)
    (m_envTexture r) (m_irmapTexture r) (m_spmapTexture r) (m_spBRDF_LUT r)
    (m_albedoTexture r) (m_normalTexture r) (m_metalnessTexture r)
    (m_roughnessTexture r).

Definition set_m_resolveFramebuffer (fb : FrameBuffer) (r : Renderer) : Renderer :=
  mkRenderer (m_framebuffer r) fb (m_screenQuad r) (m_skybox r)
    (m_pbrModel r) (m_tonemapProgram r) (m_skyboxProgram r) (m_pbrProgram r)
    (m_envTexture r) (m_irmapTexture r) (m_spmapTexture r) (m_spBRDF_LUT r)
    (m_albedoTexture r) (m_normalTexture r) (m_metalnessTexture r)
    (m_roughnessTexture r).

Definition set_m_screenQuad (b : VertexBuffer) (r : Renderer) : Renderer :=
  mkRenderer (m_framebuffer r) (m_resolveFramebuffer r) b (m_skybox r)
    (m_pbrModel r) (m_tonemapProgram r) (m_skyboxProgram r) (m_pbrProgram r)
    (m_envTexture r) (m_irmapTexture r) (m_spmapTexture r) (m_spBRDF_LUT r)
    (m_albedoTexture r) (m_normalTexture r) (m_metalnessTexture r)
    (m_roughnessTexture r).

Definition set_m_skybox (b : VertexBuffer) (r : Renderer) : Renderer :=
  mkRenderer (m_framebuffer r) (m_resolveFramebuffer r) (m_screenQuad r) b
    (m_pbrModel r) (m_tonemapProgram r) (m_skyboxProgram r) (m_pbrProgram r)
    (m_envTexture r) (m_irmapTexture r) (m_spmapTexture r) (m_spBRDF_LUT r)
    (m_albedoTexture r) (m_normalTexture r) (m_metalnessTexture r)
    (m_roughnessTexture r).

Definition set_m_pbrModel (b : VertexBuffer) (r : Renderer) : Renderer :=
  mkRenderer (m_framebuffer r) (m_resolveFramebuffer r) (m_screenQuad r)
    (m_skybox r) b (m_tonemapProgram r) (m_skyboxProgram r) (m_pbrProgram r)
    (m_envTexture r) (m_irmapTexture r) (m_spmapTexture r) (m_spBRDF_LUT r)
    (m_albedoTexture r) (m_normalTexture r) (m_metalnessTexture r)
    (m_roughnessTexture r).

Definition set_m_envTexture (t : Texture) (r : Renderer) : Renderer :=
  mkRenderer (m_framebuffer r) (m_resolveFramebuffer r) (m_screenQuad r)
    (m_skybox r) (m_pbrModel r) (m_tonemapProgram r) (m_skyboxProgram r)
    (m_pbrProgram r) t (m_irmapTexture r) (m_spmapTexture r) (m_spBRDF_LUT r)
    (m_albedoTexture r) (m_normalTexture r) (m_metalnessTexture r)
    (m_roughnessTexture r).

Definition set_m_irmapTexture (t : Texture) (r : Renderer) : Renderer :=
  mkRenderer (m_framebuffer r) (m_resolveFramebuffer r) (m_screenQuad r)
    (m_skybox r) (m_pbrModel r) (m_tonemapProgram r) (m_skyboxProgram r)
    (m_pbrProgram r) (m_envTexture r) t (m_spmapTexture r) (m_spBRDF_LUT r)
    (m_albedoTexture r) (m_normalTexture r) (m_metalnessTexture r)
    (m_roughnessTexture r).

Definition set_m_spmapTexture (t : Texture) (r : Renderer) : Renderer :=
  mkRenderer (m_framebuffer r) (m_resolveFramebuffer r) (m_screenQuad r)
    (m_skybox r) (m_pbrModel r) (m_tonemapProgram r) (m_skyboxProgram r)
    (m_pbrProgram r) (m_envTexture r) (m_irmapTexture r) t (m_spBRDF_LUT r)
    (m_albedoTexture r) (m_normalTexture r) (m_metalnessTexture r)
    (m_roughnessTexture r).

Definition set_m_spBRDF_LUT (t : Texture) (r : Renderer) : Renderer :=
  mkRenderer (m_framebuffer r) (m_resolveFramebuffer r) (m_screenQuad r)
    (m_skybox r) (m_pbrModel r) (m_tonemapProgram r) (m_skyboxProgram r)
    (m_pbrProgram r) (m_envTexture r) (m_irmapTexture r) (m_spmapTexture r) t
    (m_albedoTexture r) (m_normalTexture r) (m_metalnessTexture r)
    (m_roughnessTexture r).

Definition set_m_albedoTexture (t : Texture) (r : Renderer) : Renderer :=
  mkRenderer (m_framebuffer r) (m_resolveFramebuffer r) (m_screenQuad r)
    (m_skybox r) (m_pbrModel r) (m_tonemapProgram r) (m_skyboxProgram r)
    (m_pbrProgram r) (m_envTexture r) (m_irmapTexture r) (m_spmapTexture r)
    (m_spBRDF_LUT r) t (m_normalTexture r) (m_metalnessTexture r)
    (m_roughnessTexture r).

Definition set_m_normalTexture (t : Texture) (r : Renderer) : Renderer :=
  mkRenderer (m_framebuffer r) (m_resolveFramebuffer r) (m_screenQuad r)
    (m_skybox r) (m_pbrModel r) (m_tonemapProgram r) (m_skyboxProgram r)
    (m_pbrProgram r) (m_envTexture r) (m_irmapTexture r) (m_spmapTexture r)
    (m_spBRDF_LUT r) (m_albedoTexture r) t (m_metalnessTexture r)
    (m_roughnessTexture r).

Definition set_m_metalnessTexture (t : Texture) (r : Renderer) : Renderer :=
  mkRenderer (m_framebuffer r) (m_resolveFramebuffer r) (m_screenQuad r)
    (m_skybox r) (m_pbrModel r) (m_tonemapProgram r) (m_skyboxProgram r)
    (m_pbrProgram r) (m_envTexture r) (m_irmapTexture r) (m_spmapTexture r)
    (m_spBRDF_LUT r) (m_albedoTexture r) (m_normalTexture r) t
    (m_roughnessTexture r).

Definition set_m_roughnessTexture (t : Texture) (r : Renderer) : Renderer :=
  mkRenderer (m_framebuffer r) (m_resolveFramebuffer r) (m_screenQuad r)
    (m_skybox r) (m_pbrModel r) (m_tonemapProgram r) (m_skyboxProgram r)
    (m_pbrProgram r) (m_envTexture r) (m_irmapTexture r) (m_spmapTexture r)
    (m_spBRDF_LUT r) (m_albedoTexture r) (m_normalTexture r)
    (m_metalnessTexture r) t.

(** ** Compute dispatches, read off a sequence of calls *)

(** A [glDispatchCompute] with what was in force when it was issued: the
    mip level of the last [glBindImageTexture] and the value of the last
    [glProgramUniform1f] at the roughness location. *)
Record Dispatch := mkDispatch {
  d_level : option Z;
  d_roughness : option float32;
  d_groups : Z * Z * Z
}.

Fixpoint dispatch_trace (level : option Z) (roughness : option float32)
    (cs : list GLCall) : list Dispatch :=
  match cs with
  | [] => []
  | glBindImageTexture _ _ l _ _ _ _ :: cs' =>
      dispatch_trace (Some l) roughness cs'
  | glProgramUniform1f _ loc v :: cs' =>
      if loc =? SpecularMapRoughness
      then dispatch_trace level (Some v) cs'
      else dispatch_trace level roughness cs'
  | glDispatchCompute x y z :: cs' =>
      mkDispatch level roughness (x, y, z) :: dispatch_trace level roughness cs'
  | _ :: cs' => dispatch_trace level roughness cs'
  end.

(** The mip levels 0, 1, ..., [n]. *)
Definition levels_upto (n : Z) : list Z :=
  map Z.of_nat (seq 0 (Z.to_nat (n + 1))).

(** The arguments of the [glInvalidateNamedFramebufferData] calls. *)
Fixpoint invalidations (cs : list GLCall) : list (GLuint * Z * list GLenum) :=
  match cs with
  | [] => []
  | glInvalidateNamedFramebufferData f n atts :: cs' =>
      (f, n, atts) :: invalidations cs'
  | _ :: cs' => invalidations cs'
  end.

(** How often [cs] deletes the framebuffer object [id]. *)
Fixpoint framebuffer_deletions (id : GLuint) (cs : list GLCall) : nat :=
  match cs with
  | [] => O
  | glDeleteFramebuffers f :: cs' =>
      if f =? id then S (framebuffer_deletions id cs')
      else framebuffer_deletions id cs'
  | _ :: cs' => framebuffer_deletions id cs'
  end.

(** The framebuffer objects [cs] creates, in order. *)
Fixpoint created_framebuffers (cs : list GLCall) : list GLuint :=
  match cs with
  | [] => []
  | glCreateFramebuffers f :: cs' => f :: created_framebuffers cs'
  | _ :: cs' => created_framebuffers cs'
  end.

(** ** Attachments of a framebuffer, read off the calls that built it *)

Inductive Attachment : Type :=
| RenderbufferAttachment (renderbuffer : GLuint)
| TextureAttachment (texture : GLuint) (level : Z).

(** What [attachment] of [framebuffer] holds after the calls [cs]: the
    last attach wins. *)
Fixpoint attachment_of (framebuffer : GLuint) (attachment : GLenum)
    (cs : list GLCall) (current : option Attachment) : option Attachment :=
  match cs with
  | [] => current
  | glNamedFramebufferRenderbuffer f a _ rb :: cs' =>
      if (f =? framebuffer) && (a =? attachment)
      then attachment_of framebuffer attachment cs' (Some (RenderbufferAttachment rb))
      else attachment_of framebuffer attachment cs' current
  | glNamedFramebufferTexture f a t l :: cs' =>
      if (f =? framebuffer) && (a =? attachment)
      then attachment_of framebuffer attachment cs' (Some (TextureAttachment t l))
      else attachment_of framebuffer attachment cs' current
  | _ :: cs' => attachment_of framebuffer attachment cs' current
  end.

Inductive RenderbufferStorage : Type :=
| SingleSample (internalformat : GLenum) (width height : Z)
| Multisample (samples : Z) (internalformat : GLenum) (width height : Z).

(** The storage the calls [cs] gave to [renderbuffer], if it was created
    by them. *)
Fixpoint renderbuffer_storage (renderbuffer : GLuint) (cs : list GLCall)
    (created : bool) (current : option RenderbufferStorage)
  : option RenderbufferStorage :=
  match cs with
  | [] => if created then current else None
  | glCreateRenderbuffers rb :: cs' =>
      if rb =? renderbuffer
      then renderbuffer_storage renderbuffer cs' true None
      else renderbuffer_storage renderbuffer cs' created current
  | glNamedRenderbufferStorage rb f w h :: cs' =>
      if rb =? renderbuffer
      then renderbuffer_storage renderbuffer cs' created (Some (SingleSample f w h))
      else renderbuffer_storage renderbuffer cs' created current
  | glNamedRenderbufferStorageMultisample rb s f w h :: cs' =>
      if rb =? renderbuffer
      then renderbuffer_storage renderbuffer cs' created (Some (Multisample s f w h))
      else renderbuffer_storage renderbuffer cs' created current
  | _ :: cs' => renderbuffer_storage renderbuffer cs' created current
  end.

(** The target and storage [(target, levels, format, width, height)] the
    calls [cs] gave to [texture], if it was created by them. *)
Fixpoint texture_storage (texture : GLuint) (cs : list GLCall)
    (target : option GLenum) (current : option (Z * GLenum * Z * Z))
  : option (GLenum * (Z * GLenum * Z * Z)) :=
  match cs with
  | [] => match target, current with
          | Some tg, Some st => Some (tg, st)
          | _, _ => None
          end
  | glCreateTextures tg t :: cs' =>
      if t =? texture
      then texture_storage texture cs' (Some tg) None
      else texture_storage texture cs' target current
  | glTextureStorage2D t l f w h :: cs' =>
      if t =? texture
      then texture_storage texture cs' target (Some (l, f, w, h))
      else texture_storage texture cs' target current
  | _ :: cs' => texture_storage texture cs' target current
  end.

(** The kinds of attachment [createFrameBuffer] makes, as a statement
    about the calls [cs]: what the attachment point holds and the storage
    of the object attached. *)
Definition is_multisampled_renderbuffer (cs : list GLCall) (a : option Attachment)
    (rb samples : Z) (internalformat : GLenum) (width height : Z) : Prop :=
  a = Some (RenderbufferAttachment rb) /\
  renderbuffer_storage rb cs false None =
    Some (Multisample samples internalformat width height).

Definition is_single_sample_renderbuffer (cs : list GLCall) (a : option Attachment)
    (rb : Z) (internalformat : GLenum) (width height : Z) : Prop :=
  a = Some (RenderbufferAttachment rb) /\
  renderbuffer_storage rb cs false None =
    Some (SingleSample internalformat width height).

Definition is_sampleable_texture (cs : list GLCall) (a : option Attachment)
    (t : Z) (internalformat : GLenum) (width height : Z) : Prop :=
  a = Some (TextureAttachment t 0) /\
  texture_storage t cs None None =
    Some (GL_TEXTURE_2D, (1, internalformat, width, height)).

(** ** The member functions of [OpenGL::Renderer] *)

Section Renderer.

Variable B : Backend.
Variable build : Build.
Variable glm : Glm.

(** The default argument of [levels] in the declaration of
    [createTexture(GLenum, int, int, GLenum, int)] in opengl.hpp. *)
Variable createTexture_default_levels : Z.

(** *** Program builder *)

(** The buffer for the info log has the length the backend reports.
    [new GLchar[n]] throws for a negative [n].  For [n = 0] the buffer
    holds no character and [glGetShaderInfoLog] and [glGetProgramInfoLog]
    write nothing: to read the buffer as a C string, as the message does,
    is undefined. *)
Definition compileShader (filename : string) (type : GLenum) : GL GLuint :=
  let src := File_readText B filename in
  if String.eqb src EmptyString then
    throw (String.append "Cannot read shader source file: " filename)
  else
    call (printf (String.append "Compiling GLSL shader: "
                    (String.append filename newline))) ;;
    shader <- fresh_shader_program ;;
    call (glCreateShader type shader) ;;
    call (glShaderSource shader src) ;;
    call (glCompileShader shader) ;;
    call (glGetShaderiv shader GL_COMPILE_STATUS) ;;
    let status := compile_status B shader in
    if negb (status =? GL_TRUE) then
      call (glGetShaderiv shader GL_INFO_LOG_LENGTH) ;;
      let infoLogSize := shader_info_log_length B shader in
      if infoLogSize <? 0 then throw (bad_array_new_length_what B)
      else
        call (glGetShaderInfoLog shader infoLogSize) ;;
        if infoLogSize =? 0 then undefined
        else
          throw (String.append "Shader compilation failed: "
                   (String.append filename
                      (String.append newline
                         (info_log_read infoLogSize (shader_info_log B shader)))))
    else ret shader.

Definition linkProgram (shaders : list GLuint) : GL GLuint :=
  program <- fresh_shader_program ;;
  call (glCreateProgram program) ;;
  for_each shaders (fun shader => call (glAttachShader program shader)) ;;
  call (glLinkProgram program) ;;
  for_each shaders (fun shader =>
    call (glDetachShader program shader) ;;
    call (glDeleteShader shader)) ;;
  call (glGetProgramiv program GL_LINK_STATUS) ;;
  status <- (let status := link_status B program in
             if status =? GL_TRUE then
               call (glValidateProgram program) ;;
               call (glGetProgramiv program GL_VALIDATE_STATUS) ;;
               ret (validate_status B program)
             else ret status) ;;
  if negb (status =? GL_TRUE) then
    call (glGetProgramiv program GL_INFO_LOG_LENGTH) ;;
    let infoLogSize := program_info_log_length B program in
    if infoLogSize <? 0 then throw (bad_array_new_length_what B)
    else
      call (glGetProgramInfoLog program infoLogSize) ;;
      if infoLogSize =? 0 then undefined
      else
        throw (String.append "Program link failed"
                 (String.append newline
                    (info_log_read infoLogSize (program_info_log B program))))
  else ret program.

(** *** Textures *)

(** [while ((width|height) >> texture.levels) ++texture.levels;]
    The count starts at 1 and the shift is undefined from 32 on, so 32
    rounds of the loop are all there can be. *)
Fixpoint mip_levels_loop (rounds : nat) (wh levels : Z) : outcome Z :=
  match rounds with
  | O => Undefined
  | S rounds' =>
      match int_shr wh levels with
      | None => Undefined
      | Some 0 => Ok levels
      | Some _ => mip_levels_loop rounds' wh (levels + 1)
      end
  end.

Definition createTexture (target : GLenum) (width height : Z)
    (internalformat : GLenum) (levels : Z) : GL Texture :=
  levels <- (if levels <=? 0
             then lift (mip_levels_loop 32 (Z.lor width height) 1)
             else ret levels) ;;
  id <- fresh_texture ;;
  call (glCreateTextures target id) ;;
  call (glTextureStorage2D id levels internalformat width height) ;;
  call (glTextureParameteri id GL_TEXTURE_MIN_FILTER
          (if 1 <? levels then GL_LINEAR_MIPMAP_LINEAR else GL_LINEAR)) ;;
  call (glTextureParameteri id GL_TEXTURE_MAG_FILTER GL_LINEAR) ;;
  ret (mkTexture id width height levels).

(** The handle is passed by reference: the function returns what it
    holds afterwards. *)
Definition deleteTexture (texture : Texture) : GL Texture :=
  call (glDeleteTextures (tex_id texture)) ;;
  ret Texture_zeroed.

(** *** Framebuffers *)

Definition createFrameBuffer (width height samples : Z)
    (colorFormat depthstencilFormat : GLenum) : GL FrameBuffer :=
  let fb := FrameBuffer_default in
  id <- fresh_framebuffer ;;
  call (glCreateFramebuffers id) ;;
  colorTarget <-
    (if negb (colorFormat =? GL_NONE) then
       if 0 <? samples then
         rb <- fresh_renderbuffer ;;
         call (glCreateRenderbuffers rb) ;;
         call (glNamedRenderbufferStorageMultisample rb samples colorFormat width height) ;;
         call (glNamedFramebufferRenderbuffer id GL_COLOR_ATTACHMENT0 GL_RENDERBUFFER rb) ;;
         ret rb
       else
         t <- fresh_texture ;;
         call (glCreateTextures GL_TEXTURE_2D t) ;;
         call (glTextureStorage2D t 1 colorFormat width height) ;;
         call (glNamedFramebufferTexture id GL_COLOR_ATTACHMENT0 t 0) ;;
         ret t
     else ret (fb_colorTarget fb)) ;;
  depthStencilTarget <-
    (if negb (depthstencilFormat =? GL_NONE) then
       rb <- fresh_renderbuffer ;;
       call (glCreateRenderbuffers rb) ;;
       (if 0 <? samples
        then call (glNamedRenderbufferStorageMultisample rb samples depthstencilFormat width height)
        else call (glNamedRenderbufferStorage rb depthstencilFormat width height)) ;;
       call (glNamedFramebufferRenderbuffer id GL_DEPTH_STENCIL_ATTACHMENT GL_RENDERBUFFER rb) ;;
       ret rb
     else ret (fb_depthStencilTarget fb)) ;;
  call (glCheckNamedFramebufferStatus id GL_DRAW_FRAMEBUFFER) ;;
  let status := framebuffer_status B id in
  if negb (status =? GL_FRAMEBUFFER_COMPLETE) then
    throw (String.append "Framebuffer completeness check failed: " (to_string status))
  else
    ret (mkFrameBuffer id colorTarget depthStencilTarget width height samples).

(** The attachment list [resolveFramebuffer] builds with [push_back]. *)
Definition resolve_attachments (srcfb : FrameBuffer) : list GLenum :=
  (if negb (fb_colorTarget srcfb =? 0) then [GL_COLOR_ATTACHMENT0] else []) ++
  (if negb (fb_depthStencilTarget srcfb =? 0) then [GL_DEPTH_STENCIL_ATTACHMENT] else []).

(** The corners [width-1] and [height-1] are computed in [int].  The
    argument [&attachments[0]] is evaluated after the blit: on an empty
    vector a checked [operator[]] aborts there, an unchecked one gives
    the pointer of the vector and the call is made with 0 attachments. *)
Definition resolveFramebuffer (srcfb dstfb : FrameBuffer) : GL unit :=
  if fb_id srcfb =? fb_id dstfb then ret tt
  else
    let attachments := resolve_attachments srcfb in
    when (negb (NDEBUG build)) (assert (0 <? Z.of_nat (List.length attachments))) ;;
    call (glBlitNamedFramebuffer (fb_id srcfb) (fb_id dstfb)
            0 0 (to_int (fb_width srcfb - 1)) (to_int (fb_height srcfb - 1))
            0 0 (to_int (fb_width dstfb - 1)) (to_int (fb_height dstfb - 1))
            GL_COLOR_BUFFER_BIT GL_NEAREST) ;;
    when (checked_subscript build)
      (assert (0 <? Z.of_nat (List.length attachments))) ;;
    call (glInvalidateNamedFramebufferData (fb_id srcfb)
            (Z.of_nat (List.length attachments)) attachments).

Definition deleteFrameBuffer (fb : FrameBuffer) : GL FrameBuffer :=
  when (negb (fb_id fb =? 0)) (call (glDeleteFramebuffers (fb_id fb))) ;;
  when (negb (fb_colorTarget fb =? 0))
    (if fb_samples fb =? 0
     then call (glDeleteTextures (fb_colorTarget fb))
     else call (glDeleteRenderbuffers (fb_colorTarget fb))) ;;
  when (negb (fb_depthStencilTarget fb =? 0))
    (call (glDeleteRenderbuffers (fb_depthStencilTarget fb))) ;;
  ret FrameBuffer_zeroed.

(** *** Vertex buffers *)

Definition deleteVertexBuffer (buffer : VertexBuffer) : GL VertexBuffer :=
  when (negb (vb_vao buffer =? 0)) (call (glDeleteVertexArrays (vb_vao buffer))) ;;
  when (negb (vb_vbo buffer =? 0)) (call (glDeleteBuffers (vb_vbo buffer))) ;;
  when (negb (vb_ibo buffer =? 0)) (call (glDeleteBuffers (vb_ibo buffer))) ;;
  ret VertexBuffer_zeroed.

(** *** Facade *)

(** [f(m_member)] for an [f] that takes the handle by reference. *)
Definition on_member {T} (member : Renderer -> T)
    (set_member : T -> Renderer -> Renderer) (f : T -> GL T) : GL unit :=
  r <- get_this ;;
  x <- f (member r) ;;
  modify_this (set_member x).

Definition initialize (width height samples : Z) : GL GLFWwindow :=
  call (glfwWindowHint GLFW_CLIENT_API GLFW_OPENGL_API) ;;
  call (glfwWindowHint GLFW_OPENGL_PROFILE GLFW_OPENGL_CORE_PROFILE) ;;
  call (glfwWindowHint GLFW_CONTEXT_VERSION_MAJOR 4) ;;
  call (glfwWindowHint GLFW_CONTEXT_VERSION_MINOR 5) ;;
  when (_DEBUG build) (call (glfwWindowHint GLFW_OPENGL_DEBUG_CONTEXT GL_TRUE)) ;;
  call (glfwWindowHint GLFW_DEPTH_BITS 0) ;;
  call (glfwWindowHint GLFW_STENCIL_BITS 0) ;;
  call (glfwWindowHint GLFW_SAMPLES 0) ;;
  call (glfwCreateWindow width height "Physically Based Rendering (OpenGL 4.5)") ;;
  let window := glfwCreateWindow_result B width height in
  if window =? nullptr then throw "Failed to create OpenGL context"
  else
    call (glfwMakeContextCurrent window) ;;
    call (glfwSwapInterval (-1)) ;;
    call gladLoadGLLoader ;;
    if negb (gladLoadGLLoader_result B) then
      throw "Failed to initialize OpenGL extensions loader"
    else
      when (_DEBUG build)
        (call glDebugMessageCallback ;;
         call (glEnable GL_DEBUG_OUTPUT_SYNCHRONOUS)) ;;
      fb <- createFrameBuffer width height samples GL_RGBA16F GL_DEPTH24_STENCIL8 ;;
      modify_this (set_m_framebuffer fb) ;;
      (if 0 <? samples then
         fb' <- createFrameBuffer width height 0 GL_RGBA16F GL_NONE ;;
         modify_this (set_m_resolveFramebuffer fb')
       else
         r <- get_this ;;
         modify_this (set_m_resolveFramebuffer (m_framebuffer r))) ;;
      ret window.

Definition shutdown : GL unit :=
  r <- get_this ;;
  when (negb (fb_id (m_framebuffer r) =? fb_id (m_resolveFramebuffer r)))
    (on_member m_resolveFramebuffer set_m_resolveFramebuffer deleteFrameBuffer) ;;
  on_member m_framebuffer set_m_framebuffer deleteFrameBuffer ;;
  on_member m_screenQuad set_m_screenQuad deleteVertexBuffer ;;
  on_member m_skybox set_m_skybox deleteVertexBuffer ;;
  on_member m_pbrModel set_m_pbrModel deleteVertexBuffer ;;
  r <- get_this ;;
  call (glDeleteProgram (m_tonemapProgram r)) ;;
  call (glDeleteProgram (m_skyboxProgram r)) ;;
  call (glDeleteProgram (m_pbrProgram r)) ;;
  on_member m_envTexture set_m_envTexture deleteTexture ;;
  on_member m_irmapTexture set_m_irmapTexture deleteTexture ;;
  on_member m_spmapTexture set_m_spmapTexture deleteTexture ;;
  on_member m_spBRDF_LUT set_m_spBRDF_LUT deleteTexture ;;
  on_member m_albedoTexture set_m_albedoTexture deleteTexture ;;
  on_member m_normalTexture set_m_normalTexture deleteTexture ;;
  on_member m_metalnessTexture set_m_metalnessTexture deleteTexture ;;
  on_member m_roughnessTexture set_m_roughnessTexture deleteTexture.

(** *** Setup: the pre-filtered specular cubemap (lines 161 to 179) *)

(** [for(int level=0, size=1024; level<=m_spmapTexture.levels;
         ++level, size/=2)].
    [rounds] bounds the number of rounds for the recursion; with
    [levels + 1] of them the first branch of [O] is not reached.
    [++level] is undefined at [INT_MAX]. *)
Fixpoint spmap_loop (rounds : nat) (spmapProgram : GLuint)
    (deltaRoughness : float32) (level size : Z) : GL unit :=
  r <- get_this ;;
  if level <=? tex_levels (m_spmapTexture r) then
    match rounds with
    | O => undefined
    | S rounds' =>
        let numGroups := Z.max 1 (int_div size 32) in
        call (glBindImageTexture 0 (tex_id (m_spmapTexture r)) level GL_TRUE 0
                GL_WRITE_ONLY GL_RGBA16F) ;;
        call (glProgramUniform1f spmapProgram SpecularMapRoughness
                (F32.mul (F32.of_int level) deltaRoughness)) ;;
        call (glDispatchCompute numGroups numGroups 6) ;;
        if level =? INT_MAX then undefined
        else spmap_loop rounds' spmapProgram deltaRoughness
               (level + 1) (int_div size 2)
    end
  else ret tt.

(** Lines 168 to 177: the roughness step and the dispatch loop. *)
Definition spmap_prefilter (spmapProgram : GLuint) : GL unit :=
  r <- get_this ;;
  let deltaRoughness :=
    F32.div F32.one
      (F32.max (F32.of_int (tex_levels (m_spmapTexture r) - 1)) F32.one) in
  call (glUseProgram spmapProgram) ;;
  call (glBindTextureUnit 0 (tex_id (m_envTexture r))) ;;
  spmap_loop (Z.to_nat (tex_levels (m_spmapTexture r) + 1)) spmapProgram
    deltaRoughness 0 1024.

Definition setup_spmap : GL unit :=
  shader <- compileShader "shaders/glsl/spmap_cs.glsl" GL_COMPUTE_SHADER ;;
  spmapProgram <- linkProgram [shader] ;;
  t <- createTexture GL_TEXTURE_CUBE_MAP 1024 1024 GL_RGBA16F
         createTexture_default_levels ;;
  modify_this (set_m_spmapTexture t) ;;
  spmap_prefilter spmapProgram ;;
  call (glDeleteProgram spmapProgram).

(** *** Frame *)

(** The matrices [render] derives from the view settings. *)
Definition projMatrix (r : Renderer) (view : ViewSettings) : mat4 :=
  perspectiveFov glm (view_fov view)
    (F32.of_int (fb_width (m_framebuffer r)))
    (F32.of_int (fb_height (m_framebuffer r)))
    (F32.of_int 1) (F32.of_int 1000).

Definition rotationMatrix (view : ViewSettings) : mat4 :=
  eulerAngleXY glm (radians glm (view_pitch view)) (radians glm (view_yaw view)).

Definition viewMatrix (view : ViewSettings) : mat4 :=
  mat4_mul glm
    (translate glm (mat4_default glm)
       [F32.zero; F32.zero; F32.neg (view_distance view)])
    (rotationMatrix view).

Definition eyePosition (view : ViewSettings) : vec3 :=
  column3_xyz (inverse glm (viewMatrix view)).

Definition render (window : GLFWwindow) (view : ViewSettings) : GL unit :=
  r <- get_this ;;
  call (glProgramUniformMatrix4fv (m_skyboxProgram r) ViewProjectionMatrix 1
          GL_FALSE (mat4_mul glm (projMatrix r view) (rotationMatrix view))) ;;
  call (glProgramUniformMatrix4fv (m_pbrProgram r) ViewProjectionMatrix 1
          GL_FALSE (mat4_mul glm (projMatrix r view) (viewMatrix view))) ;;
  call (glProgramUniform3fv (m_pbrProgram r) EyePosition 1 (eyePosition view)) ;;
  call (glBindFramebuffer GL_FRAMEBUFFER (fb_id (m_framebuffer r))) ;;
  call (glClear GL_DEPTH_BUFFER_BIT) ;;
  call (glDisable GL_DEPTH_TEST) ;;
  call (glUseProgram (m_skyboxProgram r)) ;;
  call (glBindTextureUnit 0 (tex_id (m_envTexture r))) ;;
  call (glBindVertexArray (vb_vao (m_skybox r))) ;;
  call (glDrawElements GL_TRIANGLES (to_int (vb_numElements (m_skybox r)))
          GL_UNSIGNED_INT 0) ;;
  call (glEnable GL_DEPTH_TEST) ;;
  call (glUseProgram (m_pbrProgram r)) ;;
  call (glBindTextureUnit 0 (tex_id (m_albedoTexture r))) ;;
  call (glBindTextureUnit 1 (tex_id (m_normalTexture r))) ;;
  call (glBindTextureUnit 2 (tex_id (m_metalnessTexture r))) ;;
  call (glBindTextureUnit 3 (tex_id (m_roughnessTexture r))) ;;
  call (glBindTextureUnit 4 (tex_id (m_irmapTexture r))) ;;
  call (glBindTextureUnit 5 (tex_id (m_spmapTexture r))) ;;
  call (glBindTextureUnit 6 (tex_id (m_spBRDF_LUT r))) ;;
  call (glBindVertexArray (vb_vao (m_pbrModel r))) ;;
  call (glDrawElements GL_TRIANGLES (to_int (vb_numElements (m_pbrModel r)))
          GL_UNSIGNED_INT 0) ;;
  resolveFramebuffer (m_framebuffer r) (m_resolveFramebuffer r) ;;
  call (glBindFramebuffer GL_FRAMEBUFFER 0) ;;
  call (glUseProgram (m_tonemapProgram r)) ;;
  call (glBindTextureUnit 0 (fb_colorTarget (m_resolveFramebuffer r))) ;;
  call (glBindVertexArray (vb_vao (m_screenQuad r))) ;;
  call (glDrawArrays GL_TRIANGLE_STRIP 0 4) ;;
  call (glfwSwapBuffers window).

End Renderer.

(** ** The calls of one frame *)

Section Frame.

Variable glm : Glm.

(** The uniforms pushed at the start of the frame: the only calls whose
    arguments depend on the view settings. *)
Definition frame_uniforms (r : Renderer) (view : ViewSettings) : list GLCall :=
  [ glProgramUniformMatrix4fv (m_skyboxProgram r) ViewProjectionMatrix 1 GL_FALSE
      (mat4_mul glm (projMatrix glm r view) (rotationMatrix glm view));
    glProgramUniformMatrix4fv (m_pbrProgram r) ViewProjectionMatrix 1 GL_FALSE
      (mat4_mul glm (projMatrix glm r view) (viewMatrix glm view));
    glProgramUniform3fv (m_pbrProgram r) EyePosition 1 (eyePosition glm view) ].

End Frame.

Definition frame_clear (r : Renderer) : list GLCall :=
  [ glBindFramebuffer GL_FRAMEBUFFER (fb_id (m_framebuffer r));
    glClear GL_DEPTH_BUFFER_BIT ].

Definition frame_skybox (r : Renderer) : list GLCall :=
  [ glDisable GL_DEPTH_TEST;
    glUseProgram (m_skyboxProgram r);
    glBindTextureUnit 0 (tex_id (m_envTexture r));
    glBindVertexArray (vb_vao (m_skybox r));
    glDrawElements GL_TRIANGLES (to_int (vb_numElements (m_skybox r)))
      GL_UNSIGNED_INT 0 ].

Definition frame_model (r : Renderer) : list GLCall :=
  [ glEnable GL_DEPTH_TEST;
    glUseProgram (m_pbrProgram r);
    glBindTextureUnit 0 (tex_id (m_albedoTexture r));
    glBindTextureUnit 1 (tex_id (m_normalTexture r));
    glBindTextureUnit 2 (tex_id (m_metalnessTexture r));
    glBindTextureUnit 3 (tex_id (m_roughnessTexture r));
    glBindTextureUnit 4 (tex_id (m_irmapTexture r));
    glBindTextureUnit 5 (tex_id (m_spmapTexture r));
    glBindTextureUnit 6 (tex_id (m_spBRDF_LUT r));
    glBindVertexArray (vb_vao (m_pbrModel r));
    glDrawElements GL_TRIANGLES (to_int (vb_numElements (m_pbrModel r)))
      GL_UNSIGNED_INT 0 ].

(** The calls of a [resolveFramebuffer(src, dst)] that returns. *)
Definition resolve_calls (srcfb dstfb : FrameBuffer) : list GLCall :=
  if fb_id srcfb =? fb_id dstfb then []
  else
    [ glBlitNamedFramebuffer (fb_id srcfb) (fb_id dstfb)
        0 0 (to_int (fb_width srcfb - 1)) (to_int (fb_height srcfb - 1))
        0 0 (to_int (fb_width dstfb - 1)) (to_int (fb_height dstfb - 1))
        GL_COLOR_BUFFER_BIT GL_NEAREST;
      glInvalidateNamedFramebufferData (fb_id srcfb)
        (Z.of_nat (List.length (resolve_attachments srcfb)))
        (resolve_attachments srcfb) ].

Definition frame_resolve (r : Renderer) : list GLCall :=
  resolve_calls (m_framebuffer r) (m_resolveFramebuffer r).

Definition frame_tonemap (r : Renderer) : list GLCall :=
  [ glBindFramebuffer GL_FRAMEBUFFER 0;
    glUseProgram (m_tonemapProgram r);
    glBindTextureUnit 0 (fb_colorTarget (m_resolveFramebuffer r));
    glBindVertexArray (vb_vao (m_screenQuad r));
    glDrawArrays GL_TRIANGLE_STRIP 0 4 ].

Definition frame_present (window : GLFWwindow) : list GLCall :=
  [ glfwSwapBuffers window ].

(** What [resolveFramebuffer] asserts of its source, or the case in which
    it does not look: the framebuffers [initialize] stores are of this
    kind. *)
Definition resolvable (srcfb dstfb : FrameBuffer) : Prop :=
  fb_id srcfb = fb_id dstfb \/
  fb_colorTarget srcfb <> 0 \/ fb_depthStencilTarget srcfb <> 0.

(** ** A concrete context, to run the model in *)

(** A backend in which every query succeeds. *)
Definition willing_backend : Backend :=
  mkBackend (fun _ _ => 1) true (fun _ => "void main() {}")
    (fun _ => GL_TRUE) (fun _ => 0) (fun _ => EmptyString)
    (fun _ => GL_TRUE) (fun _ => GL_TRUE) (fun _ => 0) (fun _ => EmptyString)
    (fun _ => GL_FRAMEBUFFER_COMPLETE) "std::bad_array_new_length".



(** A stand-in for glm whose matrices are all zero. *)
Definition flat_glm : Glm :=
  let O16 := repeat F32.zero 16 in
  mkGlm (fun _ _ _ _ _ => O16) (fun _ _ => O16) (fun x => x)
    (fun m _ => m) O16 (fun m => m) (fun m _ => m).

(** A build with [assert] and an unchecked [operator[]], one with
    neither, and one without [assert] whose library checks [operator[]]. *)
Definition debug_build : Build := mkBuild false false false.
Definition release_build : Build := mkBuild false true false.
Definition hardened_build : Build := mkBuild false true true.

(** A renderer whose handles are all empty, in a context that has handed
    out no name yet. *)
Definition blank_renderer : Renderer :=
  mkRenderer FrameBuffer_default FrameBuffer_default
    VertexBuffer_default VertexBuffer_default VertexBuffer_default 0 0 0
    Texture_default Texture_default Texture_default Texture_default
    Texture_default Texture_default Texture_default Texture_default.

Definition blank_world : World := mkWorld blank_renderer (mkNames 1 1 1 1).

Definition still_view : ViewSettings :=
  mkViewSettings F32.zero F32.zero F32.zero (F32.of_int 1).

(** ** The calls of [linkProgram] *)

(** The calls of [linkProgram] up to and including the query of the link
    status: they do not depend on what the backend answers. *)
Definition link_calls (program : GLuint) (shaders : list GLuint) : list GLCall :=
  glCreateProgram program ::
  flat_map (fun shader => [glAttachShader program shader]) shaders ++
  glLinkProgram program ::
  flat_map (fun shader => [glDetachShader program shader; glDeleteShader shader])
    shaders ++
  [glGetProgramiv program GL_LINK_STATUS].

Definition validate_calls (program : GLuint) : list GLCall :=
  [glValidateProgram program; glGetProgramiv program GL_VALIDATE_STATUS].

(** The calls of the failure path: the log is fetched into a buffer of the
    length the backend reports, unless that length is negative and the
    buffer is not made. *)
Definition info_log_calls (B : Backend) (program : GLuint) : list GLCall :=
  glGetProgramiv program GL_INFO_LOG_LENGTH ::
  (if program_info_log_length B program <? 0 then []
   else [glGetProgramInfoLog program (program_info_log_length B program)]).

Definition link_failure (B : Backend) (program : GLuint) : string :=
  String.append "Program link failed"
    (String.append newline
       (info_log_read (program_info_log_length B program)
          (program_info_log B program))).

(** How [linkProgram] ends when a status is not [GL_TRUE]: with no
    buffer for a negative length, with a read past the buffer of length
    0, which holds no terminator, and with the message otherwise. *)
Definition link_abort (B : Backend) (program : GLuint) : outcome GLuint :=
  if program_info_log_length B program <? 0
  then Throw (bad_array_new_length_what B)
  else if program_info_log_length B program =? 0 then Undefined
  else Throw (link_failure B program).

Definition names_after_program (n : Names) : Names :=
  mkNames (next_texture n) (next_renderbuffer n) (next_framebuffer n)
    (next_shader_program n + 1).

(** ** The calls of the delete functions and of [shutdown] *)

Definition deleteFrameBuffer_calls (fb : FrameBuffer) : list GLCall :=
  (if fb_id fb =? 0 then [] else [glDeleteFramebuffers (fb_id fb)]) ++
  (if fb_colorTarget fb =? 0 then []
   else if fb_samples fb =? 0 then [glDeleteTextures (fb_colorTarget fb)]
        else [glDeleteRenderbuffers (fb_colorTarget fb)]) ++
  (if fb_depthStencilTarget fb =? 0 then []
   else [glDeleteRenderbuffers (fb_depthStencilTarget fb)]).

Definition deleteVertexBuffer_calls (buffer : VertexBuffer) : list GLCall :=
  (if vb_vao buffer =? 0 then [] else [glDeleteVertexArrays (vb_vao buffer)]) ++
  (if vb_vbo buffer =? 0 then [] else [glDeleteBuffers (vb_vbo buffer)]) ++
  (if vb_ibo buffer =? 0 then [] else [glDeleteBuffers (vb_ibo buffer)]).

(** Everything [shutdown] calls after the two framebuffers. *)
Definition shutdown_rest_calls (r : Renderer) : list GLCall :=
  deleteVertexBuffer_calls (m_screenQuad r) ++
  deleteVertexBuffer_calls (m_skybox r) ++
  deleteVertexBuffer_calls (m_pbrModel r) ++
  [ glDeleteProgram (m_tonemapProgram r);
    glDeleteProgram (m_skyboxProgram r);
    glDeleteProgram (m_pbrProgram r);
    glDeleteTextures (tex_id (m_envTexture r));
    glDeleteTextures (tex_id (m_irmapTexture r));
    glDeleteTextures (tex_id (m_spmapTexture r));
    glDeleteTextures (tex_id (m_spBRDF_LUT r));
    glDeleteTextures (tex_id (m_albedoTexture r));
    glDeleteTextures (tex_id (m_normalTexture r));
    glDeleteTextures (tex_id (m_metalnessTexture r));
    glDeleteTextures (tex_id (m_roughnessTexture r)) ].

Definition shutdown_calls (r : Renderer) : list GLCall :=
  (if fb_id (m_framebuffer r) =? fb_id (m_resolveFramebuffer r) then []
   else deleteFrameBuffer_calls (m_resolveFramebuffer r)) ++
  deleteFrameBuffer_calls (m_framebuffer r) ++
  shutdown_rest_calls r.

(** ** The calls of the specular prefilter *)

(** The group count the claim gives for mip level [L]. *)
Definition spmap_groups (L : Z) : Z := Z.max 1 (Z.shiftr 1024 L / 32).

(** One round of the dispatch loop, at mip level [L]. *)
Definition spmap_level_calls (program texture : GLuint)
    (deltaRoughness : float32) (L : Z) : list GLCall :=
  [ glBindImageTexture 0 texture L GL_TRUE 0 GL_WRITE_ONLY GL_RGBA16F;
    glProgramUniform1f program SpecularMapRoughness
      (F32.mul (F32.of_int L) deltaRoughness);
    glDispatchCompute (spmap_groups L) (spmap_groups L) 6 ].

(** The roughness step for a texture of [levels] mip levels. *)
Definition spmap_deltaRoughness (levels : Z) : float32 :=
  F32.div F32.one (F32.max (F32.of_int (levels - 1)) F32.one).

(** The level count [createTexture] gives the 1024 x 1024 cubemap. *)
Definition spmap_levels (default_levels : Z) : Z :=
  if default_levels <=? 0 then 11 else default_levels.

(** The calls of the stage before its dispatch loop, when the shader
    compiles and the program links. *)
Definition spmap_prologue (B : Backend) (w : World) (levels : Z) : list GLCall :=
  let shader := next_shader_program (names w) in
  let program := shader + 1 in
  let texture := next_texture (names w) in
  [ printf (String.append "Compiling GLSL shader: "
              (String.append "shaders/glsl/spmap_cs.glsl" newline));
    glCreateShader GL_COMPUTE_SHADER shader;
    glShaderSource shader (File_readText B "shaders/glsl/spmap_cs.glsl");
    glCompileShader shader;
    glGetShaderiv shader GL_COMPILE_STATUS ] ++
  link_calls program [shader] ++ validate_calls program ++
  [ glCreateTextures GL_TEXTURE_CUBE_MAP texture;
    glTextureStorage2D texture levels GL_RGBA16F 1024 1024;
    glTextureParameteri texture GL_TEXTURE_MIN_FILTER
      (if 1 <? levels then GL_LINEAR_MIPMAP_LINEAR else GL_LINEAR);
    glTextureParameteri texture GL_TEXTURE_MAG_FILTER GL_LINEAR;
    glUseProgram program;
    glBindTextureUnit 0 (tex_id (m_envTexture (this w))) ].

(** The messages of [compileShader]. *)
Definition read_failure (filename : string) : string :=
  String.append "Cannot read shader source file: " filename.

Definition compile_failure (B : Backend) (filename : string) (shader : GLuint)
  : string :=
  String.append "Shader compilation failed: "
    (String.append filename
       (String.append newline
          (info_log_read (shader_info_log_length B shader)
             (shader_info_log B shader)))).

(** The calls and the end of [compileShader] when the compile status is
    not [GL_TRUE]. *)
Definition shader_info_log_calls (B : Backend) (shader : GLuint) : list GLCall :=
  glGetShaderiv shader GL_INFO_LOG_LENGTH ::
  (if shader_info_log_length B shader <? 0 then []
   else [glGetShaderInfoLog shader (shader_info_log_length B shader)]).

Definition compile_abort (B : Backend) (filename : string) (shader : GLuint)
  : outcome GLuint :=
  if shader_info_log_length B shader <? 0
  then Throw (bad_array_new_length_what B)
  else if shader_info_log_length B shader =? 0 then Undefined
  else Throw (compile_failure B filename shader).

(** ** Backend objects, read off a sequence of calls *)

(** A backend object: its kind and its name. *)
Inductive GLObject : Type :=
| TextureObject (name : GLuint)
| RenderbufferObject (name : GLuint)
| FramebufferObject (name : GLuint)
| ShaderObject (name : GLuint)
| ProgramObject (name : GLuint)
| BufferObject (name : GLuint)
| VertexArrayObject (name : GLuint).

(** The objects the calls [cs] create, in order. *)
Fixpoint created_objects (cs : list GLCall) : list GLObject :=
  match cs with
  | [] => []
  | glCreateTextures _ t :: cs' => TextureObject t :: created_objects cs'
  | glCreateRenderbuffers rb :: cs' => RenderbufferObject rb :: created_objects cs'
  | glCreateFramebuffers f :: cs' => FramebufferObject f :: created_objects cs'
  | glCreateShader _ s :: cs' => ShaderObject s :: created_objects cs'
  | glCreateProgram p :: cs' => ProgramObject p :: created_objects cs'
  | _ :: cs' => created_objects cs'
  end.

(** The objects the calls [cs] delete, in order. *)
Fixpoint deleted_objects (cs : list GLCall) : list GLObject :=
  match cs with
  | [] => []
  | glDeleteTextures t :: cs' => TextureObject t :: deleted_objects cs'
  | glDeleteRenderbuffers rb :: cs' => RenderbufferObject rb :: deleted_objects cs'
  | glDeleteFramebuffers f :: cs' => FramebufferObject f :: deleted_objects cs'
  | glDeleteShader s :: cs' => ShaderObject s :: deleted_objects cs'
  | glDeleteProgram p :: cs' => ProgramObject p :: deleted_objects cs'
  | glDeleteBuffers b :: cs' => BufferObject b :: deleted_objects cs'
  | glDeleteVertexArrays a :: cs' => VertexArrayObject a :: deleted_objects cs'
  | _ :: cs' => deleted_objects cs'
  end.

(** The renderer [shutdown] leaves behind: every handle it passed to a
    delete function is zeroed, the programs keep their names, and the
    resolve framebuffer is passed to [deleteFrameBuffer] only when its
    identifier differs from the main one's. *)
Definition Renderer_after_shutdown (r : Renderer) : Renderer :=
  mkRenderer FrameBuffer_zeroed
    (if fb_id (m_framebuffer r) =? fb_id (m_resolveFramebuffer r)
     then m_resolveFramebuffer r else FrameBuffer_zeroed)
    VertexBuffer_zeroed VertexBuffer_zeroed VertexBuffer_zeroed
    (m_tonemapProgram r) (m_skyboxProgram r) (m_pbrProgram r)
    Texture_zeroed Texture_zeroed Texture_zeroed Texture_zeroed
    Texture_zeroed Texture_zeroed Texture_zeroed Texture_zeroed.

(** The calls of [createFrameBuffer], whatever the completeness check
    answers. *)
Definition createFrameBuffer_calls (w : World) (width height samples : Z)
    (colorFormat depthstencilFormat : GLenum) : list GLCall :=
  let id := next_framebuffer (names w) in
  let color_rb := next_renderbuffer (names w) in
  let depth_rb :=
    if negb (colorFormat =? GL_NONE) && (0 <? samples)
    then next_renderbuffer (names w) + 1 else next_renderbuffer (names w) in
  let t := next_texture (names w) in
  [glCreateFramebuffers id] ++
  (if colorFormat =? GL_NONE then []
   else if 0 <? samples then
     [ glCreateRenderbuffers color_rb;
       glNamedRenderbufferStorageMultisample color_rb samples colorFormat width height;
       glNamedFramebufferRenderbuffer id GL_COLOR_ATTACHMENT0 GL_RENDERBUFFER color_rb ]
   else
     [ glCreateTextures GL_TEXTURE_2D t;
       glTextureStorage2D t 1 colorFormat width height;
       glNamedFramebufferTexture id GL_COLOR_ATTACHMENT0 t 0 ]) ++
  (if depthstencilFormat =? GL_NONE then []
   else
     [ glCreateRenderbuffers depth_rb;
       (if 0 <? samples
        then glNamedRenderbufferStorageMultisample depth_rb samples
               depthstencilFormat width height
        else glNamedRenderbufferStorage depth_rb depthstencilFormat width height);
       glNamedFramebufferRenderbuffer id GL_DEPTH_STENCIL_ATTACHMENT
         GL_RENDERBUFFER depth_rb ]) ++
  [glCheckNamedFramebufferStatus id GL_DRAW_FRAMEBUFFER].

(** The handle [createFrameBuffer] fills in. *)
Definition createFrameBuffer_handle (w : World) (width height samples : Z)
    (colorFormat depthstencilFormat : GLenum) : FrameBuffer :=
  mkFrameBuffer (next_framebuffer (names w))
    (if colorFormat =? GL_NONE then 0
     else if 0 <? samples then next_renderbuffer (names w)
          else next_texture (names w))
    (if depthstencilFormat =? GL_NONE then 0
     else if negb (colorFormat =? GL_NONE) && (0 <? samples)
          then next_renderbuffer (names w) + 1 else next_renderbuffer (names w))
    width height samples.

Definition incomplete_failure (status : GLenum) : string :=
  String.append "Framebuffer completeness check failed: " (to_string status).

(** The name generators after [createFrameBuffer]. *)
Definition createFrameBuffer_names (n : Names) (samples : Z)
    (colorFormat depthstencilFormat : GLenum) : Names :=
  mkNames
    (if negb (colorFormat =? GL_NONE) && negb (0 <? samples)
     then next_texture n + 1 else next_texture n)
    (if depthstencilFormat =? GL_NONE
     then (if negb (colorFormat =? GL_NONE) && (0 <? samples)
           then next_renderbuffer n + 1 else next_renderbuffer n)
     else (if negb (colorFormat =? GL_NONE) && (0 <? samples)
           then next_renderbuffer n + 1 + 1 else next_renderbuffer n + 1))
    (next_framebuffer n + 1)
    (next_shader_program n).

(** ** The calls of [initialize] *)

Definition initialize_window_calls (build : Build) (width height : Z) : list GLCall :=
  [ glfwWindowHint GLFW_CLIENT_API GLFW_OPENGL_API;
    glfwWindowHint GLFW_OPENGL_PROFILE GLFW_OPENGL_CORE_PROFILE;
    glfwWindowHint GLFW_CONTEXT_VERSION_MAJOR 4;
    glfwWindowHint GLFW_CONTEXT_VERSION_MINOR 5 ] ++
  (if _DEBUG build then [glfwWindowHint GLFW_OPENGL_DEBUG_CONTEXT GL_TRUE] else []) ++
  [ glfwWindowHint GLFW_DEPTH_BITS 0;
    glfwWindowHint GLFW_STENCIL_BITS 0;
    glfwWindowHint GLFW_SAMPLES 0;
    glfwCreateWindow width height "Physically Based Rendering (OpenGL 4.5)" ].

Definition initialize_context_calls (build : Build) (window : GLFWwindow)
  : list GLCall :=
  [ glfwMakeContextCurrent window; glfwSwapInterval (-1); gladLoadGLLoader ] ++
  (if _DEBUG build
   then [glDebugMessageCallback; glEnable GL_DEBUG_OUTPUT_SYNCHRONOUS] else []).

(** The world between the two [createFrameBuffer] calls of [initialize]. *)
Definition world_with_main (w : World) (width height samples : Z) : World :=
  mkWorld
    (set_m_framebuffer
       (createFrameBuffer_handle w width height samples GL_RGBA16F GL_DEPTH24_STENCIL8)
       (this w))
    (createFrameBuffer_names (names w) samples GL_RGBA16F GL_DEPTH24_STENCIL8).

(** The world a successful [initialize] leaves. *)
Definition world_initialized (w : World) (width height samples : Z) : World :=
  let wM := world_with_main w width height samples in
  if 0 <? samples then
    mkWorld
      (set_m_resolveFramebuffer
         (createFrameBuffer_handle wM width height 0 GL_RGBA16F GL_NONE) (this wM))
      (createFrameBuffer_names (names wM) 0 GL_RGBA16F GL_NONE)
  else
    mkWorld (set_m_resolveFramebuffer (m_framebuffer (this wM)) (this wM)) (names wM).

Definition initialize_calls (B : Backend) (build : Build) (w : World)
    (width height samples : Z) : list GLCall :=
  initialize_window_calls build width height ++
  initialize_context_calls build (glfwCreateWindow_result B width height) ++
  createFrameBuffer_calls w width height samples GL_RGBA16F GL_DEPTH24_STENCIL8 ++
  (if 0 <? samples
   then createFrameBuffer_calls (world_with_main w width height samples)
          width height 0 GL_RGBA16F GL_NONE
   else []).

(** When [initialize] goes through. *)
Definition initialize_succeeds (B : Backend) (w : World)
    (width height samples : Z) : Prop :=
  glfwCreateWindow_result B width height <> nullptr /\
  gladLoadGLLoader_result B = true /\
  framebuffer_status B (next_framebuffer (names w)) = GL_FRAMEBUFFER_COMPLETE /\
  (0 < samples ->
   framebuffer_status B (next_framebuffer (names w) + 1) = GL_FRAMEBUFFER_COMPLETE).

(** * Assets and the rest of setup

    The functions of opengl.cpp that upload meshes and images and the
    whole of [setup].  They call entry points and use name spaces (buffers,
    vertex arrays) beyond those of the functions above, so their
    computations run in a second monad, over the first. *)

(** ** Meshes and images (common/mesh.hpp, common/image.hpp) *)

(** A vertex as its floats, a face as its three indices. *)
Definition Vertex : Type := list float32.
Definition Face : Type := (Z * Z * Z)%type.

Record Mesh := mkMesh {
  mesh_vertices : list Vertex;
  mesh_faces : list Face
}.

Record Image := mkImage {
  image_width : Z;
  image_height : Z;
  image_isHDR : bool;
  image_pixels : list Z
}.

(** What mesh.hpp fixes and the renderer reads: [Mesh::NumAttributes],
    [sizeof(Mesh::Vertex)] and [sizeof(Mesh::Face)]. *)
Record MeshLayout := mkMeshLayout {
  NumAttributes : Z;
  sizeof_Vertex : Z;
  sizeof_Face : Z
}.

Definition sizeof_vec3 : Z := 12.
Definition sizeof_GLfloat : Z := 4.

(** The loaders: they return the asset or end in an exception. *)
Record Assets := mkAssets {
  Mesh_fromFile : string -> outcome Mesh;
  Image_fromFile : string -> Z -> outcome Image
}.

(** [static_cast<GLuint>(n)] and arithmetic on [GLuint]: modulo 2^32. *)
Definition to_GLuint (n : Z) : Z := n mod 4294967296.

(** ** Calls and state of the second monad *)

Inductive BufferData : Type :=
| VertexData (vertices : list Vertex)
| IndexData (faces : list Face)
| FloatData (floats : list float32).

Inductive SetupCall : Type :=
| gl (c : GLCall)
| glTextureSubImage2D (texture : GLuint) (level xoffset yoffset width height : Z)
    (format type : GLenum) (pixels : list Z)
| glCreateBuffers (buffer : GLuint)
| glNamedBufferStorage (buffer : GLuint) (size : Z) (data : BufferData) (flags : Z)
| glCreateVertexArrays (array : GLuint)
| glVertexArrayElementBuffer (vaobj buffer : GLuint)
| glVertexArrayVertexBuffer (vaobj bindingindex buffer : GLuint) (offset stride : Z)
| glEnableVertexArrayAttrib (vaobj index : GLuint)
| glVertexArrayAttribFormat (vaobj attribindex : GLuint) (size : Z) (type : GLenum)
    (normalized : Z) (relativeoffset : Z)
| glVertexArrayAttribBinding (vaobj attribindex bindingindex : GLuint).

Record Context := mkContext {
  world : World;
  next_buffer : GLuint;
  next_vertex_array : GLuint
}.

Definition Setup (A : Type) : Type :=
  Context -> outcome A * Context * list SetupCall.

Definition sret {A} (a : A) : Setup A := fun c => (Ok a, c, []).

Definition sbind {A C} (m : Setup A) (f : A -> Setup C) : Setup C :=
  fun c =>
    match m c with
    | (Ok a, c1, cs1) => let '(r, c2, cs2) := f a c1 in (r, c2, cs1 ++ cs2)
    | (Throw s, c1, cs1) => (Throw s, c1, cs1)
    | (AssertFailed, c1, cs1) => (AssertFailed, c1, cs1)
    | (Undefined, c1, cs1) => (Undefined, c1, cs1)
    end.

Declare Scope setup_scope.
Notation "x <- m ;; k" := (sbind m (fun x => k))
  (at level 61, m at next level, right associativity) : setup_scope.
Notation "m ;; k" := (sbind m (fun _ => k))
  (at level 61, right associativity) : setup_scope.
Local Open Scope setup_scope.

Definition scall (c : SetupCall) : Setup unit := fun ctx => (Ok tt, ctx, [c]).

(** A computation of the first monad, run on the world of the context. *)
Definition lift_gl {A} (m : GL A) : Setup A :=
  fun ctx =>
    let '(r, w, cs) := m (world ctx) in
    (r, mkContext w (next_buffer ctx) (next_vertex_array ctx), map gl cs).

Definition lift_outcome {A} (o : outcome A) : Setup A := fun ctx => (o, ctx, []).

Definition swhen (b : bool) (m : Setup unit) : Setup unit :=
  if b then m else sret tt.

Fixpoint sfor_each {A} (xs : list A) (body : A -> Setup unit) : Setup unit :=
  match xs with
  | [] => sret tt
  | x :: xs' => body x ;; sfor_each xs' body
  end.

(** [for (int i = 0; i < n; ++i) body(i)] *)
Definition sfor_range (n : Z) (body : Z -> Setup unit) : Setup unit :=
  sfor_each (map Z.of_nat (seq 0 (Z.to_nat n))) body.

Definition fresh_buffer : Setup GLuint := fun ctx =>
  (Ok (next_buffer ctx),
   mkContext (world ctx) (next_buffer ctx + 1) (next_vertex_array ctx), []).

Definition fresh_vertex_array : Setup GLuint := fun ctx =>
  (Ok (next_vertex_array ctx),
   mkContext (world ctx) (next_buffer ctx) (next_vertex_array ctx + 1), []).

Definition get_renderer : Setup Renderer := fun ctx => (Ok (this (world ctx)), ctx, []).

Definition set_member {T} (set : T -> Renderer -> Renderer) (x : T) : Setup unit :=
  lift_gl (modify_this (set x)).

Definition result_of_setup {A} (r : outcome A * Context * list SetupCall) : outcome A :=
  fst (fst r).
Definition context_of {A} (r : outcome A * Context * list SetupCall) : Context :=
  snd (fst r).
Definition calls_of_setup {A} (r : outcome A * Context * list SetupCall)
  : list SetupCall := snd r.

Definition set_m_tonemapProgram (p : GLuint) (r : Renderer) : Renderer :=
  mkRenderer (m_framebuffer r) (m_resolveFramebuffer r) (m_screenQuad r)
    (m_skybox r) (m_pbrModel r) p (m_skyboxProgram r) (m_pbrProgram r)
    (m_envTexture r) (m_irmapTexture r) (m_spmapTexture r) (m_spBRDF_LUT r)
    (m_albedoTexture r) (m_normalTexture r) (m_metalnessTexture r)
    (m_roughnessTexture r).

Definition set_m_skyboxProgram (p : GLuint) (r : Renderer) : Renderer :=
  mkRenderer (m_framebuffer r) (m_resolveFramebuffer r) (m_screenQuad r)
    (m_skybox r) (m_pbrModel r) (m_tonemapProgram r) p (m_pbrProgram r)
    (m_envTexture r) (m_irmapTexture r) (m_spmapTexture r) (m_spBRDF_LUT r)
    (m_albedoTexture r) (m_normalTexture r) (m_metalnessTexture r)
    (m_roughnessTexture r).

Definition set_m_pbrProgram (p : GLuint) (r : Renderer) : Renderer :=
  mkRenderer (m_framebuffer r) (m_resolveFramebuffer r) (m_screenQuad r)
    (m_skybox r) (m_pbrModel r) (m_tonemapProgram r) (m_skyboxProgram r) p
    (m_envTexture r) (m_irmapTexture r) (m_spmapTexture r) (m_spBRDF_LUT r)
    (m_albedoTexture r) (m_normalTexture r) (m_metalnessTexture r)
    (m_roughnessTexture r).

(** ** Textures from images *)

(** [createTexture(image, format, internalformat, levels)], the second
    overload. *)
Definition createTexture_image (image : Image) (format internalformat : GLenum)
    (levels : Z) : Setup Texture :=
  texture <- lift_gl (createTexture GL_TEXTURE_2D (image_width image)
                        (image_height image) internalformat levels) ;;
  (if image_isHDR image then
     scall (glTextureSubImage2D (tex_id texture) 0 0 0 (tex_width texture)
              (tex_height texture) format GL_FLOAT (image_pixels image))
   else
     scall (glTextureSubImage2D (tex_id texture) 0 0 0 (tex_width texture)
              (tex_height texture) format GL_UNSIGNED_BYTE (image_pixels image))) ;;
  swhen (1 <? tex_levels texture)
    (scall (gl (glGenerateTextureMipmap (tex_id texture)))) ;;
  sret texture.

(** ** Vertex buffers *)

(** The argument [&v[0]] is evaluated after [glCreateBuffers] and before
    [glNamedBufferStorage]: on an empty vector a checked [operator[]]
    aborts there; an unchecked one gives the pointer of the vector, the
    size passed with it is 0 and nothing is read. *)
Definition createVertexBuffer (build : Build) (layout : MeshLayout) (mesh : Mesh)
  : Setup VertexBuffer :=
  let numElements :=
    to_GLuint (to_GLuint (Z.of_nat (List.length (mesh_faces mesh))) * 3) in
  let vertexDataSize :=
    Z.of_nat (List.length (mesh_vertices mesh)) * sizeof_Vertex layout in
  let indexDataSize :=
    Z.of_nat (List.length (mesh_faces mesh)) * sizeof_Face layout in
  vbo <- fresh_buffer ;;
  scall (glCreateBuffers vbo) ;;
  swhen (checked_subscript build)
    (lift_gl (assert (0 <? Z.of_nat (List.length (mesh_vertices mesh))))) ;;
  scall (glNamedBufferStorage vbo vertexDataSize (VertexData (mesh_vertices mesh)) 0) ;;
  ibo <- fresh_buffer ;;
  scall (glCreateBuffers ibo) ;;
  swhen (checked_subscript build)
    (lift_gl (assert (0 <? Z.of_nat (List.length (mesh_faces mesh))))) ;;
  scall (glNamedBufferStorage ibo indexDataSize (IndexData (mesh_faces mesh)) 0) ;;
  vao <- fresh_vertex_array ;;
  scall (glCreateVertexArrays vao) ;;
  scall (glVertexArrayElementBuffer vao ibo) ;;
  sfor_range (NumAttributes layout) (fun i =>
    scall (glVertexArrayVertexBuffer vao i vbo (i * sizeof_vec3)
             (sizeof_Vertex layout)) ;;
    scall (glEnableVertexArrayAttrib vao i) ;;
    scall (glVertexArrayAttribFormat vao i
             (if i =? NumAttributes layout - 1 then 2 else 3) GL_FLOAT GL_FALSE 0) ;;
    scall (glVertexArrayAttribBinding vao i i)) ;;
  sret (mkVertexBuffer vbo ibo vao numElements).

(** The [vertices] array of [createClipSpaceQuad]: position and texture
    coordinate of the four corners. *)
Definition quad_vertices : list float32 :=
  map F32.of_int
    [  1;  1; 1; 1;
      -1;  1; 0; 1;
       1; -1; 1; 0;
      -1; -1; 0; 0 ].

Definition createClipSpaceQuad : Setup VertexBuffer :=
  let buffer := VertexBuffer_default in
  vbo <- fresh_buffer ;;
  scall (glCreateBuffers vbo) ;;
  scall (glNamedBufferStorage vbo
           (Z.of_nat (List.length quad_vertices) * sizeof_GLfloat)
           (FloatData quad_vertices) 0) ;;
  vao <- fresh_vertex_array ;;
  scall (glCreateVertexArrays vao) ;;
  sfor_range 2 (fun i =>
    scall (glVertexArrayVertexBuffer vao i vbo (i * 2 * sizeof_GLfloat)
             (4 * sizeof_GLfloat)) ;;
    scall (glEnableVertexArrayAttrib vao i) ;;
    scall (glVertexArrayAttribFormat vao i 2 GL_FLOAT GL_FALSE 0) ;;
    scall (glVertexArrayAttribBinding vao i i)) ;;
  sret (mkVertexBuffer vbo (vb_ibo buffer) vao (vb_numElements buffer)).

(** ** Setup *)

Section Setup.

Variable B : Backend.
Variable build : Build.
Variable assets : Assets.
Variable layout : MeshLayout.

(** The default arguments of [levels] in the declarations of the two
    [createTexture] overloads in opengl.hpp. *)
Variable createTexture_default_levels : Z.
Variable createTexture_image_default_levels : Z.

(** Lines 97 to 124: state, meshes, rendering programs, material
    textures.  The elements of a braced list, here the shaders handed to
    [linkProgram], are evaluated from left to right, and an argument
    before the call it is passed to. *)
Definition setup_assets : Setup unit :=
  scall (gl (glEnable GL_CULL_FACE)) ;;
  scall (gl (glEnable GL_TEXTURE_CUBE_MAP_SEAMLESS)) ;;
  scall (gl (glFrontFace GL_CCW)) ;;
  quad <- createClipSpaceQuad ;;
  set_member set_m_screenQuad quad ;;
  vs <- lift_gl (compileShader B "shaders/glsl/passthrough_vs.glsl" GL_VERTEX_SHADER) ;;
  fs <- lift_gl (compileShader B "shaders/glsl/tonemap_fs.glsl" GL_FRAGMENT_SHADER) ;;
  p <- lift_gl (linkProgram B [vs; fs]) ;;
  set_member set_m_tonemapProgram p ;;
  mesh <- lift_outcome (Mesh_fromFile assets "meshes/skybox.obj") ;;
  skybox <- createVertexBuffer build layout mesh ;;
  set_member set_m_skybox skybox ;;
  vs <- lift_gl (compileShader B "shaders/glsl/skybox_vs.glsl" GL_VERTEX_SHADER) ;;
  fs <- lift_gl (compileShader B "shaders/glsl/skybox_fs.glsl" GL_FRAGMENT_SHADER) ;;
  p <- lift_gl (linkProgram B [vs; fs]) ;;
  set_member set_m_skyboxProgram p ;;
  mesh <- lift_outcome (Mesh_fromFile assets "meshes/cerberus.fbx") ;;
  model <- createVertexBuffer build layout mesh ;;
  set_member set_m_pbrModel model ;;
  vs <- lift_gl (compileShader B "shaders/glsl/pbr_vs.glsl" GL_VERTEX_SHADER) ;;
  fs <- lift_gl (compileShader B "shaders/glsl/pbr_fs.glsl" GL_FRAGMENT_SHADER) ;;
  p <- lift_gl (linkProgram B [vs; fs]) ;;
  set_member set_m_pbrProgram p ;;
  image <- lift_outcome (Image_fromFile assets "textures/cerberus_A.png" 3) ;;
  t <- createTexture_image image GL_RGB GL_SRGB8 createTexture_image_default_levels ;;
  set_member set_m_albedoTexture t ;;
  image <- lift_outcome (Image_fromFile assets "textures/cerberus_N.png" 3) ;;
  t <- createTexture_image image GL_RGB GL_RGB8 createTexture_image_default_levels ;;
  set_member set_m_normalTexture t ;;
  image <- lift_outcome (Image_fromFile assets "textures/cerberus_M.png" 1) ;;
  t <- createTexture_image image GL_RED GL_R8 createTexture_image_default_levels ;;
  set_member set_m_metalnessTexture t ;;
  image <- lift_outcome (Image_fromFile assets "textures/cerberus_R.png" 1) ;;
  t <- createTexture_image image GL_RED GL_R8 createTexture_image_default_levels ;;
  set_member set_m_roughnessTexture t.

(** Lines 126 to 144: the environment map, from equirectangular to cube. *)
Definition setup_envmap : Setup unit :=
  shader <- lift_gl (compileShader B "shaders/glsl/equirect2cube_cs.glsl"
                       GL_COMPUTE_SHADER) ;;
  equirectToCubeProgram <- lift_gl (linkProgram B [shader]) ;;
  image <- lift_outcome (Image_fromFile assets "environment.hdr" 3) ;;
  envTextureEquirect <- createTexture_image image GL_RGB GL_RGB16F 1 ;;
  t <- lift_gl (createTexture GL_TEXTURE_CUBE_MAP 1024 1024 GL_RGBA16F
                  createTexture_default_levels) ;;
  set_member set_m_envTexture t ;;
  r <- get_renderer ;;
  scall (gl (glUseProgram equirectToCubeProgram)) ;;
  scall (gl (glBindTextureUnit 0 (tex_id envTextureEquirect))) ;;
  scall (gl (glBindImageTexture 0 (tex_id (m_envTexture r)) 0 GL_TRUE 0
               GL_WRITE_ONLY GL_RGBA16F)) ;;
  scall (gl (glDispatchCompute (int_div (tex_width (m_envTexture r)) 32)
               (int_div (tex_height (m_envTexture r)) 32) 6)) ;;
  scall (gl (glDeleteTextures (tex_id envTextureEquirect))) ;;
  scall (gl (glDeleteProgram equirectToCubeProgram)) ;;
  scall (gl (glGenerateTextureMipmap (tex_id (m_envTexture r)))).

(** Lines 146 to 159: the irradiance cubemap. *)
Definition setup_irmap : Setup unit :=
  shader <- lift_gl (compileShader B "shaders/glsl/irmap_cs.glsl" GL_COMPUTE_SHADER) ;;
  irmapProgram <- lift_gl (linkProgram B [shader]) ;;
  t <- lift_gl (createTexture GL_TEXTURE_CUBE_MAP 32 32 GL_RGBA16F 1) ;;
  set_member set_m_irmapTexture t ;;
  r <- get_renderer ;;
  scall (gl (glUseProgram irmapProgram)) ;;
  scall (gl (glBindTextureUnit 0 (tex_id (m_envTexture r)))) ;;
  scall (gl (glBindImageTexture 0 (tex_id (m_irmapTexture r)) 0 GL_TRUE 0
               GL_WRITE_ONLY GL_RGBA16F)) ;;
  scall (gl (glDispatchCompute (int_div (tex_width (m_irmapTexture r)) 32)
               (int_div (tex_height (m_irmapTexture r)) 32) 6)) ;;
  scall (gl (glDeleteProgram irmapProgram)).

(** Lines 181 to 193: the BRDF look-up table. *)
Definition setup_spBRDF : Setup unit :=
  shader <- lift_gl (compileShader B "shaders/glsl/spbrdf_cs.glsl" GL_COMPUTE_SHADER) ;;
  spBRDFProgram <- lift_gl (linkProgram B [shader]) ;;
  t <- lift_gl (createTexture GL_TEXTURE_2D 256 256 GL_RG16F 1) ;;
  set_member set_m_spBRDF_LUT t ;;
  r <- get_renderer ;;
  scall (gl (glUseProgram spBRDFProgram)) ;;
  scall (gl (glBindImageTexture 0 (tex_id (m_spBRDF_LUT r)) 0 GL_FALSE 0
               GL_WRITE_ONLY GL_RG16F)) ;;
  scall (gl (glDispatchCompute (int_div (tex_width (m_spBRDF_LUT r)) 32)
               (int_div (tex_height (m_spBRDF_LUT r)) 32) 1)) ;;
  scall (gl (glDeleteProgram spBRDFProgram)).

(** [Renderer::setup]; the specular stage of lines 161 to 179 is
    [setup_spmap]. *)
Definition setup : Setup unit :=
  setup_assets ;;
  setup_envmap ;;
  setup_irmap ;;
  lift_gl (setup_spmap B createTexture_default_levels) ;;
  setup_spBRDF ;;
  scall (gl glFinish).

End Setup.

Local Close Scope setup_scope.

(** [Renderer::logMessage], the debug callback of a [_DEBUG] build: what
    it writes to [stderr]. *)
Definition GL_DEBUG_SEVERITY_NOTIFICATION : GLenum := 33387.

(** ** Objects and dispatches, read off the calls of the second monad *)

Fixpoint created_in_setup (cs : list SetupCall) : list GLObject :=
  match cs with
  | [] => []
  | gl c :: cs' => created_objects [c] ++ created_in_setup cs'
  | glCreateBuffers b :: cs' => BufferObject b :: created_in_setup cs'
  | glCreateVertexArrays a :: cs' => VertexArrayObject a :: created_in_setup cs'
  | _ :: cs' => created_in_setup cs'
  end.

Fixpoint deleted_in_setup (cs : list SetupCall) : list GLObject :=
  match cs with
  | [] => []
  | gl c :: cs' => deleted_objects [c] ++ deleted_in_setup cs'
  | _ :: cs' => deleted_in_setup cs'
  end.

(** The group counts of the [glDispatchCompute] calls, in order. *)
Fixpoint dispatches_in_setup (cs : list SetupCall) : list (Z * Z * Z) :=
  match cs with
  | [] => []
  | gl (glDispatchCompute x y z) :: cs' => (x, y, z) :: dispatches_in_setup cs'
  | _ :: cs' => dispatches_in_setup cs'
  end.

(** The vertex attribute formats [(attribute, components, type)] set on a
    vertex array, in order. *)
Fixpoint attribute_formats (vaobj : GLuint) (cs : list SetupCall)
  : list (Z * Z * GLenum) :=
  match cs with
  | [] => []
  | glVertexArrayAttribFormat a i size type _ _ :: cs' =>
      if a =? vaobj then (i, size, type) :: attribute_formats vaobj cs'
      else attribute_formats vaobj cs'
  | _ :: cs' => attribute_formats vaobj cs'
  end.

(** The objects a vertex buffer handle names. *)
Definition VertexBuffer_objects (buffer : VertexBuffer) : list GLObject :=
  (if vb_vao buffer =? 0 then [] else [VertexArrayObject (vb_vao buffer)]) ++
  (if vb_vbo buffer =? 0 then [] else [BufferObject (vb_vbo buffer)]) ++
  (if vb_ibo buffer =? 0 then [] else [BufferObject (vb_ibo buffer)]).

Definition logMessage (severity : GLenum) (message : string) : list string :=
  if negb (severity =? GL_DEBUG_SEVERITY_NOTIFICATION)
  then [String.append "GL: " (String.append message newline)]
  else [].

(** ** The calls of the vertex buffer functions *)

(** The mip levels or attribute indices 0, 1, ..., [n - 1]. *)
Definition range (n : Z) : list Z := map Z.of_nat (seq 0 (Z.to_nat n)).

Definition mesh_attribute_calls (layout : MeshLayout) (vao vbo : GLuint)
  : list SetupCall :=
  flat_map (fun i =>
    [ glVertexArrayVertexBuffer vao i vbo (i * sizeof_vec3) (sizeof_Vertex layout);
      glEnableVertexArrayAttrib vao i;
      glVertexArrayAttribFormat vao i
        (if i =? NumAttributes layout - 1 then 2 else 3) GL_FLOAT GL_FALSE 0;
      glVertexArrayAttribBinding vao i i ]) (range (NumAttributes layout)).

Definition createVertexBuffer_calls (layout : MeshLayout) (mesh : Mesh)
    (ctx : Context) : list SetupCall :=
  let vbo := next_buffer ctx in
  let ibo := next_buffer ctx + 1 in
  let vao := next_vertex_array ctx in
  [ glCreateBuffers vbo;
    glNamedBufferStorage vbo
      (Z.of_nat (List.length (mesh_vertices mesh)) * sizeof_Vertex layout)
      (VertexData (mesh_vertices mesh)) 0;
    glCreateBuffers ibo;
    glNamedBufferStorage ibo
      (Z.of_nat (List.length (mesh_faces mesh)) * sizeof_Face layout)
      (IndexData (mesh_faces mesh)) 0;
    glCreateVertexArrays vao;
    glVertexArrayElementBuffer vao ibo ] ++
  mesh_attribute_calls layout vao vbo.

Definition createVertexBuffer_handle (mesh : Mesh) (ctx : Context) : VertexBuffer :=
  mkVertexBuffer (next_buffer ctx) (next_buffer ctx + 1) (next_vertex_array ctx)
    (to_GLuint (to_GLuint (Z.of_nat (List.length (mesh_faces mesh))) * 3)).

Definition quad_attribute_calls (vao vbo : GLuint) : list SetupCall :=
  flat_map (fun i =>
    [ glVertexArrayVertexBuffer vao i vbo (i * 2 * sizeof_GLfloat) (4 * sizeof_GLfloat);
      glEnableVertexArrayAttrib vao i;
      glVertexArrayAttribFormat vao i 2 GL_FLOAT GL_FALSE 0;
      glVertexArrayAttribBinding vao i i ]) (range 2).

Definition createClipSpaceQuad_calls (ctx : Context) : list SetupCall :=
  [ glCreateBuffers (next_buffer ctx);
    glNamedBufferStorage (next_buffer ctx) 64 (FloatData quad_vertices) 0;
    glCreateVertexArrays (next_vertex_array ctx) ] ++
  quad_attribute_calls (next_vertex_array ctx) (next_buffer ctx).

(** A context to run the second monad in, a mesh of one triangle and an
    image of two by two bytes. *)
Definition blank_context : Context := mkContext blank_world 1 1.

Definition triangle_mesh : Mesh :=
  mkMesh [ [F32.zero]; [F32.one]; [F32.zero] ] [ (0, 1, 2) ].

Definition small_image : Image := mkImage 2 2 false [0; 0; 0; 0].



(** The context after a texture has been created in it. *)
Definition context_after_texture (ctx : Context) : Context :=
  mkContext
    (mkWorld (this (world ctx))
       (mkNames (next_texture (names (world ctx)) + 1)
          (next_renderbuffer (names (world ctx)))
          (next_framebuffer (names (world ctx)))
          (next_shader_program (names (world ctx)))))
    (next_buffer ctx) (next_vertex_array ctx).

(** ** The calls of the program builder *)

Definition compileShader_calls (B : Backend) (filename : string) (type : GLenum)
    (shader : GLuint) : list GLCall :=
  [ printf (String.append "Compiling GLSL shader: " (String.append filename newline));
    glCreateShader type shader;
    glShaderSource shader (File_readText B filename);
    glCompileShader shader;
    glGetShaderiv shader GL_COMPILE_STATUS ].

Definition createTexture_calls (target : GLenum) (id n : Z) (internalformat : GLenum)
    (width height : Z) : list GLCall :=
  [ glCreateTextures target id;
    glTextureStorage2D id n internalformat width height;
    glTextureParameteri id GL_TEXTURE_MIN_FILTER
      (if 1 <? n then GL_LINEAR_MIPMAP_LINEAR else GL_LINEAR);
    glTextureParameteri id GL_TEXTURE_MAG_FILTER GL_LINEAR ].

(** The world after a shader or a program, and after a texture, has been
    created in it. *)
Definition world_after_program (w : World) : World :=
  mkWorld (this w) (names_after_program (names w)).

Definition world_after_texture (w : World) : World :=
  mkWorld (this w)
    (mkNames (next_texture (names w) + 1) (next_renderbuffer (names w))
       (next_framebuffer (names w)) (next_shader_program (names w))).

(** ** What setup creates, deletes and leaves behind *)

(** The renderer [setup] leaves when it runs through in the context [ctx]:
    the handles of the quad, the two meshes ([eS] and [eM] elements), the
    three rendering programs, the four material textures (of the sizes
    of the images, with [nA], [nN], [nM], [nR] levels) and the four
    precomputed textures. *)
Definition Renderer_after_setup (ctx : Context) (default_levels : Z)
    (eS eM : GLuint) (iA iN iM iR : Image) (nA nN nM nR : Z) : Renderer :=
  let ns := next_shader_program (names (world ctx)) in
  let nt := next_texture (names (world ctx)) in
  let nb := next_buffer ctx in
  let nv := next_vertex_array ctx in
  set_m_spBRDF_LUT (mkTexture (nt + 8) 256 256 1)
  (set_m_spmapTexture (mkTexture (nt + 7) 1024 1024 (spmap_levels default_levels))
  (set_m_irmapTexture (mkTexture (nt + 6) 32 32 1)
  (set_m_envTexture (mkTexture (nt + 5) 1024 1024 (spmap_levels default_levels))
  (set_m_roughnessTexture (mkTexture (nt + 3) (image_width iR) (image_height iR) nR)
  (set_m_metalnessTexture (mkTexture (nt + 2) (image_width iM) (image_height iM) nM)
  (set_m_normalTexture (mkTexture (nt + 1) (image_width iN) (image_height iN) nN)
  (set_m_albedoTexture (mkTexture nt (image_width iA) (image_height iA) nA)
  (set_m_pbrProgram (ns + 8)
  (set_m_pbrModel (mkVertexBuffer (nb + 3) (nb + 4) (nv + 2) eM)
  (set_m_skyboxProgram (ns + 5)
  (set_m_skybox (mkVertexBuffer (nb + 1) (nb + 2) (nv + 1) eS)
  (set_m_tonemapProgram (ns + 2)
  (set_m_screenQuad (mkVertexBuffer nb 0 nv 0) (this (world ctx))))))))))))))).

(** The context after it: nine textures, seventeen shaders and programs,
    five buffers and three vertex arrays further. *)
Definition Context_after_setup (ctx : Context) (r : Renderer) : Context :=
  mkContext
    (mkWorld r
       (mkNames (next_texture (names (world ctx)) + 9)
          (next_renderbuffer (names (world ctx)))
          (next_framebuffer (names (world ctx)))
          (next_shader_program (names (world ctx)) + 17)))
    (next_buffer ctx + 5) (next_vertex_array ctx + 3).

(** The objects a successful [setup] creates in the context [ctx], in
    order. *)
Definition setup_created (ctx : Context) : list GLObject :=
  let ns := next_shader_program (names (world ctx)) in
  let nt := next_texture (names (world ctx)) in
  let nb := next_buffer ctx in
  let nv := next_vertex_array ctx in
  [ BufferObject nb; VertexArrayObject nv;
    ShaderObject ns; ShaderObject (ns + 1); ProgramObject (ns + 2);
    BufferObject (nb + 1); BufferObject (nb + 2); VertexArrayObject (nv + 1);
    ShaderObject (ns + 3); ShaderObject (ns + 4); ProgramObject (ns + 5);
    BufferObject (nb + 3); BufferObject (nb + 4); VertexArrayObject (nv + 2);
    ShaderObject (ns + 6); ShaderObject (ns + 7); ProgramObject (ns + 8);
    TextureObject nt; TextureObject (nt + 1); TextureObject (nt + 2);
    TextureObject (nt + 3);
    ShaderObject (ns + 9); ProgramObject (ns + 10);
    TextureObject (nt + 4); TextureObject (nt + 5);
    ShaderObject (ns + 11); ProgramObject (ns + 12); TextureObject (nt + 6);
    ShaderObject (ns + 13); ProgramObject (ns + 14); TextureObject (nt + 7);
    ShaderObject (ns + 15); ProgramObject (ns + 16); TextureObject (nt + 8) ].

(** The objects it deletes itself, in order: every shader, by
    [linkProgram]; the equirectangular texture; the four compute
    programs. *)
Definition setup_deleted (ctx : Context) : list GLObject :=
  let ns := next_shader_program (names (world ctx)) in
  let nt := next_texture (names (world ctx)) in
  [ ShaderObject ns; ShaderObject (ns + 1);
    ShaderObject (ns + 3); ShaderObject (ns + 4);
    ShaderObject (ns + 6); ShaderObject (ns + 7);
    ShaderObject (ns + 9); TextureObject (nt + 4); ProgramObject (ns + 10);
    ShaderObject (ns + 11); ProgramObject (ns + 12);
    ShaderObject (ns + 13); ProgramObject (ns + 14);
    ShaderObject (ns + 15); ProgramObject (ns + 16) ].

(** The group counts of its dispatches, in order. *)
Definition setup_dispatches (default_levels : Z) : list (Z * Z * Z) :=
  [ (32, 32, 6); (1, 1, 6) ] ++
  map (fun L => (spmap_groups L, spmap_groups L, 6))
    (levels_upto (spmap_levels default_levels)) ++
  [ (8, 8, 1) ].

(** The objects a successful [setup] leaves to [shutdown], in the order
    in which [shutdown] deletes them: the vertex array and the buffers of
    the quad and of the two meshes, the three rendering programs, the
    four precomputed and the four material textures. *)
Definition setup_kept (ctx : Context) : list GLObject :=
  let ns := next_shader_program (names (world ctx)) in
  let nt := next_texture (names (world ctx)) in
  let nb := next_buffer ctx in
  let nv := next_vertex_array ctx in
  [ VertexArrayObject nv; BufferObject nb;
    VertexArrayObject (nv + 1); BufferObject (nb + 1); BufferObject (nb + 2);
    VertexArrayObject (nv + 2); BufferObject (nb + 3); BufferObject (nb + 4);
    ProgramObject (ns + 2); ProgramObject (ns + 5); ProgramObject (ns + 8);
    TextureObject (nt + 5); TextureObject (nt + 6); TextureObject (nt + 7);
    TextureObject (nt + 8);
    TextureObject nt; TextureObject (nt + 1); TextureObject (nt + 2);
    TextureObject (nt + 3) ].

(** The calls with which [shutdown] deletes the two framebuffers. *)
Definition shutdown_framebuffer_calls (r : Renderer) : list GLCall :=
  (if fb_id (m_framebuffer r) =? fb_id (m_resolveFramebuffer r) then []
   else deleteFrameBuffer_calls (m_resolveFramebuffer r)) ++
  deleteFrameBuffer_calls (m_framebuffer r).

(** The objects a successful [initialize] creates, in order: the main
    framebuffer with its colour and depth-stencil targets, and with
    multisampling the resolve framebuffer with its colour texture. *)
Definition initialize_created (w : World) (samples : Z) : list GLObject :=
  let nt := next_texture (names w) in
  let nr := next_renderbuffer (names w) in
  let nf := next_framebuffer (names w) in
  if 0 <? samples then
    [ FramebufferObject nf; RenderbufferObject nr; RenderbufferObject (nr + 1);
      FramebufferObject (nf + 1); TextureObject nt ]
  else
    [ FramebufferObject nf; TextureObject nt; RenderbufferObject nr ].

(** The same objects in the order in which [shutdown] deletes them. *)
Definition initialize_kept (w : World) (samples : Z) : list GLObject :=
  let nt := next_texture (names w) in
  let nr := next_renderbuffer (names w) in
  let nf := next_framebuffer (names w) in
  if 0 <? samples then
    [ FramebufferObject (nf + 1); TextureObject nt;
      FramebufferObject nf; RenderbufferObject nr; RenderbufferObject (nr + 1) ]
  else
    [ FramebufferObject nf; TextureObject nt; RenderbufferObject nr ].

(** ** The objects a sequence of calls uses *)

(** The objects the calls [cs] name to work on them, in order: the
    shader, program, texture, renderbuffer, framebuffer or vertex array
    passed by name, the object to delete included.  Framebuffer 0 is the
    window, not an object. *)
Fixpoint used_objects (cs : list GLCall) : list GLObject :=
  match cs with
  | [] => []
  | glShaderSource s _ :: cs' => ShaderObject s :: used_objects cs'
  | glCompileShader s :: cs' => ShaderObject s :: used_objects cs'
  | glGetShaderiv s _ :: cs' => ShaderObject s :: used_objects cs'
  | glGetShaderInfoLog s _ :: cs' => ShaderObject s :: used_objects cs'
  | glDeleteShader s :: cs' => ShaderObject s :: used_objects cs'
  | glAttachShader p s :: cs' => ProgramObject p :: ShaderObject s :: used_objects cs'
  | glDetachShader p s :: cs' => ProgramObject p :: ShaderObject s :: used_objects cs'
  | glLinkProgram p :: cs' => ProgramObject p :: used_objects cs'
  | glValidateProgram p :: cs' => ProgramObject p :: used_objects cs'
  | glGetProgramiv p _ :: cs' => ProgramObject p :: used_objects cs'
  | glGetProgramInfoLog p _ :: cs' => ProgramObject p :: used_objects cs'
  | glUseProgram p :: cs' => ProgramObject p :: used_objects cs'
  | glDeleteProgram p :: cs' => ProgramObject p :: used_objects cs'
  | glProgramUniform1f p _ _ :: cs' => ProgramObject p :: used_objects cs'
  | glProgramUniform3fv p _ _ _ :: cs' => ProgramObject p :: used_objects cs'
  | glProgramUniformMatrix4fv p _ _ _ _ :: cs' => ProgramObject p :: used_objects cs'
  | glTextureStorage2D t _ _ _ _ :: cs' => TextureObject t :: used_objects cs'
  | glTextureParameteri t _ _ :: cs' => TextureObject t :: used_objects cs'
  | glGenerateTextureMipmap t :: cs' => TextureObject t :: used_objects cs'
  | glDeleteTextures t :: cs' => TextureObject t :: used_objects cs'
  | glBindTextureUnit _ t :: cs' => TextureObject t :: used_objects cs'
  | glBindImageTexture _ t _ _ _ _ _ :: cs' => TextureObject t :: used_objects cs'
  | glNamedRenderbufferStorage rb _ _ _ :: cs' =>
      RenderbufferObject rb :: used_objects cs'
  | glNamedRenderbufferStorageMultisample rb _ _ _ _ :: cs' =>
      RenderbufferObject rb :: used_objects cs'
  | glDeleteRenderbuffers rb :: cs' => RenderbufferObject rb :: used_objects cs'
  | glNamedFramebufferRenderbuffer f _ _ rb :: cs' =>
      FramebufferObject f :: RenderbufferObject rb :: used_objects cs'
  | glNamedFramebufferTexture f _ t _ :: cs' =>
      FramebufferObject f :: TextureObject t :: used_objects cs'
  | glCheckNamedFramebufferStatus f _ :: cs' => FramebufferObject f :: used_objects cs'
  | glBindFramebuffer _ f :: cs' =>
      if f =? 0 then used_objects cs' else FramebufferObject f :: used_objects cs'
  | glBlitNamedFramebuffer f f' _ _ _ _ _ _ _ _ _ _ :: cs' =>
      FramebufferObject f :: FramebufferObject f' :: used_objects cs'
  | glInvalidateNamedFramebufferData f _ _ :: cs' =>
      FramebufferObject f :: used_objects cs'
  | glDeleteFramebuffers f :: cs' => FramebufferObject f :: used_objects cs'
  | glBindVertexArray a :: cs' => VertexArrayObject a :: used_objects cs'
  | glDeleteVertexArrays a :: cs' => VertexArrayObject a :: used_objects cs'
  | glDeleteBuffers b :: cs' => BufferObject b :: used_objects cs'
  | _ :: cs' => used_objects cs'
  end.

(** The same for a call of the second monad. *)
Definition uses_of_call (c : SetupCall) : list GLObject :=
  match c with
  | gl g => used_objects [g]
  | glTextureSubImage2D t _ _ _ _ _ _ _ _ => [TextureObject t]
  | glNamedBufferStorage b _ _ _ => [BufferObject b]
  | glVertexArrayElementBuffer a b => [VertexArrayObject a; BufferObject b]
  | glVertexArrayVertexBuffer a _ b _ _ => [VertexArrayObject a; BufferObject b]
  | glEnableVertexArrayAttrib a _ => [VertexArrayObject a]
  | glVertexArrayAttribFormat a _ _ _ _ _ => [VertexArrayObject a]
  | glVertexArrayAttribBinding a _ _ => [VertexArrayObject a]
  | glCreateBuffers _ => []
  | glCreateVertexArrays _ => []
  end.

(** A sequence of calls keeps to the lifetimes of its objects when every
    call names only objects that are alive: created by an earlier call
    (or among [alive] at the start) and deleted by none (nor among [dead]
    at the start).  An object deleted twice, used before it exists or
    used after it was deleted breaks it. *)
Fixpoint well_scoped (alive dead : list GLObject) (cs : list SetupCall) : Prop :=
  match cs with
  | [] => True
  | c :: cs' =>
      Forall (fun o => In o alive /\ ~ In o dead) (uses_of_call c) /\
      well_scoped (alive ++ created_in_setup [c]) (dead ++ deleted_in_setup [c]) cs'
  end.

(** ** Concrete assets, to run setup on *)

(** The layout of mesh.hpp: position, normal, tangent, bitangent and
    texture coordinate of a vertex, and the three indices of a face. *)
Definition sample_layout : MeshLayout := mkMeshLayout 5 56 12.

(** Assets in which every mesh is one triangle and every image two by
    two bytes. *)
Definition sample_assets : Assets :=
  mkAssets (fun _ => Ok triangle_mesh) (fun _ _ => Ok small_image).

(** The world that [initialize], with four samples, and [setup] leave
    with these assets; and the same world with a model of a thousand
    million faces, whose count of elements does not fit [GLsizei]. *)
Definition sample_world : World :=
  world (context_of
    (setup willing_backend debug_build sample_assets sample_layout 0 0
       (mkContext (world_of (initialize willing_backend debug_build 800 600 4
                               blank_world)) 1 1))).

Definition large_model_world : World :=
  mkWorld (set_m_pbrModel (mkVertexBuffer 3 4 3 3000000000) (this sample_world))
    (names sample_world).

(** ** What setup needs from the backend and from the asset loaders *)

(** The source of a shader could be read and the shader compiled. *)
Definition shader_built (B : Backend) (filename : string) (shader : GLuint) : Prop :=
  File_readText B filename <> EmptyString /\ compile_status B shader = GL_TRUE.

(** A program linked and validated. *)
Definition program_built (B : Backend) (program : GLuint) : Prop :=
  link_status B program = GL_TRUE /\ validate_status B program = GL_TRUE.

(** A mesh was loaded; where the library checks the index of
    [operator[]], it has a vertex and a face. *)
Definition mesh_loaded (build : Build) (assets : Assets) (filename : string) : Prop :=
  exists mesh, Mesh_fromFile assets filename = Ok mesh /\
               (checked_subscript build = true ->
                mesh_vertices mesh <> [] /\ mesh_faces mesh <> []).

Definition image_loaded (assets : Assets) (filename : string) (channels : Z) : Prop :=
  exists image, Image_fromFile assets filename channels = Ok image.

(** Everything [setup] needs, in the context [ctx]: the ten shaders under
    the names they get, the seven programs, the two meshes and the five
    images. *)
Definition setup_requirements (B : Backend) (build : Build) (assets : Assets)
    (ctx : Context) : Prop :=
  let ns := next_shader_program (names (world ctx)) in
  Forall (fun '(filename, shader) => shader_built B filename shader)
    [ ("shaders/glsl/passthrough_vs.glsl", ns);
      ("shaders/glsl/tonemap_fs.glsl", ns + 1);
      ("shaders/glsl/skybox_vs.glsl", ns + 3);
      ("shaders/glsl/skybox_fs.glsl", ns + 4);
      ("shaders/glsl/pbr_vs.glsl", ns + 6);
      ("shaders/glsl/pbr_fs.glsl", ns + 7);
      ("shaders/glsl/equirect2cube_cs.glsl", ns + 9);
      ("shaders/glsl/irmap_cs.glsl", ns + 11);
      ("shaders/glsl/spmap_cs.glsl", ns + 13);
      ("shaders/glsl/spbrdf_cs.glsl", ns + 15) ] /\
  Forall (program_built B)
    [ ns + 2; ns + 5; ns + 8; ns + 10; ns + 12; ns + 14; ns + 16 ] /\
  Forall (mesh_loaded build assets) [ "meshes/skybox.obj"; "meshes/cerberus.fbx" ] /\
  Forall (fun '(filename, channels) => image_loaded assets filename channels)
    [ ("textures/cerberus_A.png", 3); ("textures/cerberus_N.png", 3);
      ("textures/cerberus_M.png", 1); ("textures/cerberus_R.png", 1);
      ("environment.hdr", 3) ].
(** * Properties *)

(** ** Running the monad *)

Lemma run_bind_ok {A C} (m : GL A) (f : A -> GL C) w a w1 c1 :
  m w = (Ok a, w1, c1) ->
  bind m f w = (let '(r, w2, c2) := f a w1 in (r, w2, c1 ++ c2)).
Proof. intros H. unfold bind. rewrite H. reflexivity. Qed.

Lemma run_for_each {A} (xs : list A) (body : A -> GL unit)
    (g : A -> list GLCall) :
  (forall x w, body x w = (Ok tt, w, g x)) ->
  forall w, for_each xs body w = (Ok tt, w, flat_map g xs).
Proof.
  intros Hbody. induction xs as [|x xs IH]; intros w; simpl; [reflexivity|].
  unfold bind. rewrite Hbody, IH. reflexivity.
Qed.

Lemma eqb_false_of_neq (a b : Z) : a <> b -> (a =? b) = false.
Proof. apply Z.eqb_neq. Qed.

Lemma eqb_succ_self (a : Z) : (a + 1 =? a) = false.
Proof. apply Z.eqb_neq. lia. Qed.

Lemma eqb_self_succ (a : Z) : (a =? a + 1) = false.
Proof. apply Z.eqb_neq. lia. Qed.


(** ** Deleting a handle *)

(** C8. After [deleteTexture], [deleteFrameBuffer] and
    [deleteVertexBuffer] return, every field of the handle they were given
    (the backend identifiers and the size, sample and element counts) is
    zero, whatever the handle held before. *)
Theorem delete_leaves_handle_zeroed
    (texture : Texture) (fb : FrameBuffer) (buffer : VertexBuffer) (w : World) :
  (exists t', result_of (deleteTexture texture w) = Ok t' /\
     tex_id t' = 0 /\ tex_width t' = 0 /\ tex_height t' = 0 /\ tex_levels t' = 0) /\
  (exists fb', result_of (deleteFrameBuffer fb w) = Ok fb' /\
     fb_id fb' = 0 /\ fb_colorTarget fb' = 0 /\ fb_depthStencilTarget fb' = 0 /\
     fb_width fb' = 0 /\ fb_height fb' = 0 /\ fb_samples fb' = 0) /\
  (exists b', result_of (deleteVertexBuffer buffer w) = Ok b' /\
     vb_vao b' = 0 /\ vb_vbo b' = 0 /\ vb_ibo b' = 0 /\ vb_numElements b' = 0).
Proof.
  split; [|split].
  - exists Texture_zeroed. repeat split.
  - exists FrameBuffer_zeroed. split; [|repeat split].
    unfold deleteFrameBuffer, result_of, bind, when, call, ret.
    destruct (fb_id fb =? 0), (fb_colorTarget fb =? 0), (fb_samples fb =? 0),
      (fb_depthStencilTarget fb =? 0); reflexivity.
  - exists VertexBuffer_zeroed. split; [|repeat split].
    unfold deleteVertexBuffer, result_of, bind, when, call, ret.
    destruct (vb_vao buffer =? 0), (vb_vbo buffer =? 0), (vb_ibo buffer =? 0);
      reflexivity.
Qed.

(** ** Resolving the multisample framebuffer *)

Lemma to_int_of_int (x : Z) : in_int x -> to_int x = x.
Proof.
  unfold in_int, INT_MIN, INT_MAX, to_int. intros H.
  rewrite Z.mod_small by lia. lia.
Qed.

Lemma resolve_attachments_nonempty (srcfb : FrameBuffer) :
  fb_colorTarget srcfb <> 0 \/ fb_depthStencilTarget srcfb <> 0 <->
  resolve_attachments srcfb <> [].
Proof.
  unfold resolve_attachments.
  destruct (Z.eqb_spec (fb_colorTarget srcfb) 0) as [Hc|Hc];
    destruct (Z.eqb_spec (fb_depthStencilTarget srcfb) 0) as [Hd|Hd]; simpl;
    split; intros H; try discriminate; try tauto.
Qed.

Lemma resolveFramebuffer_same (build : Build) (srcfb dstfb : FrameBuffer) w :
  fb_id srcfb = fb_id dstfb ->
  resolveFramebuffer build srcfb dstfb w = (Ok tt, w, []).
Proof.
  intros H. unfold resolveFramebuffer. rewrite H, Z.eqb_refl. reflexivity.
Qed.

Lemma resolveFramebuffer_differ (build : Build) (srcfb dstfb : FrameBuffer) w :
  fb_id srcfb <> fb_id dstfb ->
  resolve_attachments srcfb <> [] \/
  (NDEBUG build = true /\ checked_subscript build = false) ->
  resolveFramebuffer build srcfb dstfb w =
  (Ok tt, w,
   [ glBlitNamedFramebuffer (fb_id srcfb) (fb_id dstfb)
       0 0 (to_int (fb_width srcfb - 1)) (to_int (fb_height srcfb - 1))
       0 0 (to_int (fb_width dstfb - 1)) (to_int (fb_height dstfb - 1))
       GL_COLOR_BUFFER_BIT GL_NEAREST;
     glInvalidateNamedFramebufferData (fb_id srcfb)
       (Z.of_nat (List.length (resolve_attachments srcfb)))
       (resolve_attachments srcfb) ]).
Proof.
  intros Hid Hne. unfold resolveFramebuffer.
  rewrite (eqb_false_of_neq _ _ Hid).
  unfold bind, when, assert, call, ret.
  destruct Hne as [Hne|[Hn Hc]].
  - destruct (resolve_attachments srcfb) as [|a atts] eqn:E; [contradiction|].
    destruct (NDEBUG build), (checked_subscript build); reflexivity.
  - rewrite Hn, Hc. reflexivity.
Qed.

Lemma resolveFramebuffer_run (build : Build) (srcfb dstfb : FrameBuffer) (w : World) :
  resolvable srcfb dstfb ->
  resolveFramebuffer build srcfb dstfb w = (Ok tt, w, resolve_calls srcfb dstfb).
Proof.
  intros H. unfold resolve_calls.
  destruct (Z.eqb_spec (fb_id srcfb) (fb_id dstfb)) as [Heq|Hne].
  - apply resolveFramebuffer_same; assumption.
  - apply resolveFramebuffer_differ; [assumption|].
    left. apply resolve_attachments_nonempty.
    destruct H as [H|H]; [contradiction|assumption].
Qed.

(** C5 (as amended). [resolveFramebuffer(src, dst)] on two handles with
    the same framebuffer identifier makes no backend call and changes
    nothing.  On handles with different identifiers, when [src] has a
    colour or a depth/stencil target (what the function asserts), or when
    the build has neither the assertion nor a checked vector index, it
    changes nothing either and makes exactly two calls: one blit of the
    colour buffer with the nearest filter, between the corners (0, 0) and
    (width - 1, height - 1) of each framebuffer, computed in [int], then
    one invalidation of the attachments of [src]. *)
Theorem resolveFramebuffer_calls
    (build : Build) (srcfb dstfb : FrameBuffer) (w : World) :
  resolvable srcfb dstfb \/
  (NDEBUG build = true /\ checked_subscript build = false) ->
  resolveFramebuffer build srcfb dstfb w =
  (Ok tt, w,
   if fb_id srcfb =? fb_id dstfb then []
   else
     [ glBlitNamedFramebuffer (fb_id srcfb) (fb_id dstfb)
         0 0 (to_int (fb_width srcfb - 1)) (to_int (fb_height srcfb - 1))
         0 0 (to_int (fb_width dstfb - 1)) (to_int (fb_height dstfb - 1))
         GL_COLOR_BUFFER_BIT GL_NEAREST;
       glInvalidateNamedFramebufferData (fb_id srcfb)
         (Z.of_nat (List.length (resolve_attachments srcfb)))
         (resolve_attachments srcfb) ]).
Proof.
  intros [H|H].
  - apply resolveFramebuffer_run. exact H.
  - destruct (Z.eqb_spec (fb_id srcfb) (fb_id dstfb)) as [Heq|Hne].
    + apply resolveFramebuffer_same. exact Heq.
    + apply resolveFramebuffer_differ; [exact Hne|]. right. exact H.
Qed.

(** C6. When [src] and [dst] differ and [src] has at least one
    attachment, [resolveFramebuffer] passes its assertion and invalidates
    once, with a list that holds [GL_COLOR_ATTACHMENT0] exactly when [src]
    has a colour target and [GL_DEPTH_STENCIL_ATTACHMENT] exactly when it
    has a depth/stencil target, holds nothing else, is not empty, and whose
    length is the count passed along. *)
Theorem resolveFramebuffer_invalidates_present_attachments
    (build : Build) (srcfb dstfb : FrameBuffer) (w : World) :
  fb_id srcfb <> fb_id dstfb ->
  fb_colorTarget srcfb <> 0 \/ fb_depthStencilTarget srcfb <> 0 ->
  exists attachments : list GLenum,
    result_of (resolveFramebuffer build srcfb dstfb w) = Ok tt /\
    invalidations (calls_of (resolveFramebuffer build srcfb dstfb w)) =
      [(fb_id srcfb, Z.of_nat (List.length attachments), attachments)] /\
    (In GL_COLOR_ATTACHMENT0 attachments <-> fb_colorTarget srcfb <> 0) /\
    (In GL_DEPTH_STENCIL_ATTACHMENT attachments <-> fb_depthStencilTarget srcfb <> 0) /\
    (forall a, In a attachments ->
       a = GL_COLOR_ATTACHMENT0 \/ a = GL_DEPTH_STENCIL_ATTACHMENT) /\
    attachments <> [] /\ NoDup attachments.
Proof.
  intros Hid Hatt. exists (resolve_attachments srcfb).
  pose proof (proj1 (resolve_attachments_nonempty srcfb) Hatt) as Hne.
  rewrite (resolveFramebuffer_differ build srcfb dstfb w Hid (or_introl Hne)).
  split; [reflexivity|]. split; [reflexivity|].
  clear Hne. unfold resolve_attachments.
  destruct (Z.eqb_spec (fb_colorTarget srcfb) 0) as [Hc|Hc];
    destruct (Z.eqb_spec (fb_depthStencilTarget srcfb) 0) as [Hd|Hd]; simpl.
  - destruct Hatt; contradiction.
  - repeat split; intros; simpl in *;
      try (repeat constructor; simpl; intuition discriminate);
      intuition (subst; try discriminate; auto).
  - repeat split; intros; simpl in *;
      try (repeat constructor; simpl; intuition discriminate);
      intuition (subst; try discriminate; auto).
  - repeat split; intros; simpl in *;
      try (repeat constructor; simpl; intuition discriminate);
      intuition (subst; try discriminate; auto).
Qed.

(** ** Linking a program *)

Lemma linkProgram_run (B : Backend) (shaders : list GLuint) (w : World) :
  let program := next_shader_program (names w) in
  let w' := mkWorld (this w) (names_after_program (names w)) in
  linkProgram B shaders w =
  if link_status B program =? GL_TRUE then
    if validate_status B program =? GL_TRUE then
      (Ok program, w', link_calls program shaders ++ validate_calls program)
    else
      (link_abort B program, w',
       link_calls program shaders ++ validate_calls program ++
       info_log_calls B program)
  else
    (link_abort B program, w',
     link_calls program shaders ++ info_log_calls B program).
Proof.
  intros program w'. unfold linkProgram.
  unfold bind at 1. unfold fresh_shader_program at 1. cbv beta iota zeta.
  fold program. fold w'.
  unfold bind at 1. unfold call at 1. cbv beta iota zeta.
  unfold bind at 1.
  rewrite (run_for_each shaders _ (fun shader => [glAttachShader program shader]))
    by reflexivity.
  cbv beta iota zeta.
  unfold bind at 1. unfold call at 1. cbv beta iota zeta.
  unfold bind at 1.
  rewrite (run_for_each shaders _
             (fun shader => [glDetachShader program shader; glDeleteShader shader]))
    by reflexivity.
  cbv beta iota zeta.
  unfold link_calls, validate_calls, info_log_calls, link_abort, link_failure.
  unfold bind, call, ret, throw, undefined.
  destruct (link_status B program =? GL_TRUE) eqn:El.
  - destruct (validate_status B program =? GL_TRUE) eqn:Ev; cbn [negb];
      [simpl; repeat (rewrite <- app_assoc; simpl); reflexivity|].
    destruct (program_info_log_length B program <? 0);
      [|destruct (program_info_log_length B program =? 0)];
      simpl; repeat (rewrite <- app_assoc; simpl); reflexivity.
  - rewrite El. cbn [negb].
    destruct (program_info_log_length B program <? 0);
      [|destruct (program_info_log_length B program =? 0)];
      simpl; repeat (rewrite <- app_assoc; simpl); reflexivity.
Qed.


Lemma link_abort_not_ok (B : Backend) (program a : GLuint) :
  link_abort B program <> Ok a.
Proof.
  unfold link_abort.
  destruct (program_info_log_length B program <? 0); [discriminate|].
  destruct (program_info_log_length B program =? 0); discriminate.
Qed.





(** ** The level count of a texture *)

Lemma log2_of_int (a : Z) : 0 <= a <= INT_MAX -> 0 <= Z.log2 a < 31.
Proof.
  intros [H0 Hmax]. split; [apply Z.log2_nonneg|].
  destruct (Z.eq_dec a 0) as [->|Hne]; [reflexivity|].
  apply Z.log2_lt_pow2; [lia|]. unfold INT_MAX in Hmax.
  change (2 ^ 31) with 2147483648. lia.
Qed.

Lemma log2_lor_max (a b : Z) :
  0 <= a -> 0 <= b -> Z.log2 (Z.lor a b) = Z.log2 (Z.max a b).
Proof.
  intros Ha Hb. rewrite Z.log2_lor by assumption.
  destruct (Z.le_ge_cases a b) as [H|H].
  - pose proof (Z.log2_le_mono a b H). rewrite (Z.max_r a b) by assumption. lia.
  - pose proof (Z.log2_le_mono b a H). rewrite (Z.max_l a b) by assumption. lia.
Qed.

(** The loop stops at the first count that shifts every set bit out. *)
Lemma mip_levels_loop_finds (wh : Z) :
  0 <= wh -> Z.log2 wh < 31 ->
  forall (rounds : nat) (levels : Z),
    1 <= levels <= 1 + Z.log2 wh ->
    (Z.to_nat (1 + Z.log2 wh - levels) < rounds)%nat ->
    mip_levels_loop rounds wh levels = Ok (1 + Z.log2 wh).
Proof.
  intros Hwh Hlog. induction rounds as [|rounds IH]; intros levels Hl Hr; [lia|].
  simpl. unfold int_shr.
  assert (Hin : (0 <=? levels) && (levels <? 32) = true).
  { apply andb_true_iff. split; [apply Z.leb_le|apply Z.ltb_lt]; lia. }
  rewrite Hin.
  destruct (Z.eq_dec levels (1 + Z.log2 wh)) as [Heq|Hne].
  - rewrite (Z.shiftr_eq_0 wh levels) by lia. rewrite Heq. reflexivity.
  - assert (Hnz : Z.shiftr wh levels <> 0).
    { intros Hz. apply Z.shiftr_eq_0_iff in Hz as [Hz|[_ Hz]]; [|lia].
      subst wh. change (Z.log2 0) with 0 in *. lia. }
    destruct (Z.shiftr wh levels) eqn:E; [contradiction| |]; apply IH; lia.
Qed.

Lemma mip_levels_of_size (width height : Z) :
  0 <= width <= INT_MAX -> 0 <= height <= INT_MAX ->
  mip_levels_loop 32 (Z.lor width height) 1 = Ok (1 + Z.log2 (Z.max width height)).
Proof.
  intros Hw Hh. rewrite <- log2_lor_max by lia.
  assert (Hlog : 0 <= Z.log2 (Z.lor width height) < 31).
  { rewrite log2_lor_max by lia. apply log2_of_int. lia. }
  apply mip_levels_loop_finds; try lia.
  apply Z.lor_nonneg. lia.
Qed.

Lemma createTexture_run (target : GLenum) (width height : Z)
    (internalformat : GLenum) (levels n : Z) (w : World) :
  (if levels <=? 0 then mip_levels_loop 32 (Z.lor width height) 1 else Ok levels)
    = Ok n ->
  let id := next_texture (names w) in
  createTexture target width height internalformat levels w =
  (Ok (mkTexture id width height n),
   mkWorld (this w)
     (mkNames (id + 1) (next_renderbuffer (names w))
        (next_framebuffer (names w)) (next_shader_program (names w))),
   [ glCreateTextures target id;
     glTextureStorage2D id n internalformat width height;
     glTextureParameteri id GL_TEXTURE_MIN_FILTER
       (if 1 <? n then GL_LINEAR_MIPMAP_LINEAR else GL_LINEAR);
     glTextureParameteri id GL_TEXTURE_MAG_FILTER GL_LINEAR ]).
Proof.
  intros Hn id. unfold createTexture.
  unfold bind at 1.
  replace ((if levels <=? 0
            then lift (mip_levels_loop 32 (Z.lor width height) 1)
            else ret levels) w) with (@Ok Z n, w, @nil GLCall).
  - reflexivity.
  - destruct (levels <=? 0); unfold lift, ret; rewrite <- Hn; reflexivity.
Qed.

(** C1 (as amended). For every [width] and [height] an [int] can hold
    from 0 on, [createTexture] returns a texture; called with
    [levels <= 0] its level count is [1 + floor(log2(max(width, height)))]
    (which is 1 when both sizes are 0, [Z.log2 0] being 0), called with
    [levels = 1] it is exactly 1, a positive [levels] is kept as it is, and
    in every case the level count is at least 1 and is the one the storage
    of the texture is allocated with. *)
Theorem createTexture_level_count (target : GLenum) (width height : Z)
    (internalformat : GLenum) (levels : Z) (w : World) :
  0 <= width <= INT_MAX -> 0 <= height <= INT_MAX ->
  exists t : Texture,
    result_of (createTexture target width height internalformat levels w) = Ok t /\
    tex_width t = width /\ tex_height t = height /\
    (levels <= 0 -> tex_levels t = 1 + Z.log2 (Z.max width height)) /\
    (levels = 1 -> tex_levels t = 1) /\
    (0 < levels -> tex_levels t = levels) /\
    1 <= tex_levels t /\
    In (glTextureStorage2D (tex_id t) (tex_levels t) internalformat width height)
      (calls_of (createTexture target width height internalformat levels w)).
Proof.
  intros Hw Hh.
  pose proof (mip_levels_of_size width height Hw Hh) as Hloop.
  assert (Hlog : 0 <= Z.log2 (Z.max width height)) by apply Z.log2_nonneg.
  destruct (Z.leb_spec levels 0) as [Hle|Hgt].
  - eexists. rewrite (createTexture_run target width height internalformat levels
                        (1 + Z.log2 (Z.max width height)) w).
    + unfold result_of, calls_of; cbn [fst snd tex_width tex_height tex_levels tex_id].
      repeat split; cbn [tex_levels tex_id tex_width tex_height]; try lia.
      simpl; auto.
    + apply Z.leb_le in Hle. rewrite Hle. exact Hloop.
  - eexists. rewrite (createTexture_run target width height internalformat levels
                        levels w).
    + unfold result_of, calls_of; cbn [fst snd tex_width tex_height tex_levels tex_id].
      repeat split; cbn [tex_levels tex_id tex_width tex_height]; try lia.
      simpl; auto.
    + apply Z.leb_gt in Hgt. rewrite Hgt. reflexivity.
Qed.

(** ** The attachments of a framebuffer *)

Ltac run_gl :=
  unfold result_of, calls_of, world_of, bind, call, ret, throw, lift, when,
    assert, undefined, get_this, modify_this, fresh_texture,
    fresh_renderbuffer, fresh_framebuffer, fresh_shader_program;
  cbn [fst snd app names this next_texture next_renderbuffer
       next_framebuffer next_shader_program negb].

Ltac same_names :=
  repeat (rewrite Z.eqb_refl || rewrite eqb_succ_self || rewrite eqb_self_succ);
  cbn [andb].

(** C4. In a framebuffer that [createFrameBuffer] returned: with
    [samples > 0] the colour attachment and the depth/stencil attachment
    (each present when its format is not [GL_NONE]) are renderbuffers with
    multisample storage of [samples] samples; with [samples = 0] the colour
    attachment is level 0 of a 2D texture and the depth/stencil attachment
    is a renderbuffer with single-sample storage; and with
    [colorFormat = GL_NONE] nothing is attached to the colour attachment
    point, no texture is created and the [colorTarget] of the handle is 0. *)
Theorem createFrameBuffer_attachments (B : Backend)
    (width height samples : Z) (colorFormat depthstencilFormat : GLenum)
    (w : World) (fb : FrameBuffer) :
  result_of (createFrameBuffer B width height samples colorFormat
               depthstencilFormat w) = Ok fb ->
  let cs := calls_of (createFrameBuffer B width height samples colorFormat
                        depthstencilFormat w) in
  let color := attachment_of (fb_id fb) GL_COLOR_ATTACHMENT0 cs None in
  let depthStencil := attachment_of (fb_id fb) GL_DEPTH_STENCIL_ATTACHMENT cs None in
  (0 < samples ->
     (colorFormat <> GL_NONE ->
        is_multisampled_renderbuffer cs color (fb_colorTarget fb)
          samples colorFormat width height) /\
     (depthstencilFormat <> GL_NONE ->
        is_multisampled_renderbuffer cs depthStencil (fb_depthStencilTarget fb)
          samples depthstencilFormat width height)) /\
  (samples = 0 ->
     (colorFormat <> GL_NONE ->
        is_sampleable_texture cs color (fb_colorTarget fb)
          colorFormat width height) /\
     (depthstencilFormat <> GL_NONE ->
        is_single_sample_renderbuffer cs depthStencil (fb_depthStencilTarget fb)
          depthstencilFormat width height)) /\
  (colorFormat = GL_NONE ->
     fb_colorTarget fb = 0 /\ color = None /\
     forall target texture, ~ In (glCreateTextures target texture) cs).
Proof.
  destruct w as [r [nt nr nf ns]].
  unfold createFrameBuffer, FrameBuffer_default,
    is_multisampled_renderbuffer, is_single_sample_renderbuffer,
    is_sampleable_texture.
  destruct (Z.eqb_spec colorFormat GL_NONE) as [Hc|Hc];
    destruct (Z.eqb_spec depthstencilFormat GL_NONE) as [Hd|Hd];
    destruct (Z.ltb_spec 0 samples) as [Hs|Hs];
    run_gl;
    destruct (framebuffer_status B nf =? GL_FRAMEBUFFER_COMPLETE);
    run_gl; intros Hfb; try discriminate; injection Hfb as <-;
    cbn [fb_id fb_colorTarget fb_depthStencilTarget];
    (split; [intros Hs'; try lia | split; [intros Hs'; try lia | intros Hc'; try contradiction]]);
    repeat (progress (simpl; rewrite ?Z.eqb_refl, ?eqb_succ_self, ?eqb_self_succ));
    repeat split; try contradiction; try reflexivity;
    try (intros target texture Hin; simpl in Hin; intuition discriminate).
Qed.

(** ** Shutdown *)

Lemma deleteFrameBuffer_run (fb : FrameBuffer) (w : World) :
  deleteFrameBuffer fb w = (Ok FrameBuffer_zeroed, w, deleteFrameBuffer_calls fb).
Proof.
  unfold deleteFrameBuffer, deleteFrameBuffer_calls. run_gl.
  destruct (fb_id fb =? 0), (fb_colorTarget fb =? 0), (fb_samples fb =? 0),
    (fb_depthStencilTarget fb =? 0); reflexivity.
Qed.

Lemma deleteVertexBuffer_run (buffer : VertexBuffer) (w : World) :
  deleteVertexBuffer buffer w =
  (Ok VertexBuffer_zeroed, w, deleteVertexBuffer_calls buffer).
Proof.
  unfold deleteVertexBuffer, deleteVertexBuffer_calls. run_gl.
  destruct (vb_vao buffer =? 0), (vb_vbo buffer =? 0), (vb_ibo buffer =? 0);
    reflexivity.
Qed.

Lemma deleteTexture_run (texture : Texture) (w : World) :
  deleteTexture texture w = (Ok Texture_zeroed, w, [glDeleteTextures (tex_id texture)]).
Proof. reflexivity. Qed.

Lemma on_member_run {T} (member : Renderer -> T)
    (set_member : T -> Renderer -> Renderer) (f : T -> GL T)
    (w : World) (x : T) (cs : list GLCall) :
  f (member (this w)) w = (Ok x, w, cs) ->
  on_member member set_member f w =
  (Ok tt, mkWorld (set_member x (this w)) (names w), cs).
Proof.
  intros H. unfold on_member, bind, get_this, modify_this.
  rewrite H. simpl. rewrite app_nil_r. reflexivity.
Qed.

Lemma bind_run {A C} (m : GL A) (f : A -> GL C) w a w1 c1 r w2 c2 :
  m w = (Ok a, w1, c1) -> f a w1 = (r, w2, c2) ->
  bind m f w = (r, w2, c1 ++ c2).
Proof. intros Hm Hf. unfold bind. rewrite Hm, Hf. reflexivity. Qed.

Lemma run_with_calls {A} (m : GL A) w r w' cs cs' :
  m w = (r, w', cs) -> cs = cs' -> m w = (r, w', cs').
Proof. intros H <-. exact H. Qed.

Ltac step_member :=
  eapply bind_run;
  [ first [ apply on_member_run;
            first [ apply deleteFrameBuffer_run
                  | apply deleteVertexBuffer_run
                  | apply deleteTexture_run ]
          | reflexivity ]
  | ].

Ltac read_members :=
  cbn [this names app
       m_framebuffer m_resolveFramebuffer m_screenQuad m_skybox m_pbrModel
       m_tonemapProgram m_skyboxProgram m_pbrProgram m_envTexture
       m_irmapTexture m_spmapTexture m_spBRDF_LUT m_albedoTexture
       m_normalTexture m_metalnessTexture m_roughnessTexture
       set_m_framebuffer set_m_resolveFramebuffer set_m_screenQuad
       set_m_skybox set_m_pbrModel set_m_envTexture set_m_irmapTexture
       set_m_spmapTexture set_m_spBRDF_LUT set_m_albedoTexture
       set_m_normalTexture set_m_metalnessTexture set_m_roughnessTexture].

Lemma shutdown_run (w : World) :
  exists w' : World, shutdown w = (Ok tt, w', shutdown_calls (this w)).
Proof.
  destruct w as [r n]. eexists. unfold shutdown.
  eapply run_with_calls.
  - eapply bind_run; [reflexivity|].
    cbn [this].
    eapply bind_run.
    { instantiate (3 := tt).
      instantiate (2 := mkWorld
         (if fb_id (m_framebuffer r) =? fb_id (m_resolveFramebuffer r)
          then r else set_m_resolveFramebuffer FrameBuffer_zeroed r) n).
      instantiate (1 :=
         if fb_id (m_framebuffer r) =? fb_id (m_resolveFramebuffer r) then []
         else deleteFrameBuffer_calls (m_resolveFramebuffer r)).
      destruct (fb_id (m_framebuffer r) =? fb_id (m_resolveFramebuffer r));
        cbn [negb when].
      - reflexivity.
      - apply (on_member_run m_resolveFramebuffer set_m_resolveFramebuffer).
        apply deleteFrameBuffer_run. }
    do 5 step_member.
    eapply bind_run; [reflexivity|].
    eapply bind_run; [reflexivity|].
    eapply bind_run; [reflexivity|].
    do 7 step_member.
    apply on_member_run. apply deleteTexture_run.
  - unfold shutdown_calls, shutdown_rest_calls. read_members.
    destruct (fb_id (m_framebuffer r) =? fb_id (m_resolveFramebuffer r));
      read_members; reflexivity.
Qed.

Lemma framebuffer_deletions_app (id : GLuint) (cs cs' : list GLCall) :
  framebuffer_deletions id (cs ++ cs') =
  (framebuffer_deletions id cs + framebuffer_deletions id cs')%nat.
Proof.
  induction cs as [|c cs IH]; [reflexivity|].
  destruct c; simpl; try apply IH.
  destruct (framebuffer =? id); simpl; rewrite IH; reflexivity.
Qed.

Lemma framebuffer_deletions_of_handle (id : GLuint) (fb : FrameBuffer) :
  framebuffer_deletions id (deleteFrameBuffer_calls fb) =
  if fb_id fb =? 0 then 0%nat else if fb_id fb =? id then 1%nat else 0%nat.
Proof.
  unfold deleteFrameBuffer_calls.
  destruct (fb_id fb =? 0), (fb_colorTarget fb =? 0), (fb_samples fb =? 0),
    (fb_depthStencilTarget fb =? 0); simpl;
    try destruct (fb_id fb =? id); reflexivity.
Qed.

Lemma framebuffer_deletions_of_rest (id : GLuint) (r : Renderer) :
  framebuffer_deletions id (shutdown_rest_calls r) = 0%nat.
Proof.
  assert (Hvb : forall b, framebuffer_deletions id (deleteVertexBuffer_calls b) = 0%nat).
  { intros b. unfold deleteVertexBuffer_calls.
    destruct (vb_vao b =? 0), (vb_vbo b =? 0), (vb_ibo b =? 0); reflexivity. }
  unfold shutdown_rest_calls.
  rewrite !framebuffer_deletions_app, !Hvb. reflexivity.
Qed.

(** Whatever the renderer holds, [shutdown] deletes a framebuffer object
    at most once: the resolve framebuffer is left to the deletion of the
    main one when the two handles name the same object. *)
Lemma shutdown_framebuffer_deletions (id : GLuint) (r : Renderer) :
  framebuffer_deletions id (shutdown_calls r) =
  if id =? 0 then 0%nat
  else if (id =? fb_id (m_framebuffer r)) || (id =? fb_id (m_resolveFramebuffer r))
       then 1%nat else 0%nat.
Proof.
  unfold shutdown_calls.
  rewrite !framebuffer_deletions_app, framebuffer_deletions_of_rest.
  rewrite framebuffer_deletions_of_handle.
  destruct (Z.eqb_spec (fb_id (m_framebuffer r)) (fb_id (m_resolveFramebuffer r)))
    as [Hsame|Hdiff].
  - rewrite <- Hsame. simpl.
    destruct (Z.eqb_spec (fb_id (m_framebuffer r)) 0) as [H0|H0];
      destruct (Z.eqb_spec id 0) as [Hi|Hi];
      destruct (Z.eqb_spec (fb_id (m_framebuffer r)) id) as [He|He];
      destruct (Z.eqb_spec id (fb_id (m_framebuffer r))) as [He'|He'];
      simpl; try reflexivity; congruence.
  - rewrite framebuffer_deletions_of_handle.
    destruct (Z.eqb_spec (fb_id (m_framebuffer r)) 0) as [H0|H0];
      destruct (Z.eqb_spec (fb_id (m_resolveFramebuffer r)) 0) as [H0'|H0'];
      destruct (Z.eqb_spec id 0) as [Hi|Hi];
      destruct (Z.eqb_spec (fb_id (m_framebuffer r)) id) as [He|He];
      destruct (Z.eqb_spec id (fb_id (m_framebuffer r))) as [He'|He'];
      destruct (Z.eqb_spec (fb_id (m_resolveFramebuffer r)) id) as [Hr|Hr];
      destruct (Z.eqb_spec id (fb_id (m_resolveFramebuffer r))) as [Hr'|Hr'];
      simpl; try reflexivity; congruence.
Qed.

(** ** The framebuffers [initialize] creates *)

Lemma initialize_framebuffers (B : Backend) (build : Build)
    (width height samples : Z) (w : World) (window : GLFWwindow) :
  result_of (initialize B build width height samples w) = Ok window ->
  let init := initialize B build width height samples w in
  let r1 := this (world_of init) in
  let nf := next_framebuffer (names w) in
  fb_id (m_framebuffer r1) = nf /\
  (samples <= 0 ->
     m_resolveFramebuffer r1 = m_framebuffer r1 /\
     created_framebuffers (calls_of init) = [nf]) /\
  (0 < samples ->
     fb_id (m_resolveFramebuffer r1) = nf + 1 /\
     fb_colorTarget (m_framebuffer r1) = next_renderbuffer (names w) /\
     created_framebuffers (calls_of init) = [nf; nf + 1]).
Proof.
  destruct w as [r [nt nr nf ns]].
  unfold initialize, createFrameBuffer, FrameBuffer_default.
  destruct (glfwCreateWindow_result B width height =? nullptr);
    destruct (gladLoadGLLoader_result B);
    destruct (_DEBUG build);
    destruct (Z.ltb_spec 0 samples) as [Hs|Hs];
    run_gl; simpl;
    destruct (framebuffer_status B nf =? GL_FRAMEBUFFER_COMPLETE);
    simpl; try discriminate;
    try (destruct (framebuffer_status B (nf + 1) =? GL_FRAMEBUFFER_COMPLETE);
         simpl; try discriminate);
    intros _; repeat split; intros; try lia; reflexivity.
Qed.

(** C10. After [initialize] with [samples = 0] (or less) the resolve
    framebuffer is the very record of the main framebuffer and one
    framebuffer object has been created.  Whatever the sample count, in
    any later state that still holds the two handles, [shutdown] deletes
    the resolve framebuffer only when its identifier differs from the main
    one's, and so deletes every framebuffer object [initialize] created
    exactly once and no other. *)
Theorem framebuffers_destroyed_exactly_once (B : Backend) (build : Build)
    (width height samples : Z) (w : World) (window : GLFWwindow) :
  0 < next_framebuffer (names w) ->
  result_of (initialize B build width height samples w) = Ok window ->
  let init := initialize B build width height samples w in
  let r1 := this (world_of init) in
  let created := created_framebuffers (calls_of init) in
  (samples <= 0 ->
     m_resolveFramebuffer r1 = m_framebuffer r1 /\
     created = [fb_id (m_framebuffer r1)]) /\
  forall w2 : World,
    m_framebuffer (this w2) = m_framebuffer r1 ->
    m_resolveFramebuffer (this w2) = m_resolveFramebuffer r1 ->
    result_of (shutdown w2) = Ok tt /\
    calls_of (shutdown w2) =
      (if fb_id (m_framebuffer r1) =? fb_id (m_resolveFramebuffer r1) then []
       else deleteFrameBuffer_calls (m_resolveFramebuffer r1)) ++
      deleteFrameBuffer_calls (m_framebuffer r1) ++
      shutdown_rest_calls (this w2) /\
    (forall id, In id created ->
       framebuffer_deletions id (calls_of (shutdown w2)) = 1%nat) /\
    (forall id, ~ In id created ->
       framebuffer_deletions id (calls_of (shutdown w2)) = 0%nat).
Proof.
  intros Hnf Hok init r1 created.
  destruct (initialize_framebuffers B build width height samples w window Hok)
    as (Hid & Hzero & Hmulti).
  fold init in Hid, Hzero, Hmulti. fold r1 in Hid, Hzero, Hmulti.
  fold created in Hzero, Hmulti.
  split.
  - intros Hs. destruct (Hzero Hs) as [Hsame Hcreated].
    split; [exact Hsame|]. rewrite Hcreated, Hid. reflexivity.
  - intros w2 Hmain Hresolve.
    destruct (shutdown_run w2) as (w' & Hrun). rewrite Hrun.
    unfold result_of, calls_of. cbn [fst snd].
    split; [reflexivity|].
    split; [unfold shutdown_calls; rewrite Hmain, Hresolve; reflexivity|].
    assert (Hdel : forall id,
      framebuffer_deletions id (shutdown_calls (this w2)) =
      if existsb (Z.eqb id) created then 1%nat else 0%nat).
    { intros id. rewrite shutdown_framebuffer_deletions, Hmain, Hresolve, Hid.
      destruct (Z.ltb_spec 0 samples) as [Hs|Hs].
      - destruct (Hmulti Hs) as (Hres & _ & Hcreated).
        rewrite Hres, Hcreated. simpl. rewrite orb_false_r.
        destruct (Z.eqb_spec id 0) as [H0|H0]; [|reflexivity].
        destruct (Z.eqb_spec id (next_framebuffer (names w)));
          destruct (Z.eqb_spec id (next_framebuffer (names w) + 1));
          simpl; try reflexivity; lia.
      - destruct (Hzero Hs) as (Hsame & Hcreated).
        rewrite Hsame, Hid, Hcreated. simpl. rewrite orb_false_r, orb_diag.
        destruct (Z.eqb_spec id 0) as [H0|H0]; [|reflexivity].
        destruct (Z.eqb_spec id (next_framebuffer (names w)));
          simpl; try reflexivity; lia. }
    split; intros id Hin; rewrite Hdel.
    + replace (existsb (Z.eqb id) created) with true; [reflexivity|].
      symmetry. apply existsb_exists. exists id. split; [exact Hin|apply Z.eqb_refl].
    + destruct (existsb (Z.eqb id) created) eqn:E; [|reflexivity].
      apply existsb_exists in E as (x & Hx & Heq).
      apply Z.eqb_eq in Heq. subst x. contradiction.
Qed.

(** ** One frame *)

(** [initialize] leaves framebuffers that [render] can resolve. *)
Lemma initialize_resolvable (B : Backend) (build : Build)
    (width height samples : Z) (w : World) (window : GLFWwindow) :
  0 < next_renderbuffer (names w) ->
  result_of (initialize B build width height samples w) = Ok window ->
  let r1 := this (world_of (initialize B build width height samples w)) in
  resolvable (m_framebuffer r1) (m_resolveFramebuffer r1).
Proof.
  intros Hnr Hok r1.
  destruct (initialize_framebuffers B build width height samples w window Hok)
    as (Hid & Hzero & Hmulti).
  fold r1 in Hid, Hzero, Hmulti.
  destruct (Z.ltb_spec 0 samples) as [Hs|Hs].
  - destruct (Hmulti Hs) as (_ & Hcolor & _). right. left. lia.
  - destruct (Hzero Hs) as (Hsame & _). left. rewrite Hsame. reflexivity.
Qed.

(** C9. Whatever the view settings, a frame is the same sequence of
    calls on the resources of the renderer, and only the three uniforms
    at its head depend on the view: bind the main framebuffer and clear
    with the depth bit alone; the skybox with the depth test disabled; the
    model with the depth test enabled and seven textures at the units 0
    to 6; the resolve; the tonemap quad, a strip of four vertices, on the
    default framebuffer; the swap of the buffers.  The renderer holds
    framebuffers as [initialize] leaves them. *)
Theorem render_pass_sequence (build : Build) (glm : Glm)
    (window : GLFWwindow) (view : ViewSettings) (w : World) :
  resolvable (m_framebuffer (this w)) (m_resolveFramebuffer (this w)) ->
  render build glm window view w =
    (Ok tt, w,
     frame_uniforms glm (this w) view ++ frame_clear (this w) ++
     frame_skybox (this w) ++ frame_model (this w) ++ frame_resolve (this w) ++
     frame_tonemap (this w) ++ frame_present window) /\
  (forall mask, In (glClear mask) (calls_of (render build glm window view w)) ->
     mask = GL_DEPTH_BUFFER_BIT /\ Z.land mask GL_COLOR_BUFFER_BIT = 0) /\
  (forall view', 
     skipn 3 (calls_of (render build glm window view' w)) =
     skipn 3 (calls_of (render build glm window view w))).
Proof.
  intros Hres.
  assert (Hrun : forall v, render build glm window v w =
    (Ok tt, w,
     frame_uniforms glm (this w) v ++ frame_clear (this w) ++
     frame_skybox (this w) ++ frame_model (this w) ++ frame_resolve (this w) ++
     frame_tonemap (this w) ++ frame_present window)).
  { intros v. unfold render, bind, call, get_this.
    rewrite (resolveFramebuffer_run build _ _ w Hres).
    unfold frame_resolve.
    destruct (resolve_calls (m_framebuffer (this w)) (m_resolveFramebuffer (this w)))
      as [|c1 [|c2 cs]]; reflexivity. }
  split; [apply Hrun|]. split.
  - rewrite Hrun. unfold calls_of. cbn [snd].
    unfold frame_resolve, resolve_calls. intros mask Hin.
    assert (mask = GL_DEPTH_BUFFER_BIT) as ->; [|split; reflexivity].
    destruct (fb_id (m_framebuffer (this w)) =? fb_id (m_resolveFramebuffer (this w)));
      simpl in Hin;
      repeat (destruct Hin as [Hin|Hin]; [try discriminate; congruence|]);
      contradiction.
  - intros view'. rewrite !Hrun. reflexivity.
Qed.

(** ** Conversion of integers to binary32 *)

Lemma digits2_pos_size (p : positive) : digits2_pos p = Pos.size p.
Proof. induction p; simpl; congruence. Qed.

Lemma Zdigits2_log2 (m : Z) : 0 < m -> Zdigits2 m = Z.log2 m + 1.
Proof.
  destruct m as [|p|p]; try lia. intros _. simpl Zdigits2.
  rewrite digits2_pos_size. destruct p; simpl; lia.
Qed.

Lemma iter_pos_nat {A} (f : A -> A) (k : positive) (x : A) :
  iter_pos f k x = Nat.iter (Pos.to_nat k) f x.
Proof.
  revert x. induction k as [k IH|k IH|]; intros x; cbn [iter_pos].
  - rewrite !IH. rewrite Pos2Nat.inj_xI.
    replace (S (2 * Pos.to_nat k)) with (Pos.to_nat k + Pos.to_nat k + 1)%nat by lia.
    rewrite !Nat.iter_add. reflexivity.
  - rewrite !IH. rewrite Pos2Nat.inj_xO.
    replace (2 * Pos.to_nat k)%nat with (Pos.to_nat k + Pos.to_nat k)%nat by lia.
    rewrite Nat.iter_add. reflexivity.
  - reflexivity.
Qed.

Lemma shr_1_div2 (mrs : shr_record) :
  0 <= shr_m mrs -> shr_m (shr_1 mrs) = shr_m mrs / 2.
Proof.
  destruct mrs as [m r s]. simpl. intros Hm.
  destruct m as [|[p|p|]|p]; try lia; simpl shr_m; try reflexivity.
  - rewrite Pos2Z.inj_xI. rewrite Z.add_comm, Z.mul_comm, Z.div_add by lia. reflexivity.
  - rewrite Pos2Z.inj_xO. rewrite Z.mul_comm, Z.div_mul by lia. reflexivity.
Qed.

Lemma shr_iter_div (n : nat) (mrs : shr_record) :
  0 <= shr_m mrs ->
  shr_m (Nat.iter n shr_1 mrs) = shr_m mrs / 2 ^ Z.of_nat n.
Proof.
  intros Hm. induction n as [|n IH].
  - simpl. rewrite Z.div_1_r. reflexivity.
  - rewrite Nat.iter_succ. rewrite shr_1_div2.
    + rewrite IH. rewrite Nat2Z.inj_succ, Z.pow_succ_r by lia.
      rewrite Z.div_div by lia. f_equal. lia.
    + rewrite IH. apply Z.div_pos; lia.
Qed.

Lemma shr_record_of_loc_m (m : Z) (l : location) : shr_m (shr_record_of_loc m l) = m.
Proof. destruct l as [|[]]; reflexivity. Qed.

(** Shifting to the canonical exponent keeps a positive mantissa positive
    and does not lower the exponent. *)
Lemma shr_fexp_positive (m e : Z) (l : location) :
  0 < m -> -125 <= e ->
  0 < shr_m (fst (shr_fexp F32.prec F32.emax m e l)) /\
  e <= snd (shr_fexp F32.prec F32.emax m e l).
Proof.
  intros Hm He. unfold shr_fexp, shr.
  pose proof (Zdigits2_log2 m Hm) as Hd.
  pose proof (Z.log2_nonneg m) as Hlog.
  assert (Hn : fexp F32.prec F32.emax (Zdigits2 m + e) - e = Z.log2 m - 23).
  { unfold fexp, emin, F32.prec, F32.emax. lia. }
  rewrite Hn.
  destruct (Z.log2 m - 23) as [|k|k] eqn:Ek; cbn [fst snd];
    rewrite ?shr_record_of_loc_m; try lia.
  rewrite iter_pos_nat, shr_iter_div by (rewrite shr_record_of_loc_m; lia).
  rewrite shr_record_of_loc_m, positive_nat_Z.
  split; [|lia].
  apply Z.div_str_pos. split; [apply Z.pow_pos_nonneg; lia|].
  apply Z.le_trans with (2 ^ Z.log2 m).
  - apply Z.pow_le_mono_r; lia.
  - apply Z.log2_spec. exact Hm.
Qed.

Lemma round_nearest_even_positive (m : Z) (l : location) :
  0 < m -> 0 < round_nearest_even m l.
Proof.
  intros Hm. destruct l as [|[]]; simpl; try assumption; try lia.
  destruct (Z.even m); lia.
Qed.

(** A positive mantissa at an exponent [e] rounds to a finite number with
    exponent at least [e], or overflows. *)
Lemma binary_round_aux_shape (sx : bool) (p : positive) (e : Z) (l : location) :
  -125 <= e ->
  match binary_round_aux F32.prec F32.emax sx (Zpos p) e l with
  | S754_finite s _ e' => s = sx /\ e <= e'
  | S754_infinity s => s = sx
  | _ => False
  end.
Proof.
  intros He. unfold binary_round_aux.
  pose proof (shr_fexp_positive (Zpos p) e l ltac:(lia) He) as [Hm1 He1].
  destruct (shr_fexp F32.prec F32.emax (Z.pos p) e l) as [mrs' e'].
  cbn [fst snd] in Hm1, He1.
  pose proof (round_nearest_even_positive (shr_m mrs') (loc_of_shr_record mrs') Hm1) as Hr.
  pose proof (shr_fexp_positive _ e' loc_Exact Hr ltac:(lia)) as [Hm2 He2].
  destruct (shr_fexp F32.prec F32.emax _ e' loc_Exact) as [mrs'' e''].
  cbn [fst snd] in Hm2, He2.
  destruct (shr_m mrs'') as [|m|m]; try lia.
  destruct (e'' <=? F32.emax - F32.prec); [split; [reflexivity|lia]|reflexivity].
Qed.

Lemma of_int_positive_shape (p : positive) :
  (2 <= p)%positive ->
  match F32.of_int (Zpos p) with
  | S754_finite s _ e => s = false /\ -22 <= e
  | S754_infinity s => s = false
  | _ => False
  end.
Proof.
  intros Hp. unfold F32.of_int, binary_normalize, binary_round.
  assert (Hd : 2 <= Zpos (digits2_pos p)).
  { rewrite digits2_pos_size. destruct p; simpl; lia. }
  unfold shl_align.
  assert (Hf : fexp F32.prec F32.emax (Zpos (digits2_pos p) + 0) =
               Zpos (digits2_pos p) - 24).
  { unfold fexp, emin, F32.prec, F32.emax. lia. }
  rewrite Hf.
  destruct (Zpos (digits2_pos p) - 24 - 0) as [|k|k] eqn:Ek.
  - pose proof (binary_round_aux_shape false p 0 loc_Exact ltac:(lia)) as H.
    destruct (binary_round_aux _ _ _ _ _ _); try contradiction; intuition lia.
  - pose proof (binary_round_aux_shape false p 0 loc_Exact ltac:(lia)) as H.
    destruct (binary_round_aux _ _ _ _ _ _); try contradiction; intuition lia.
  - pose proof (binary_round_aux_shape false (Pos.iter xO p k)
                  (Zpos (digits2_pos p) - 24) loc_Exact ltac:(lia)) as H.
    destruct (binary_round_aux _ _ _ _ _ _); try contradiction; intuition lia.
Qed.

(** [float(n)] is not below [1.0f] for an integer [n >= 1]. *)
Lemma of_int_not_below_one (n : Z) : 1 <= n -> F32.ltb (F32.of_int n) F32.one = false.
Proof.
  intros Hn. destruct n as [|p|p]; try lia.
  destruct (Pos.eq_dec p 1) as [->|Hp]; [vm_compute; reflexivity|].
  assert (Hone : F32.one = S754_finite false 8388608 (-23)) by (vm_compute; reflexivity).
  rewrite Hone.
  pose proof (of_int_positive_shape p ltac:(lia)) as H.
  unfold F32.ltb, SFltb.
  destruct (F32.of_int (Zpos p)) as [s|s| |s m e]; try contradiction.
  - subst s. reflexivity.
  - destruct H as [-> He]. cbn [SFcompare].
    destruct (Z.compare_spec e (-23)); try lia; reflexivity.
Qed.

Lemma max_of_int_one (n : Z) : 1 <= n -> F32.max (F32.of_int n) F32.one = F32.of_int n.
Proof. intros Hn. unfold F32.max. rewrite of_int_not_below_one by assumption. reflexivity. Qed.

(** ** The dispatch loop of the specular prefilter *)

Lemma spmap_size_step (level : Z) :
  0 <= level -> int_div (Z.shiftr 1024 level) 2 = Z.shiftr 1024 (level + 1).
Proof.
  intros Hl. unfold int_div.
  rewrite Z.quot_div_nonneg by (try apply Z.shiftr_nonneg; lia).
  rewrite !Z.shiftr_div_pow2 by lia.
  rewrite Z.pow_add_r, Z.div_div by (try apply Z.pow_pos_nonneg; lia).
  reflexivity.
Qed.

Lemma spmap_groups_of_size (level : Z) :
  Z.max 1 (int_div (Z.shiftr 1024 level) 32) = spmap_groups level.
Proof.
  unfold spmap_groups, int_div.
  rewrite Z.quot_div_nonneg by (try apply Z.shiftr_nonneg; lia).
  reflexivity.
Qed.

Lemma levels_from_step (level : Z) (n : nat) :
  map (fun k => level + Z.of_nat k) (seq 0 (S n)) =
  level :: map (fun k => level + 1 + Z.of_nat k) (seq 0 n).
Proof.
  cbn [seq map]. rewrite Z.add_0_r. f_equal.
  rewrite <- seq_shift, map_map. apply map_ext. intros k. lia.
Qed.

Lemma spmap_loop_run (program : GLuint) (delta : float32) (w : World) :
  tex_levels (m_spmapTexture (this w)) < INT_MAX ->
  forall (n rounds : nat) (level : Z),
    (n <= rounds)%nat -> 0 <= level ->
    level + Z.of_nat n = tex_levels (m_spmapTexture (this w)) + 1 ->
    spmap_loop rounds program delta level (Z.shiftr 1024 level) w =
    (Ok tt, w,
     flat_map (spmap_level_calls program (tex_id (m_spmapTexture (this w))) delta)
       (map (fun k => level + Z.of_nat k) (seq 0 n))).
Proof.
  intros Hmax. induction n as [|n IH]; intros rounds level Hr Hl Hsum.
  - assert (Hc : (level <=? tex_levels (m_spmapTexture (this w))) = false)
      by (apply Z.leb_gt; lia).
    destruct rounds; cbn [spmap_loop]; unfold bind, get_this; rewrite Hc;
      reflexivity.
  - destruct rounds as [|rounds]; [lia|].
    assert (Hc : (level <=? tex_levels (m_spmapTexture (this w))) = true)
      by (apply Z.leb_le; lia).
    assert (Hi : (level =? INT_MAX) = false) by (apply Z.eqb_neq; lia).
    rewrite levels_from_step. cbn [flat_map].
    cbn [spmap_loop]. unfold bind at 1. unfold get_this at 1. rewrite Hc.
    unfold bind at 1. unfold call at 1.
    unfold bind at 1. unfold call at 1.
    unfold bind at 1. unfold call at 1.
    rewrite Hi, spmap_size_step, spmap_groups_of_size by assumption.
    rewrite (IH rounds (level + 1)) by lia.
    reflexivity.
Qed.

Lemma spmap_prefilter_run (program : GLuint) (w : World) :
  let levels := tex_levels (m_spmapTexture (this w)) in
  0 <= levels + 1 -> levels < INT_MAX ->
  spmap_prefilter program w =
  (Ok tt, w,
   [ glUseProgram program; glBindTextureUnit 0 (tex_id (m_envTexture (this w))) ] ++
   flat_map (spmap_level_calls program (tex_id (m_spmapTexture (this w)))
               (spmap_deltaRoughness levels))
     (levels_upto levels)).
Proof.
  intros levels Hmin Hmax. unfold spmap_prefilter.
  unfold bind at 1. unfold get_this at 1.
  unfold bind at 1. unfold call at 1.
  unfold bind at 1. unfold call at 1.
  change 1024 with (Z.shiftr 1024 0) at 1.
  rewrite (spmap_loop_run program _ w Hmax (Z.to_nat (levels + 1)))
    by (fold levels; lia).
  unfold levels_upto, spmap_deltaRoughness. fold levels.
  rewrite (map_ext (fun k => 0 + Z.of_nat k) Z.of_nat) by (intros k; lia).
  reflexivity.
Qed.

Lemma compileShader_run (B : Backend) (filename : string) (type : GLenum)
    (w : World) :
  let shader := next_shader_program (names w) in
  let w' := mkWorld (this w) (names_after_program (names w)) in
  let cs := [ printf (String.append "Compiling GLSL shader: "
                        (String.append filename newline));
              glCreateShader type shader;
              glShaderSource shader (File_readText B filename);
              glCompileShader shader;
              glGetShaderiv shader GL_COMPILE_STATUS ] in
  compileShader B filename type w =
  if String.eqb (File_readText B filename) EmptyString then
    (Throw (read_failure filename), w, [])
  else if compile_status B shader =? GL_TRUE then (Ok shader, w', cs)
  else (compile_abort B filename shader, w', cs ++ shader_info_log_calls B shader).
Proof.
  intros shader w' cs. unfold compileShader.
  destruct (String.eqb (File_readText B filename) EmptyString); [reflexivity|].
  unfold compile_abort, shader_info_log_calls, compile_failure.
  run_gl. fold shader.
  destruct (compile_status B shader =? GL_TRUE); [reflexivity|].
  cbn [negb].
  destruct (shader_info_log_length B shader <? 0); [reflexivity|].
  destruct (shader_info_log_length B shader =? 0); reflexivity.
Qed.

Lemma compile_abort_not_ok (B : Backend) (filename : string) (shader a : GLuint) :
  compile_abort B filename shader <> Ok a.
Proof.
  unfold compile_abort.
  destruct (shader_info_log_length B shader <? 0); [discriminate|].
  destruct (shader_info_log_length B shader =? 0); discriminate.
Qed.


Lemma spmap_levels_found (default_levels : Z) :
  (if default_levels <=? 0
   then mip_levels_loop 32 (Z.lor 1024 1024) 1
   else Ok default_levels) = Ok (spmap_levels default_levels).
Proof.
  unfold spmap_levels. destruct (default_levels <=? 0); [|reflexivity].
  vm_compute. reflexivity.
Qed.

Lemma setup_spmap_run (B : Backend) (default_levels : Z) (w : World) :
  default_levels < INT_MAX ->
  File_readText B "shaders/glsl/spmap_cs.glsl" <> EmptyString ->
  compile_status B (next_shader_program (names w)) = GL_TRUE ->
  link_status B (next_shader_program (names w) + 1) = GL_TRUE ->
  validate_status B (next_shader_program (names w) + 1) = GL_TRUE ->
  let levels := spmap_levels default_levels in
  let program := next_shader_program (names w) + 1 in
  let texture := next_texture (names w) in
  result_of (setup_spmap B default_levels w) = Ok tt /\
  m_spmapTexture (this (world_of (setup_spmap B default_levels w))) =
    mkTexture texture 1024 1024 levels /\
  calls_of (setup_spmap B default_levels w) =
    spmap_prologue B w levels ++
    flat_map (spmap_level_calls program texture (spmap_deltaRoughness levels))
      (levels_upto levels) ++
    [glDeleteProgram program].
Proof.
  intros Hmax Hsrc Hcs Hls Hvs levels program texture.
  assert (Hlevels : 1 <= levels < INT_MAX).
  { subst levels. unfold spmap_levels, INT_MAX in *.
    destruct (Z.leb_spec default_levels 0); lia. }
  destruct w as [r [nt nr nf ns]].
  cbn [names next_shader_program next_texture] in program, texture, Hcs, Hls, Hvs.
  fold program in Hls, Hvs.
  pose proof (compileShader_run B "shaders/glsl/spmap_cs.glsl" GL_COMPUTE_SHADER
                (mkWorld r (mkNames nt nr nf ns))) as Hc.
  cbv zeta in Hc.
  cbn [names this next_shader_program names_after_program next_texture
       next_renderbuffer next_framebuffer] in Hc.
  destruct (String.eqb_spec (File_readText B "shaders/glsl/spmap_cs.glsl") EmptyString)
    as [Hempty|_]; [contradiction|].
  rewrite Hcs, Z.eqb_refl in Hc.
  pose proof (linkProgram_run B [ns] (mkWorld r (mkNames nt nr nf (ns + 1)))) as Hl.
  cbv zeta in Hl.
  cbn [names this next_shader_program names_after_program next_texture
       next_renderbuffer next_framebuffer] in Hl.
  fold program in Hl.
  rewrite Hls, Hvs, Z.eqb_refl in Hl.
  assert (Hrun : setup_spmap B default_levels (mkWorld r (mkNames nt nr nf ns)) =
    (Ok tt,
     mkWorld (set_m_spmapTexture (mkTexture texture 1024 1024 levels) r)
       (mkNames (nt + 1) nr nf (program + 1)),
     spmap_prologue B (mkWorld r (mkNames nt nr nf ns)) levels ++
     flat_map (spmap_level_calls program texture (spmap_deltaRoughness levels))
       (levels_upto levels) ++
     [glDeleteProgram program])).
  { unfold setup_spmap. eapply run_with_calls.
    - eapply bind_run; [exact Hc|].
      eapply bind_run; [exact Hl|].
      eapply bind_run.
      { apply (createTexture_run GL_TEXTURE_CUBE_MAP 1024 1024 GL_RGBA16F
                 default_levels levels).
        apply spmap_levels_found. }
      cbn [names this next_shader_program next_texture next_renderbuffer
           next_framebuffer].
      eapply bind_run; [reflexivity|].
      cbn [names this].
      eapply bind_run.
      { apply spmap_prefilter_run;
          cbn [this set_m_spmapTexture m_spmapTexture tex_levels]; lia. }
      reflexivity.
    - unfold spmap_prologue.
      cbn [names this next_shader_program next_texture set_m_spmapTexture
           m_spmapTexture m_envTexture tex_levels tex_id].
      fold program. fold texture. fold levels.
      repeat (rewrite <- app_assoc; cbn [app]). reflexivity. }
  rewrite Hrun. unfold result_of, world_of, calls_of.
  cbn [fst snd this set_m_spmapTexture m_spmapTexture].
  repeat split.
Qed.

Lemma dispatch_trace_levels (program texture : GLuint) (delta : float32)
    (Ls : list Z) (level : option Z) (roughness : option float32) :
  dispatch_trace level roughness
    (flat_map (spmap_level_calls program texture delta) Ls ++ [glDeleteProgram program]) =
  map (fun L => mkDispatch (Some L) (Some (F32.mul (F32.of_int L) delta))
                  (spmap_groups L, spmap_groups L, 6)) Ls.
Proof.
  revert level roughness. induction Ls as [|L Ls IH]; intros level roughness.
  - reflexivity.
  - cbn [flat_map spmap_level_calls app dispatch_trace map].
    change (SpecularMapRoughness =? SpecularMapRoughness) with true.
    cbn iota. rewrite IH. reflexivity.
Qed.

Lemma setup_spmap_trace (B : Backend) (default_levels : Z) (w : World) :
  default_levels < INT_MAX ->
  File_readText B "shaders/glsl/spmap_cs.glsl" <> EmptyString ->
  compile_status B (next_shader_program (names w)) = GL_TRUE ->
  link_status B (next_shader_program (names w) + 1) = GL_TRUE ->
  validate_status B (next_shader_program (names w) + 1) = GL_TRUE ->
  let run := setup_spmap B default_levels w in
  let levels := tex_levels (m_spmapTexture (this (world_of run))) in
  result_of run = Ok tt /\ 1 <= levels < INT_MAX /\
  dispatch_trace None None (calls_of run) =
  map (fun L => mkDispatch (Some L)
                  (Some (F32.mul (F32.of_int L) (spmap_deltaRoughness levels)))
                  (spmap_groups L, spmap_groups L, 6))
    (levels_upto levels).
Proof.
  intros Hmax Hsrc Hcs Hls Hvs run levels.
  destruct (setup_spmap_run B default_levels w Hmax Hsrc Hcs Hls Hvs)
    as (Hok & Htex & Hcalls).
  subst run levels. rewrite Hok, Htex, Hcalls. cbn [tex_levels].
  split; [reflexivity|]. split.
  - unfold spmap_levels, INT_MAX in *. destruct (Z.leb_spec default_levels 0); lia.
  - unfold spmap_prologue, link_calls, validate_calls.
    cbn [flat_map app dispatch_trace].
    apply dispatch_trace_levels.
Qed.

Lemma levels_upto_length (n : Z) :
  0 <= n + 1 -> Z.of_nat (List.length (levels_upto n)) = n + 1.
Proof.
  intros Hn. unfold levels_upto. rewrite length_map, length_seq. lia.
Qed.

(** C2. When the shader of the stage compiles and its program links and
    validates, the stage runs through and dispatches once for each mip
    level [L] of 0, 1, ..., [levels], [levels] being the level count of
    the texture it created: [levels + 1] dispatches, one more than the
    texture has levels.  The dispatch for level [L] has
    [max(1, (1024 >> L) / 32)] groups in the first two dimensions and 6 in
    the third. *)
Theorem specular_prefilter_dispatches (B : Backend) (default_levels : Z) (w : World) :
  default_levels < INT_MAX ->
  File_readText B "shaders/glsl/spmap_cs.glsl" <> EmptyString ->
  compile_status B (next_shader_program (names w)) = GL_TRUE ->
  link_status B (next_shader_program (names w) + 1) = GL_TRUE ->
  validate_status B (next_shader_program (names w) + 1) = GL_TRUE ->
  let run := setup_spmap B default_levels w in
  let levels := tex_levels (m_spmapTexture (this (world_of run))) in
  let trace := dispatch_trace None None (calls_of run) in
  result_of run = Ok tt /\
  1 <= levels /\
  Z.of_nat (List.length trace) = levels + 1 /\
  map (fun d => (d_level d, d_groups d)) trace =
  map (fun L => (Some L, (Z.max 1 (Z.shiftr 1024 L / 32),
                          Z.max 1 (Z.shiftr 1024 L / 32), 6)))
    (levels_upto levels).
Proof.
  intros Hmax Hsrc Hcs Hls Hvs run levels trace.
  destruct (setup_spmap_trace B default_levels w Hmax Hsrc Hcs Hls Hvs)
    as (Hok & Hlevels & Htrace).
  fold run in Hok, Hlevels, Htrace. fold levels in Hlevels, Htrace.
  fold trace in Htrace.
  split; [exact Hok|]. split; [lia|].
  rewrite Htrace. split.
  - rewrite length_map. apply levels_upto_length. lia.
  - rewrite map_map. reflexivity.
Qed.

(** C3 (as amended). When the shader of the stage compiles and its
    program links and validates, the roughness uniform in force at the
    dispatch for mip level [L] is [L * deltaRoughness] in binary32, where
    [deltaRoughness] is [1 / (levels - 1)] when [levels > 1] and
    [1 / max(levels - 1, 1) = 1] when [levels <= 1]: with one level the
    uniform is 0 at level 0 and 1 at level 1. *)
Theorem specular_prefilter_roughness (B : Backend) (default_levels : Z) (w : World) :
  default_levels < INT_MAX ->
  File_readText B "shaders/glsl/spmap_cs.glsl" <> EmptyString ->
  compile_status B (next_shader_program (names w)) = GL_TRUE ->
  link_status B (next_shader_program (names w) + 1) = GL_TRUE ->
  validate_status B (next_shader_program (names w) + 1) = GL_TRUE ->
  let run := setup_spmap B default_levels w in
  let levels := tex_levels (m_spmapTexture (this (world_of run))) in
  let trace := dispatch_trace None None (calls_of run) in
  map (fun d => (d_level d, d_roughness d)) trace =
  map (fun L => (Some L,
                 Some (F32.mul (F32.of_int L)
                         (if 1 <? levels
                          then F32.div F32.one (F32.of_int (levels - 1))
                          else F32.one))))
    (levels_upto levels) /\
  (levels <= 1 ->
   map (fun d => (d_level d, d_roughness d)) trace =
   [(Some 0, Some F32.zero); (Some 1, Some F32.one)]).
Proof.
  intros Hmax Hsrc Hcs Hls Hvs run levels trace.
  destruct (setup_spmap_trace B default_levels w Hmax Hsrc Hcs Hls Hvs)
    as (Hok & Hlevels & Htrace).
  fold run in Hok, Hlevels, Htrace. fold levels in Hlevels, Htrace.
  fold trace in Htrace.
  assert (Hdelta : spmap_deltaRoughness levels =
                   if 1 <? levels then F32.div F32.one (F32.of_int (levels - 1))
                   else F32.one).
  { unfold spmap_deltaRoughness.
    destruct (Z.ltb_spec 1 levels) as [Hl|Hl].
    - rewrite max_of_int_one by lia. reflexivity.
    - replace levels with 1 by lia. vm_compute. reflexivity. }
  rewrite Htrace, map_map, Hdelta. cbn [d_level d_roughness].
  split; [reflexivity|].
  intros Hone. replace levels with 1 by lia. vm_compute. reflexivity.
Qed.


(** * The properties at concrete inputs *)

(** C1, the claim as it stands fails: with a negative width the loop of
    [createTexture] never sees [(width|height) >> levels] become 0 and
    runs into the undefined shift by 32, although
    [1 + floor(log2(max(-1, 4)))] is 3. *)
Lemma createTexture_negative_width_counterexample :
  1 + Z.log2 (Z.max (-1) 4) = 3 /\
  result_of (createTexture GL_TEXTURE_2D (-1) 4 GL_RGBA16F 0 blank_world) = Undefined /\
  ~ (exists t : Texture,
       result_of (createTexture GL_TEXTURE_2D (-1) 4 GL_RGBA16F 0 blank_world) = Ok t /\
       tex_levels t = 1 + Z.log2 (Z.max (-1) 4)).
Proof.
  split; [reflexivity|]. split; [reflexivity|].
  intros (t & H & _). vm_compute in H. discriminate H.
Qed.

Lemma createTexture_level_count_witness :
  exists t : Texture,
    result_of (createTexture GL_TEXTURE_CUBE_MAP 1024 1024 GL_RGBA16F 0 blank_world) = Ok t /\
    tex_levels t = 11.
Proof.
  assert (H : 0 <= 1024 <= INT_MAX) by (unfold INT_MAX; lia).
  destruct (createTexture_level_count GL_TEXTURE_CUBE_MAP 1024 1024 GL_RGBA16F 0
              blank_world H H) as (t & Hr & _ & _ & Hl & _).
  exists t. split; [exact Hr|]. rewrite Hl by lia. reflexivity.
Defined.

Lemma specular_prefilter_dispatches_witness :
  let run := setup_spmap willing_backend 0 blank_world in
  tex_levels (m_spmapTexture (this (world_of run))) = 11 /\
  Z.of_nat (List.length (dispatch_trace None None (calls_of run))) = 11 + 1.
Proof.
  assert (H : 0 < INT_MAX) by reflexivity.
  assert (Hsrc : File_readText willing_backend "shaders/glsl/spmap_cs.glsl" <>
                 EmptyString) by discriminate.
  destruct (specular_prefilter_dispatches willing_backend 0 blank_world H Hsrc
              eq_refl eq_refl eq_refl)
    as (_ & _ & Hlen & _).
  split; [reflexivity|exact Hlen].
Defined.

(** C3, the claim as it stands fails: with one mip level the loop
    dispatches for the levels 0 and 1, and the uniform at level 1 is
    [1 * (1 / max(0, 1))], which is 1 and not 0. *)
Lemma specular_prefilter_roughness_counterexample :
  let run := setup_spmap willing_backend 1 blank_world in
  let trace := dispatch_trace None None (calls_of run) in
  tex_levels (m_spmapTexture (this (world_of run))) <= 1 /\
  map (fun d => (d_level d, d_roughness d)) trace =
    [(Some 0, Some F32.zero); (Some 1, Some F32.one)] /\
  ~ (forall d, In d trace -> d_roughness d = Some F32.zero).
Proof.
  cbv zeta. split; [vm_compute; discriminate|]. split; [vm_compute; reflexivity|].
  intros H.
  specialize (H (mkDispatch (Some 1) (Some F32.one) (16, 16, 6))).
  assert (Hin : In (mkDispatch (Some 1) (Some F32.one) (16, 16, 6))
                  (dispatch_trace None None
                     (calls_of (setup_spmap willing_backend 1 blank_world))))
    by (vm_compute; auto).
  specialize (H Hin). vm_compute in H. discriminate H.
Qed.

Lemma specular_prefilter_roughness_witness :
  let run := setup_spmap willing_backend 0 blank_world in
  map (fun d => (d_level d, d_roughness d)) (dispatch_trace None None (calls_of run)) =
  map (fun L => (Some L,
                 Some (F32.mul (F32.of_int L) (F32.div F32.one (F32.of_int 10)))))
    (levels_upto 11).
Proof.
  assert (H : 0 < INT_MAX) by reflexivity.
  assert (Hsrc : File_readText willing_backend "shaders/glsl/spmap_cs.glsl" <>
                 EmptyString) by discriminate.
  exact (proj1 (specular_prefilter_roughness willing_backend 0 blank_world H Hsrc
                  eq_refl eq_refl eq_refl)).
Defined.

Lemma createFrameBuffer_attachments_witness :
  let run := createFrameBuffer willing_backend 800 600 4 GL_RGBA16F
               GL_DEPTH24_STENCIL8 blank_world in
  result_of run = Ok (mkFrameBuffer 1 1 2 800 600 4) /\
  is_multisampled_renderbuffer (calls_of run)
    (attachment_of 1 GL_COLOR_ATTACHMENT0 (calls_of run) None)
    1 4 GL_RGBA16F 800 600 /\
  is_multisampled_renderbuffer (calls_of run)
    (attachment_of 1 GL_DEPTH_STENCIL_ATTACHMENT (calls_of run) None)
    2 4 GL_DEPTH24_STENCIL8 800 600.
Proof.
  cbv zeta.
  assert (Hrun : result_of (createFrameBuffer willing_backend 800 600 4 GL_RGBA16F
                              GL_DEPTH24_STENCIL8 blank_world) =
                 Ok (mkFrameBuffer 1 1 2 800 600 4)) by reflexivity.
  split; [exact Hrun|].
  destruct (createFrameBuffer_attachments willing_backend 800 600 4 GL_RGBA16F
              GL_DEPTH24_STENCIL8 blank_world _ Hrun) as (Hmulti & _ & _).
  assert (Hs : 0 < 4) by reflexivity.
  destruct (Hmulti Hs) as (Hcolor & Hdepth).
  split; [apply Hcolor|apply Hdepth]; discriminate.
Defined.

(** C5, the claim as it stands fails: for two different framebuffers of
    which the source has no attachment, in a build that keeps [assert],
    the assertion stops the function before the blit: no blit is made and
    nothing is invalidated. *)
Lemma resolveFramebuffer_without_attachment_counterexample :
  let src := mkFrameBuffer 1 0 0 800 600 4 in
  let dst := mkFrameBuffer 2 1 0 800 600 0 in
  fb_id src <> fb_id dst /\
  resolveFramebuffer debug_build src dst blank_world = (AssertFailed, blank_world, []) /\
  ~ (exists n attachments,
       invalidations (calls_of (resolveFramebuffer debug_build src dst blank_world)) =
         [(fb_id src, n, attachments)]).
Proof.
  cbv zeta. split; [discriminate|]. split; [reflexivity|].
  intros (n & attachments & H); vm_compute in H; discriminate H.
Qed.

Lemma resolveFramebuffer_calls_witness :
  let src := mkFrameBuffer 1 1 2 800 600 4 in
  let dst := mkFrameBuffer 2 1 0 800 600 0 in
  let bare := mkFrameBuffer 3 0 0 800 600 4 in
  resolveFramebuffer debug_build src src blank_world = (Ok tt, blank_world, []) /\
  resolveFramebuffer debug_build src dst blank_world =
    (Ok tt, blank_world,
     [ glBlitNamedFramebuffer 1 2 0 0 799 599 0 0 799 599 GL_COLOR_BUFFER_BIT GL_NEAREST;
       glInvalidateNamedFramebufferData 1 2
         [GL_COLOR_ATTACHMENT0; GL_DEPTH_STENCIL_ATTACHMENT] ]) /\
  resolveFramebuffer release_build bare dst blank_world =
    (Ok tt, blank_world,
     [ glBlitNamedFramebuffer 3 2 0 0 799 599 0 0 799 599 GL_COLOR_BUFFER_BIT GL_NEAREST;
       glInvalidateNamedFramebufferData 3 0 [] ]).
Proof.
  cbv zeta. split; [|split].
  - apply (resolveFramebuffer_calls debug_build (mkFrameBuffer 1 1 2 800 600 4)
             (mkFrameBuffer 1 1 2 800 600 4) blank_world).
    left. left. reflexivity.
  - apply (resolveFramebuffer_calls debug_build (mkFrameBuffer 1 1 2 800 600 4)
             (mkFrameBuffer 2 1 0 800 600 0) blank_world).
    left. right. left. discriminate.
  - apply (resolveFramebuffer_calls release_build (mkFrameBuffer 3 0 0 800 600 4)
             (mkFrameBuffer 2 1 0 800 600 0) blank_world).
    right. split; reflexivity.
Defined.



Lemma resolveFramebuffer_invalidates_present_attachments_witness :
  exists attachments : list GLenum,
    invalidations
      (calls_of (resolveFramebuffer debug_build (mkFrameBuffer 1 1 0 800 600 4)
                   (mkFrameBuffer 2 1 0 800 600 0) blank_world)) =
      [(1, Z.of_nat (List.length attachments), attachments)] /\
    attachments <> [].
Proof.
  assert (Hid : fb_id (mkFrameBuffer 1 1 0 800 600 4) <>
                fb_id (mkFrameBuffer 2 1 0 800 600 0)) by discriminate.
  assert (Hatt : fb_colorTarget (mkFrameBuffer 1 1 0 800 600 4) <> 0 \/
                 fb_depthStencilTarget (mkFrameBuffer 1 1 0 800 600 4) <> 0)
    by (left; discriminate).
  destruct (resolveFramebuffer_invalidates_present_attachments debug_build
              (mkFrameBuffer 1 1 0 800 600 4) (mkFrameBuffer 2 1 0 800 600 0)
              blank_world Hid Hatt)
    as (attachments & _ & Hinv & _ & _ & _ & Hne & _).
  exists attachments. split; [exact Hinv|exact Hne].
Defined.

Lemma sample_world_resolvable :
  resolvable (m_framebuffer (this sample_world))
    (m_resolveFramebuffer (this sample_world)) /\
  resolvable (m_framebuffer (this large_model_world))
    (m_resolveFramebuffer (this large_model_world)).
Proof. split; right; left; vm_compute; discriminate. Qed.

Lemma render_pass_sequence_witness :
  result_of (render debug_build flat_glm 1 still_view sample_world) = Ok tt /\
  skipn 3 (calls_of (render debug_build flat_glm 1 still_view sample_world)) =
    [ glBindFramebuffer GL_FRAMEBUFFER 1; glClear GL_DEPTH_BUFFER_BIT;
      glDisable GL_DEPTH_TEST; glUseProgram 6; glBindTextureUnit 0 7;
      glBindVertexArray 2; glDrawElements GL_TRIANGLES 3 GL_UNSIGNED_INT 0;
      glEnable GL_DEPTH_TEST; glUseProgram 9;
      glBindTextureUnit 0 2; glBindTextureUnit 1 3; glBindTextureUnit 2 4;
      glBindTextureUnit 3 5; glBindTextureUnit 4 8; glBindTextureUnit 5 9;
      glBindTextureUnit 6 10;
      glBindVertexArray 3; glDrawElements GL_TRIANGLES 3 GL_UNSIGNED_INT 0;
      glBlitNamedFramebuffer 1 2 0 0 799 599 0 0 799 599 GL_COLOR_BUFFER_BIT GL_NEAREST;
      glInvalidateNamedFramebufferData 1 2
        [GL_COLOR_ATTACHMENT0; GL_DEPTH_STENCIL_ATTACHMENT];
      glBindFramebuffer GL_FRAMEBUFFER 0; glUseProgram 3; glBindTextureUnit 0 1;
      glBindVertexArray 1; glDrawArrays GL_TRIANGLE_STRIP 0 4; glfwSwapBuffers 1 ] /\
  In (glDrawElements GL_TRIANGLES (-1294967296) GL_UNSIGNED_INT 0)
    (calls_of (render debug_build flat_glm 1 still_view large_model_world)).
Proof.
  destruct (render_pass_sequence debug_build flat_glm 1 still_view sample_world
              (proj1 sample_world_resolvable)) as (Hrun & _).
  destruct (render_pass_sequence debug_build flat_glm 1 still_view large_model_world
              (proj2 sample_world_resolvable)) as (Hlarge & _).
  rewrite Hrun, Hlarge. split; [reflexivity|]. split; [vm_compute; reflexivity|].
  vm_compute. do 20 right. left. reflexivity.
Defined.

Lemma framebuffers_destroyed_exactly_once_witness :
  let init := initialize willing_backend debug_build 800 600 4 blank_world in
  created_framebuffers (calls_of init) = [1; 2] /\
  framebuffer_deletions 1 (calls_of (shutdown (world_of init))) = 1%nat /\
  framebuffer_deletions 2 (calls_of (shutdown (world_of init))) = 1%nat.
Proof.
  cbv zeta.
  assert (Hnf : 0 < next_framebuffer (names blank_world)) by reflexivity.
  assert (Hok : result_of (initialize willing_backend debug_build 800 600 4 blank_world)
                = Ok 1) by reflexivity.
  destruct (framebuffers_destroyed_exactly_once willing_backend debug_build
              800 600 4 blank_world 1 Hnf Hok) as (_ & Hshutdown).
  destruct (Hshutdown _ eq_refl eq_refl) as (_ & _ & Hin & _).
  split; [reflexivity|].
  split; apply Hin; vm_compute; auto.
Defined.

(** * Further properties of the renderer *)

(** ** Compiling a shader *)


(** ** Creating and deleting a framebuffer *)

Lemma createFrameBuffer_run (B : Backend) (width height samples : Z)
    (colorFormat depthstencilFormat : GLenum) (w : World) :
  createFrameBuffer B width height samples colorFormat depthstencilFormat w =
  ((if framebuffer_status B (next_framebuffer (names w)) =? GL_FRAMEBUFFER_COMPLETE
    then Ok (createFrameBuffer_handle w width height samples colorFormat
               depthstencilFormat)
    else Throw (incomplete_failure (framebuffer_status B (next_framebuffer (names w))))),
   mkWorld (this w)
     (createFrameBuffer_names (names w) samples colorFormat depthstencilFormat),
   createFrameBuffer_calls w width height samples colorFormat depthstencilFormat).
Proof.
  destruct w as [r [nt nr nf ns]].
  unfold createFrameBuffer, createFrameBuffer_calls, createFrameBuffer_handle,
    createFrameBuffer_names, incomplete_failure, FrameBuffer_default.
  cbn [names this next_texture next_renderbuffer next_framebuffer
       next_shader_program].
  destruct (colorFormat =? GL_NONE); destruct (depthstencilFormat =? GL_NONE);
    destruct (0 <? samples);
    run_gl;
    destruct (framebuffer_status B nf =? GL_FRAMEBUFFER_COMPLETE); reflexivity.
Qed.

(** X2. [createFrameBuffer] returns a handle exactly when the backend
    reports the framebuffer complete; otherwise it throws a message that
    ends in the decimal status code.  The check is its last call, after
    every attachment, and on failure the objects created so far stay
    undeleted. *)
Theorem createFrameBuffer_completeness (B : Backend) (width height samples : Z)
    (colorFormat depthstencilFormat : GLenum) (w : World) :
  let id := next_framebuffer (names w) in
  let status := framebuffer_status B id in
  let run := createFrameBuffer B width height samples colorFormat
               depthstencilFormat w in
  (status = GL_FRAMEBUFFER_COMPLETE ->
     exists fb, result_of run = Ok fb /\ fb_id fb = id /\ fb_width fb = width /\
                fb_height fb = height /\ fb_samples fb = samples) /\
  (status <> GL_FRAMEBUFFER_COMPLETE ->
     result_of run =
       Throw (String.append "Framebuffer completeness check failed: "
                (to_string status))) /\
  last (calls_of run) glFinish = glCheckNamedFramebufferStatus id GL_DRAW_FRAMEBUFFER /\
  deleted_objects (calls_of run) = [] /\
  In (FramebufferObject id) (created_objects (calls_of run)).
Proof.
  intros id status run. subst run. rewrite createFrameBuffer_run.
  fold id. fold status.
  unfold result_of, calls_of. cbn [fst snd].
  split; [|split; [|split; [|split]]].
  - intros Hst. rewrite Hst, Z.eqb_refl. eexists. split; [reflexivity|].
    repeat split.
  - intros Hst. rewrite (eqb_false_of_neq _ _ Hst). reflexivity.
  - unfold createFrameBuffer_calls. fold id.
    destruct (colorFormat =? GL_NONE); destruct (depthstencilFormat =? GL_NONE);
      destruct (0 <? samples); reflexivity.
  - unfold createFrameBuffer_calls.
    destruct (colorFormat =? GL_NONE); destruct (depthstencilFormat =? GL_NONE);
      destruct (0 <? samples); reflexivity.
  - unfold createFrameBuffer_calls. fold id. left. reflexivity.
Qed.

(** X3. Creating a framebuffer with a sample count of 0 or more and
    deleting it again is a round trip: [deleteFrameBuffer] deletes exactly
    the objects [createFrameBuffer] created, each by the destructor of its
    kind (the framebuffer, a texture for a single-sample colour target,
    renderbuffers otherwise), in the order of their creation. *)
Theorem createFrameBuffer_deleteFrameBuffer (B : Backend) (width height samples : Z)
    (colorFormat depthstencilFormat : GLenum) (w w' : World) (fb : FrameBuffer) :
  0 <= samples ->
  names_ok (names w) ->
  result_of (createFrameBuffer B width height samples colorFormat
               depthstencilFormat w) = Ok fb ->
  deleted_objects (calls_of (deleteFrameBuffer fb w')) =
  created_objects (calls_of (createFrameBuffer B width height samples colorFormat
                               depthstencilFormat w)) /\
  NoDup (deleted_objects (calls_of (deleteFrameBuffer fb w'))).
Proof.
  intros Hs (Hnt & Hnr & Hnf & _).
  rewrite createFrameBuffer_run, deleteFrameBuffer_run.
  unfold result_of, calls_of. cbn [fst snd].
  destruct (framebuffer_status B (next_framebuffer (names w)) =? GL_FRAMEBUFFER_COMPLETE);
    [|discriminate].
  intros Hfb. injection Hfb as <-.
  unfold deleteFrameBuffer_calls, createFrameBuffer_handle, createFrameBuffer_calls.
  cbn [fb_id fb_colorTarget fb_depthStencilTarget fb_samples].
  rewrite (eqb_false_of_neq (next_framebuffer (names w)) 0) by lia.
  destruct (Z.eqb_spec colorFormat GL_NONE) as [Hc|Hc];
    destruct (Z.eqb_spec depthstencilFormat GL_NONE) as [Hd|Hd];
    destruct (Z.ltb_spec 0 samples) as [Hms|Hms];
    cbn [negb andb];
    rewrite ?Z.eqb_refl;
    rewrite ?(eqb_false_of_neq (next_renderbuffer (names w)) 0) by lia;
    rewrite ?(eqb_false_of_neq (next_renderbuffer (names w) + 1) 0) by lia;
    rewrite ?(eqb_false_of_neq (next_texture (names w)) 0) by lia;
    try (rewrite (eqb_false_of_neq samples 0) by lia);
    try (replace samples with 0 by lia; rewrite Z.eqb_refl);
    cbn [app created_objects deleted_objects];
    (split; [reflexivity|]);
    repeat constructor; cbn [In]; intuition (try discriminate);
    match goal with H : RenderbufferObject _ = RenderbufferObject _ |- _ =>
      injection H; lia end.
Qed.

(** X4. With a negative sample count the two functions disagree about
    the colour target: [createFrameBuffer] makes it a texture (its test is
    [samples > 0]), [deleteFrameBuffer] deletes a renderbuffer of that name
    (its test is [samples == 0]) and never the texture. *)
Theorem negative_samples_colour_target_mismatch (B : Backend)
    (width height samples : Z) (colorFormat depthstencilFormat : GLenum)
    (w w' : World) (fb : FrameBuffer) :
  samples < 0 ->
  colorFormat <> GL_NONE ->
  0 < next_texture (names w) ->
  result_of (createFrameBuffer B width height samples colorFormat
               depthstencilFormat w) = Ok fb ->
  In (TextureObject (fb_colorTarget fb))
    (created_objects (calls_of (createFrameBuffer B width height samples
                                  colorFormat depthstencilFormat w))) /\
  In (RenderbufferObject (fb_colorTarget fb))
    (deleted_objects (calls_of (deleteFrameBuffer fb w'))) /\
  forall t, ~ In (TextureObject t)
                (deleted_objects (calls_of (deleteFrameBuffer fb w'))).
Proof.
  intros Hs Hc Hnt.
  rewrite createFrameBuffer_run, deleteFrameBuffer_run.
  unfold result_of, calls_of. cbn [fst snd].
  destruct (framebuffer_status B (next_framebuffer (names w)) =? GL_FRAMEBUFFER_COMPLETE);
    [|discriminate].
  intros Hfb. injection Hfb as <-.
  unfold deleteFrameBuffer_calls, createFrameBuffer_handle, createFrameBuffer_calls.
  cbn [fb_id fb_colorTarget fb_depthStencilTarget fb_samples].
  rewrite (eqb_false_of_neq colorFormat GL_NONE) by assumption.
  replace (0 <? samples) with false by (symmetry; apply Z.ltb_ge; lia).
  rewrite (eqb_false_of_neq samples 0) by lia.
  rewrite (eqb_false_of_neq (next_texture (names w)) 0) by lia.
  cbn [negb andb].
  destruct (next_framebuffer (names w) =? 0);
    destruct (depthstencilFormat =? GL_NONE);
    try destruct (next_renderbuffer (names w) =? 0);
    cbn [app created_objects deleted_objects In];
    (split; [auto|split; [auto|intros t H; intuition discriminate]]).
Qed.

(** ** Shutdown, once and twice *)

Lemma run_with {A} (m : GL A) w r w1 w' cs cs' :
  m w = (r, w1, cs) -> w1 = w' -> cs = cs' -> m w = (r, w', cs').
Proof. intros H <- <-. exact H. Qed.

Lemma shutdown_full_run (w : World) :
  shutdown w =
  (Ok tt, mkWorld (Renderer_after_shutdown (this w)) (names w),
   shutdown_calls (this w)).
Proof.
  destruct w as [r n]. unfold shutdown.
  eapply run_with.
  - eapply bind_run; [reflexivity|].
    cbn [this].
    eapply bind_run.
    { instantiate (3 := tt).
      instantiate (2 := mkWorld
         (if fb_id (m_framebuffer r) =? fb_id (m_resolveFramebuffer r)
          then r else set_m_resolveFramebuffer FrameBuffer_zeroed r) n).
      instantiate (1 :=
         if fb_id (m_framebuffer r) =? fb_id (m_resolveFramebuffer r) then []
         else deleteFrameBuffer_calls (m_resolveFramebuffer r)).
      destruct (fb_id (m_framebuffer r) =? fb_id (m_resolveFramebuffer r));
        cbn [negb when].
      - reflexivity.
      - apply (on_member_run m_resolveFramebuffer set_m_resolveFramebuffer).
        apply deleteFrameBuffer_run. }
    do 5 step_member.
    eapply bind_run; [reflexivity|].
    eapply bind_run; [reflexivity|].
    eapply bind_run; [reflexivity|].
    do 7 step_member.
    apply on_member_run. apply deleteTexture_run.
  - unfold Renderer_after_shutdown. read_members.
    destruct (fb_id (m_framebuffer r) =? fb_id (m_resolveFramebuffer r));
      read_members; reflexivity.
  - unfold shutdown_calls, shutdown_rest_calls. read_members.
    destruct (fb_id (m_framebuffer r) =? fb_id (m_resolveFramebuffer r));
      read_members; reflexivity.
Qed.

(** X5. [shutdown] never fails and leaves no name behind in the handles
    it deleted: the main framebuffer, the three vertex buffers and the
    eight textures are all zero afterwards.  The three program names are
    kept, and the resolve framebuffer handle is zeroed only when its
    identifier differed from the main one's: after a run without
    multisampling it still holds the names of the deleted objects. *)
Theorem shutdown_resets_handles (w : World) :
  let r := this w in
  let r' := this (world_of (shutdown w)) in
  result_of (shutdown w) = Ok tt /\
  names (world_of (shutdown w)) = names w /\
  m_framebuffer r' = FrameBuffer_zeroed /\
  m_screenQuad r' = VertexBuffer_zeroed /\ m_skybox r' = VertexBuffer_zeroed /\
  m_pbrModel r' = VertexBuffer_zeroed /\
  m_envTexture r' = Texture_zeroed /\ m_irmapTexture r' = Texture_zeroed /\
  m_spmapTexture r' = Texture_zeroed /\ m_spBRDF_LUT r' = Texture_zeroed /\
  m_albedoTexture r' = Texture_zeroed /\ m_normalTexture r' = Texture_zeroed /\
  m_metalnessTexture r' = Texture_zeroed /\ m_roughnessTexture r' = Texture_zeroed /\
  m_tonemapProgram r' = m_tonemapProgram r /\
  m_skyboxProgram r' = m_skyboxProgram r /\ m_pbrProgram r' = m_pbrProgram r /\
  (fb_id (m_framebuffer r) <> fb_id (m_resolveFramebuffer r) ->
     m_resolveFramebuffer r' = FrameBuffer_zeroed) /\
  (fb_id (m_framebuffer r) = fb_id (m_resolveFramebuffer r) ->
     m_resolveFramebuffer r' = m_resolveFramebuffer r).
Proof.
  intros r r'. subst r'. rewrite shutdown_full_run.
  unfold result_of, world_of. cbn [fst snd this names].
  unfold Renderer_after_shutdown. fold r. read_members.
  repeat split.
  - intros H. rewrite (eqb_false_of_neq _ _ H). reflexivity.
  - intros H. rewrite H, Z.eqb_refl. reflexivity.
Qed.

(** X6. A second [shutdown] right after the first deletes the three
    programs again, whose names the first one kept, and passes 0 to
    [glDeleteTextures] eight times.  When the two framebuffer handles named
    the same object (no multisampling) and that name is not 0, it also
    deletes that framebuffer and its attachments a second time, through the
    resolve handle the first [shutdown] did not zero; when they differed it
    deletes no framebuffer. *)
Theorem shutdown_twice (w : World) :
  let r := this w in
  calls_of (shutdown (world_of (shutdown w))) =
  (if (fb_id (m_framebuffer r) =? fb_id (m_resolveFramebuffer r)) &&
      negb (fb_id (m_resolveFramebuffer r) =? 0)
   then deleteFrameBuffer_calls (m_resolveFramebuffer r) else []) ++
  [ glDeleteProgram (m_tonemapProgram r); glDeleteProgram (m_skyboxProgram r);
    glDeleteProgram (m_pbrProgram r) ] ++
  repeat (glDeleteTextures 0) 8.
Proof.
  intros r. rewrite (shutdown_full_run w).
  unfold world_of. cbn [fst snd]. rewrite shutdown_full_run.
  unfold calls_of. cbn [snd this]. fold r.
  unfold shutdown_calls, shutdown_rest_calls, Renderer_after_shutdown.
  read_members.
  destruct (Z.eqb_spec (fb_id (m_framebuffer r)) (fb_id (m_resolveFramebuffer r)))
    as [Hsame|Hdiff].
  - cbn [fb_id FrameBuffer_zeroed andb].
    destruct (Z.eqb_spec 0 (fb_id (m_resolveFramebuffer r))) as [H0|H0].
    + rewrite <- H0. reflexivity.
    + rewrite (eqb_false_of_neq (fb_id (m_resolveFramebuffer r)) 0) by congruence.
      cbn [negb]. reflexivity.
  - reflexivity.
Qed.

(** ** Initialisation *)

(** X7. [initialize] returns the window exactly when the window system
    gives one, the extension loader succeeds and every framebuffer it
    creates is complete.  Without a window it throws before any context
    is made current, and without the loader before any OpenGL call: in
    both cases no object is created and the renderer is left as it was.
    When the resolve framebuffer of a multisampled setup is incomplete, it
    throws with the main framebuffer created, stored and not deleted. *)
Theorem initialize_outcome (B : Backend) (build : Build)
    (width height samples : Z) (w : World) :
  let window := glfwCreateWindow_result B width height in
  let nf := next_framebuffer (names w) in
  let run := initialize B build width height samples w in
  (window = nullptr ->
     result_of run = Throw "Failed to create OpenGL context" /\
     world_of run = w /\ created_objects (calls_of run) = [] /\
     ~ In (glfwMakeContextCurrent window) (calls_of run)) /\
  (window <> nullptr -> gladLoadGLLoader_result B = false ->
     result_of run = Throw "Failed to initialize OpenGL extensions loader" /\
     world_of run = w /\ created_objects (calls_of run) = []) /\
  (result_of run = Ok window <->
     window <> nullptr /\ gladLoadGLLoader_result B = true /\
     framebuffer_status B nf = GL_FRAMEBUFFER_COMPLETE /\
     (0 < samples -> framebuffer_status B (nf + 1) = GL_FRAMEBUFFER_COMPLETE)) /\
  (window <> nullptr -> gladLoadGLLoader_result B = true ->
   framebuffer_status B nf = GL_FRAMEBUFFER_COMPLETE -> 0 < samples ->
   framebuffer_status B (nf + 1) <> GL_FRAMEBUFFER_COMPLETE ->
     result_of run = Throw (incomplete_failure (framebuffer_status B (nf + 1))) /\
     fb_id (m_framebuffer (this (world_of run))) = nf /\
     In (FramebufferObject nf) (created_objects (calls_of run)) /\
     deleted_objects (calls_of run) = []).
Proof.
  destruct w as [r [nt nr nf ns]]. cbn [names next_framebuffer].
  cbv zeta. unfold initialize, createFrameBuffer, FrameBuffer_default,
    incomplete_failure.
  destruct (Z.eqb_spec (glfwCreateWindow_result B width height) nullptr) as [Hw|Hw];
    destruct (gladLoadGLLoader_result B) eqn:Hl;
    destruct (_DEBUG build);
    destruct (Z.ltb_spec 0 samples) as [Hs|Hs];
    run_gl; simpl;
    destruct (Z.eqb_spec (framebuffer_status B nf) GL_FRAMEBUFFER_COMPLETE) as [H1|H1];
    simpl;
    try (destruct (Z.eqb_spec (framebuffer_status B (nf + 1)) GL_FRAMEBUFFER_COMPLETE)
           as [H2|H2]; simpl);
    repeat split; intros;
    try discriminate; try contradiction; try reflexivity; try lia;
    try assumption;
    try (intuition (try discriminate; try contradiction; try lia; auto); fail).
Qed.

Lemma initialize_ok_conditions (B : Backend) (build : Build)
    (width height samples : Z) (w : World) (window : GLFWwindow) :
  result_of (initialize B build width height samples w) = Ok window ->
  window = glfwCreateWindow_result B width height /\
  initialize_succeeds B w width height samples.
Proof.
  destruct w as [r [nt nr nf ns]]. unfold initialize_succeeds.
  cbn [names next_framebuffer].
  unfold initialize, createFrameBuffer, FrameBuffer_default.
  destruct (Z.eqb_spec (glfwCreateWindow_result B width height) nullptr) as [Hw|Hw];
    destruct (gladLoadGLLoader_result B) eqn:Hl;
    destruct (_DEBUG build);
    destruct (Z.ltb_spec 0 samples) as [Hs|Hs];
    run_gl; simpl;
    destruct (Z.eqb_spec (framebuffer_status B nf) GL_FRAMEBUFFER_COMPLETE) as [H1|H1];
    simpl;
    try (destruct (Z.eqb_spec (framebuffer_status B (nf + 1)) GL_FRAMEBUFFER_COMPLETE)
           as [H2|H2]; simpl);
    intros H; try discriminate H; injection H as <-;
    repeat split; try assumption; try reflexivity; intros; try lia; assumption.
Qed.

Lemma createFrameBuffer_run_ok (B : Backend) (width height samples : Z)
    (colorFormat depthstencilFormat : GLenum) (w : World) :
  framebuffer_status B (next_framebuffer (names w)) = GL_FRAMEBUFFER_COMPLETE ->
  createFrameBuffer B width height samples colorFormat depthstencilFormat w =
  (Ok (createFrameBuffer_handle w width height samples colorFormat depthstencilFormat),
   mkWorld (this w)
     (createFrameBuffer_names (names w) samples colorFormat depthstencilFormat),
   createFrameBuffer_calls w width height samples colorFormat depthstencilFormat).
Proof.
  intros H. rewrite createFrameBuffer_run, H, Z.eqb_refl. reflexivity.
Qed.

Ltac step_calls := repeat (eapply bind_run; [reflexivity|]).

Lemma initialize_run_ok (B : Backend) (build : Build)
    (width height samples : Z) (w : World) :
  initialize_succeeds B w width height samples ->
  initialize B build width height samples w =
  (Ok (glfwCreateWindow_result B width height),
   world_initialized w width height samples,
   initialize_calls B build w width height samples).
Proof.
  intros (Hw & Hl & H1 & H2).
  unfold initialize, initialize_calls, world_initialized, world_with_main,
    initialize_window_calls, initialize_context_calls.
  rewrite (eqb_false_of_neq _ _ Hw), Hl.
  cbn [negb].
  destruct (Z.ltb_spec 0 samples) as [Hs|Hs].
  - specialize (H2 Hs).
    destruct (_DEBUG build); cbn [when];
      (eapply run_with;
       [ do 9 (eapply bind_run; [reflexivity|]);
         step_calls;
         (eapply bind_run; [apply createFrameBuffer_run_ok; exact H1|]);
         (eapply bind_run; [reflexivity|]);
         (eapply bind_run;
          [ eapply bind_run;
            [ apply createFrameBuffer_run_ok; exact H2 | reflexivity ]
          | reflexivity ])
       | reflexivity
       | cbn [app]; repeat (rewrite <- app_assoc; cbn [app]);
         rewrite ?app_nil_r; reflexivity ]).
  - destruct (_DEBUG build); cbn [when];
      (eapply run_with;
       [ do 9 (eapply bind_run; [reflexivity|]);
         step_calls;
         (eapply bind_run; [apply createFrameBuffer_run_ok; exact H1|]);
         (eapply bind_run; [reflexivity|]);
         (eapply bind_run; [reflexivity|]); reflexivity
       | reflexivity
       | cbn [app]; repeat (rewrite <- app_assoc; cbn [app]);
         rewrite ?app_nil_r; reflexivity ]).
Qed.

Lemma render_run (build : Build) (glm : Glm) (window : GLFWwindow)
    (view : ViewSettings) (w : World) :
  resolvable (m_framebuffer (this w)) (m_resolveFramebuffer (this w)) ->
  render build glm window view w =
  (Ok tt, w,
   frame_uniforms glm (this w) view ++ frame_clear (this w) ++
   frame_skybox (this w) ++ frame_model (this w) ++ frame_resolve (this w) ++
   frame_tonemap (this w) ++ frame_present window).
Proof.
  intros Hres. unfold render, bind, call, get_this.
  rewrite (resolveFramebuffer_run build _ _ w Hres).
  unfold frame_resolve.
  destruct (resolve_calls (m_framebuffer (this w)) (m_resolveFramebuffer (this w)))
    as [|c1 [|c2 cs]]; reflexivity.
Qed.

Ltac read_trace :=
  repeat (progress (simpl; rewrite ?Z.eqb_refl, ?eqb_succ_self, ?eqb_self_succ)).

(** X8. After a successful [initialize], in a context whose names are
    positive, every frame goes through, whatever the view and the sample
    count.  What the tonemap pass binds at unit 0 is always a 2D texture
    of one level and of the size of the window, which [initialize] created
    as the colour attachment of the resolve framebuffer.  With
    multisampling the frame holds one blit from the main framebuffer to
    the resolve framebuffer, over the same rectangle on both sides, with
    the corner (width - 1, height - 1) computed in [int], followed by the
    invalidation of both attachments of the main one; without it,
    neither.  The two draws pass the count of elements of their vertex
    buffer converted to [GLsizei]. *)
Theorem initialize_then_render (B : Backend) (build : Build) (glm : Glm)
    (width height samples : Z) (w : World) (window : GLFWwindow)
    (view : ViewSettings) :
  names_ok (names w) ->
  result_of (initialize B build width height samples w) = Ok window ->
  let init := initialize B build width height samples w in
  let w1 := world_of init in
  let main := m_framebuffer (this w1) in
  let resolve := m_resolveFramebuffer (this w1) in
  let frame := render build glm window view w1 in
  result_of frame = Ok tt /\ world_of frame = w1 /\
  In (glBindTextureUnit 0 (fb_colorTarget resolve)) (frame_tonemap (this w1)) /\
  In (glDrawElements GL_TRIANGLES (to_int (vb_numElements (m_skybox (this w1))))
        GL_UNSIGNED_INT 0) (calls_of frame) /\
  In (glDrawElements GL_TRIANGLES (to_int (vb_numElements (m_pbrModel (this w1))))
        GL_UNSIGNED_INT 0) (calls_of frame) /\
  is_sampleable_texture (calls_of init)
    (attachment_of (fb_id resolve) GL_COLOR_ATTACHMENT0 (calls_of init) None)
    (fb_colorTarget resolve) GL_RGBA16F width height /\
  calls_of frame =
    frame_uniforms glm (this w1) view ++ frame_clear (this w1) ++
    frame_skybox (this w1) ++ frame_model (this w1) ++
    (if 0 <? samples then
       [ glBlitNamedFramebuffer (fb_id main) (fb_id resolve)
           0 0 (to_int (width - 1)) (to_int (height - 1))
           0 0 (to_int (width - 1)) (to_int (height - 1))
           GL_COLOR_BUFFER_BIT GL_NEAREST;
         glInvalidateNamedFramebufferData (fb_id main) 2
           [GL_COLOR_ATTACHMENT0; GL_DEPTH_STENCIL_ATTACHMENT] ]
     else []) ++
    frame_tonemap (this w1) ++ frame_present window.
Proof.
  intros (Hnt & Hnr & Hnf & _) Hok.
  destruct (initialize_ok_conditions B build width height samples w window Hok)
    as (_ & Hcond).
  cbv zeta. rewrite (initialize_run_ok B build width height samples w Hcond).
  unfold world_of, calls_of. cbn [fst snd].
  destruct w as [r [nt nr nf ns]].
  cbn [names next_texture next_renderbuffer next_framebuffer] in Hnt, Hnr, Hnf.
  assert (Hres : resolvable
            (m_framebuffer (this (world_initialized
               (mkWorld r (mkNames nt nr nf ns)) width height samples)))
            (m_resolveFramebuffer (this (world_initialized
               (mkWorld r (mkNames nt nr nf ns)) width height samples)))).
  { unfold resolvable, world_initialized, world_with_main,
      createFrameBuffer_handle.
    destruct (Z.ltb_spec 0 samples); read_members; cbn; [right; left; lia|left; reflexivity]. }
  rewrite (render_run build glm window view _ Hres).
  unfold result_of. cbn [fst snd].
  split; [reflexivity|]. split; [reflexivity|].
  split; [unfold frame_tonemap; cbn [In]; auto|].
  split.
  { apply in_or_app. right. apply in_or_app. right. apply in_or_app. left.
    unfold frame_skybox. cbn [In]. auto 10. }
  split.
  { apply in_or_app. right. apply in_or_app. right. apply in_or_app. right.
    apply in_or_app. left. unfold frame_model. cbn [In]. auto 20. }
  unfold frame_resolve, resolve_calls, resolve_attachments, is_sampleable_texture,
    initialize_calls, world_initialized, world_with_main,
    createFrameBuffer_handle, createFrameBuffer_calls, createFrameBuffer_names,
    initialize_window_calls, initialize_context_calls.
  destruct (Z.ltb_spec 0 samples) as [Hs|Hs]; destruct (_DEBUG build);
    read_members; cbn [names next_texture next_renderbuffer next_framebuffer
                       fb_id fb_colorTarget fb_depthStencilTarget fb_width
                       fb_height];
    read_trace;
    rewrite ?(eqb_false_of_neq nr 0), ?(eqb_false_of_neq (nr + 1) 0) by lia;
    repeat split; reflexivity.
Qed.

(** ** The mip chain of a texture *)

(** X9. For a texture of non-negative size with a side of at least 1,
    the level count [createTexture] derives when [levels <= 0] is that of
    the full mip chain: the last level is the one at which the longer side
    has shrunk to 1 ([2^(levels-1) <= max(width,height) < 2^levels]).  The
    minification filter is trilinear exactly when the longer side is at
    least 2, and the magnification filter is linear. *)
Theorem createTexture_full_mip_chain (target : GLenum) (width height : Z)
    (internalformat : GLenum) (levels : Z) (w : World) (t : Texture) :
  0 <= width <= INT_MAX -> 0 <= height <= INT_MAX ->
  1 <= Z.max width height -> levels <= 0 ->
  result_of (createTexture target width height internalformat levels w) = Ok t ->
  let cs := calls_of (createTexture target width height internalformat levels w) in
  2 ^ (tex_levels t - 1) <= Z.max width height < 2 ^ tex_levels t /\
  Z.shiftr (Z.max width height) (tex_levels t - 1) = 1 /\
  (In (glTextureParameteri (tex_id t) GL_TEXTURE_MIN_FILTER GL_LINEAR_MIPMAP_LINEAR) cs
   <-> 2 <= Z.max width height) /\
  In (glTextureParameteri (tex_id t) GL_TEXTURE_MAG_FILTER GL_LINEAR) cs.
Proof.
  intros Hw Hh Hm Hl.
  pose proof (mip_levels_of_size width height Hw Hh) as Hloop.
  set (m := Z.max width height) in *.
  pose proof (Z.log2_nonneg m) as Hlog.
  pose proof (Z.log2_spec m ltac:(lia)) as [Hlo Hhi].
  remember (1 + Z.log2 m) as n eqn:Hn.
  rewrite (createTexture_run target width height internalformat levels n w)
    by (replace (levels <=? 0) with true by (symmetry; apply Z.leb_le; exact Hl);
        exact Hloop).
  unfold result_of, calls_of. cbn [fst snd].
  intros Ht. injection Ht as <-. cbn [tex_levels tex_id].
  replace (n - 1) with (Z.log2 m) by lia.
  replace n with (Z.succ (Z.log2 m)) by lia.
  split; [split; assumption|]. split.
  - rewrite Z.shiftr_div_pow2 by lia.
    symmetry. apply (Z.div_unique m (2 ^ Z.log2 m) 1 (m - 2 ^ Z.log2 m)).
    + left. rewrite Z.pow_succ_r in Hhi by lia. lia.
    + lia.
  - assert (Hfilter : (1 <? Z.succ (Z.log2 m)) = true <-> 2 <= m).
    { rewrite Z.ltb_lt. split; intros H.
      - apply (Z.log2_le_pow2 m 1); lia.
      - apply (Z.log2_le_pow2 m 1) in H; lia. }
    split; [|cbn [In]; auto].
    destruct (1 <? Z.succ (Z.log2 m)) eqn:E; cbn [In].
    + split; [intros _; apply Hfilter; reflexivity|auto].
    + split.
      * intros [H|[H|[H|[H|[]]]]]; discriminate H.
      * intros H. apply Hfilter in H. discriminate H.
Qed.

(** ** The grid of the specular prefilter *)

Lemma spmap_groups_cover (L : Z) :
  0 <= L ->
  1 <= spmap_groups L /\ Z.shiftr 1024 L <= 32 * spmap_groups L /\
  (L <= 5 -> 32 * spmap_groups L = Z.shiftr 1024 L) /\
  (5 <= L -> spmap_groups L = 1).
Proof.
  intros HL. unfold spmap_groups.
  destruct (Z.le_gt_cases L 5) as [Hle|Hgt].
  - assert (Hcases : L = 0 \/ L = 1 \/ L = 2 \/ L = 3 \/ L = 4 \/ L = 5) by lia.
    destruct Hcases as [->|[->|[->|[->|[->| ->]]]]];
      match goal with
      | |- context [Z.shiftr 1024 ?k] =>
          let v := eval vm_compute in (Z.shiftr 1024 k) in
          change (Z.shiftr 1024 k) with v;
          let g := eval vm_compute in (Z.max 1 (v / 32)) in
          change (Z.max 1 (v / 32)) with g
      end; lia.
  - assert (Hsmall : 0 <= Z.shiftr 1024 L <= 16).
    { rewrite Z.shiftr_div_pow2 by lia. split.
      - apply Z.div_pos; [lia|apply Z.pow_pos_nonneg; lia].
      - assert (H64 : 2 ^ 6 <= 2 ^ L) by (apply Z.pow_le_mono_r; lia).
        change (2 ^ 6) with 64 in H64.
        apply Z.div_le_upper_bound; lia. }
    rewrite (Z.div_small (Z.shiftr 1024 L) 32) by lia.
    change (Z.max 1 0) with 1. lia.
Qed.

(** X10. When the shader of the stage compiles and its program links and
    validates, every dispatch of the specular prefilter covers its mip
    level: with the 32 by 32 group size the stage assumes, the grid of
    level [L] spans at least [1024 >> L] texels on each side and exactly
    that many down to the 32-texel level 5; from there on it is a single
    group (for the levels of 16 texels and fewer, the level of 0 texels
    that is one past the last included), and the third dimension is always
    the 6 faces of the cube. *)
Theorem specular_prefilter_grid_covers_levels (B : Backend) (default_levels : Z)
    (w : World) :
  default_levels < INT_MAX ->
  File_readText B "shaders/glsl/spmap_cs.glsl" <> EmptyString ->
  compile_status B (next_shader_program (names w)) = GL_TRUE ->
  link_status B (next_shader_program (names w) + 1) = GL_TRUE ->
  validate_status B (next_shader_program (names w) + 1) = GL_TRUE ->
  Forall (fun d =>
            exists L g, d_level d = Some L /\ 0 <= L /\ d_groups d = (g, g, 6) /\
                        1 <= g /\ Z.shiftr 1024 L <= 32 * g /\
                        (L <= 5 -> 32 * g = Z.shiftr 1024 L) /\
                        (5 <= L -> g = 1))
    (dispatch_trace None None (calls_of (setup_spmap B default_levels w))).
Proof.
  intros Hmax Hsrc Hcs Hls Hvs.
  destruct (setup_spmap_trace B default_levels w Hmax Hsrc Hcs Hls Hvs)
    as (_ & _ & Htrace).
  rewrite Htrace. apply Forall_forall. intros d Hin.
  apply in_map_iff in Hin as (L & <- & HL).
  unfold levels_upto in HL. apply in_map_iff in HL as (k & <- & _).
  exists (Z.of_nat k), (spmap_groups (Z.of_nat k)).
  cbn [d_level d_groups].
  pose proof (spmap_groups_cover (Z.of_nat k) ltac:(lia)) as (H1 & H2 & H3 & H4).
  repeat split; try assumption; lia.
Qed.

(** * The upload of assets and the whole of setup *)

(** ** Running the second monad *)

Lemma sbind_run {A C} (m : Setup A) (f : A -> Setup C) c a c1 cs1 r c2 cs2 :
  m c = (Ok a, c1, cs1) -> f a c1 = (r, c2, cs2) ->
  sbind m f c = (r, c2, cs1 ++ cs2).
Proof. intros Hm Hf. unfold sbind. rewrite Hm, Hf. reflexivity. Qed.

Lemma srun_with {A} (m : Setup A) c r c1 c' cs cs' :
  m c = (r, c1, cs) -> c1 = c' -> cs = cs' -> m c = (r, c', cs').
Proof. intros H <- <-. exact H. Qed.

Lemma sfor_each_run {A} (xs : list A) (body : A -> Setup unit)
    (g : A -> list SetupCall) :
  (forall x c, body x c = (Ok tt, c, g x)) ->
  forall c, sfor_each xs body c = (Ok tt, c, flat_map g xs).
Proof.
  intros Hbody. induction xs as [|x xs IH]; intros c; cbn [sfor_each flat_map].
  - reflexivity.
  - unfold sbind. rewrite Hbody, IH. reflexivity.
Qed.

Ltac sstep := eapply sbind_run; [reflexivity|].

(** ** Vertex buffers *)

Lemma subscript_checked_run (build : Build) (A : Type) (xs : list A) (c : Context) :
  (checked_subscript build = true -> xs <> []) ->
  swhen (checked_subscript build)
    (lift_gl (assert (0 <? Z.of_nat (List.length xs)))) c = (Ok tt, c, []).
Proof.
  intros H. destruct (checked_subscript build); [|reflexivity].
  destruct xs as [|x xs]; [destruct (H eq_refl eq_refl)|].
  destruct c as [w nb nv]. reflexivity.
Qed.

Lemma createVertexBuffer_run (build : Build) (layout : MeshLayout) (mesh : Mesh)
    (c : Context) :
  (checked_subscript build = true ->
   mesh_vertices mesh <> [] /\ mesh_faces mesh <> []) ->
  createVertexBuffer build layout mesh c =
  (Ok (createVertexBuffer_handle mesh c),
   mkContext (world c) (next_buffer c + 1 + 1) (next_vertex_array c + 1),
   createVertexBuffer_calls layout mesh c).
Proof.
  intros Hne. unfold createVertexBuffer, createVertexBuffer_calls,
    createVertexBuffer_handle, mesh_attribute_calls, sfor_range.
  eapply srun_with.
  - do 2 sstep.
    eapply sbind_run;
      [apply subscript_checked_run; intros Hc; apply (Hne Hc)|].
    do 3 sstep.
    eapply sbind_run;
      [apply subscript_checked_run; intros Hc; apply (Hne Hc)|].
    do 4 sstep.
    eapply sbind_run.
    { apply sfor_each_run with
        (g := fun i =>
           [ glVertexArrayVertexBuffer (next_vertex_array c) i (next_buffer c)
               (i * sizeof_vec3) (sizeof_Vertex layout);
             glEnableVertexArrayAttrib (next_vertex_array c) i;
             glVertexArrayAttribFormat (next_vertex_array c) i
               (if i =? NumAttributes layout - 1 then 2 else 3) GL_FLOAT GL_FALSE 0;
             glVertexArrayAttribBinding (next_vertex_array c) i i ]).
      intros x c0. reflexivity. }
    reflexivity.
  - reflexivity.
  - cbn [app]. rewrite app_nil_r. reflexivity.
Qed.

Lemma attribute_formats_of_mesh (layout : MeshLayout) (vao vbo : GLuint)
    (indices : list Z) :
  attribute_formats vao
    (flat_map (fun i =>
       [ glVertexArrayVertexBuffer vao i vbo (i * sizeof_vec3) (sizeof_Vertex layout);
         glEnableVertexArrayAttrib vao i;
         glVertexArrayAttribFormat vao i
           (if i =? NumAttributes layout - 1 then 2 else 3) GL_FLOAT GL_FALSE 0;
         glVertexArrayAttribBinding vao i i ]) indices) =
  map (fun i => (i, (if i =? NumAttributes layout - 1 then 2 else 3), GL_FLOAT))
    indices.
Proof.
  induction indices as [|i indices IH]; [reflexivity|].
  cbn [flat_map app attribute_formats map]. rewrite Z.eqb_refl, IH. reflexivity.
Qed.

(** X11. For a mesh with at least one vertex and one face,
    [createVertexBuffer] returns a handle to three new objects, two
    distinct buffers and a vertex array, with an element count of three
    per face (modulo 2^32, the width of [GLuint]).  The vertex store holds
    the vertices at [sizeof(Vertex)] bytes each and the index store the
    faces at [sizeof(Face)] bytes each; the index store is the element
    buffer of the vertex array; and the attributes 0 to
    [NumAttributes - 1] are floats, of 3 components each but for the last,
    which has 2. *)
Theorem createVertexBuffer_layout (build : Build) (layout : MeshLayout) (mesh : Mesh)
    (c : Context) :
  mesh_vertices mesh <> [] -> mesh_faces mesh <> [] ->
  let run := createVertexBuffer build layout mesh c in
  let faces := Z.of_nat (List.length (mesh_faces mesh)) in
  let vertices := Z.of_nat (List.length (mesh_vertices mesh)) in
  exists buffer : VertexBuffer,
    result_of_setup run = Ok buffer /\
    vb_vbo buffer = next_buffer c /\ vb_ibo buffer = next_buffer c + 1 /\
    vb_vao buffer = next_vertex_array c /\
    created_in_setup (calls_of_setup run) =
      [ BufferObject (vb_vbo buffer); BufferObject (vb_ibo buffer);
        VertexArrayObject (vb_vao buffer) ] /\
    vb_numElements buffer = (3 * faces) mod 2 ^ 32 /\
    (3 * faces < 2 ^ 32 -> vb_numElements buffer = 3 * faces) /\
    In (glNamedBufferStorage (vb_vbo buffer) (vertices * sizeof_Vertex layout)
          (VertexData (mesh_vertices mesh)) 0) (calls_of_setup run) /\
    In (glNamedBufferStorage (vb_ibo buffer) (faces * sizeof_Face layout)
          (IndexData (mesh_faces mesh)) 0) (calls_of_setup run) /\
    In (glVertexArrayElementBuffer (vb_vao buffer) (vb_ibo buffer))
      (calls_of_setup run) /\
    attribute_formats (vb_vao buffer) (calls_of_setup run) =
      map (fun i => (i, (if i =? NumAttributes layout - 1 then 2 else 3), GL_FLOAT))
        (range (NumAttributes layout)).
Proof.
  intros Hv Hf run faces vertices. subst run.
  rewrite (createVertexBuffer_run build layout mesh c (fun _ => conj Hv Hf)).
  exists (createVertexBuffer_handle mesh c).
  unfold result_of_setup, calls_of_setup. cbn [fst snd].
  unfold createVertexBuffer_handle, createVertexBuffer_calls.
  cbn [vb_vbo vb_ibo vb_vao vb_numElements].
  assert (Hcount : to_GLuint (to_GLuint faces * 3) = (3 * faces) mod 2 ^ 32).
  { unfold to_GLuint. change 4294967296 with (2 ^ 32).
    rewrite Z.mul_mod_idemp_l by lia. f_equal. lia. }
  fold faces. fold vertices.
  split; [reflexivity|]. split; [reflexivity|]. split; [reflexivity|].
  split; [reflexivity|]. split.
  - unfold mesh_attribute_calls. cbn [app created_in_setup].
    generalize (range (NumAttributes layout)). intros l.
    induction l as [|i l IH]; [reflexivity|]. exact IH.
  - split; [exact Hcount|]. split.
    + intros Hsmall. rewrite Hcount. apply Z.mod_small. lia.
    + cbn [app In]. split; [auto|]. split; [auto 6|]. split; [auto 8|].
      cbn [attribute_formats].
      unfold mesh_attribute_calls, range. apply attribute_formats_of_mesh.
Qed.


Lemma createClipSpaceQuad_run (c : Context) :
  createClipSpaceQuad c =
  (Ok (mkVertexBuffer (next_buffer c) 0 (next_vertex_array c) 0),
   mkContext (world c) (next_buffer c + 1) (next_vertex_array c + 1),
   createClipSpaceQuad_calls c).
Proof. reflexivity. Qed.

Lemma created_in_attribute_calls {A} (g : A -> list SetupCall) (xs : list A) :
  (forall x, created_in_setup (g x) = []) ->
  created_in_setup (flat_map g xs) = [].
Proof.
  intros Hg. induction xs as [|x xs IH]; [reflexivity|].
  cbn [flat_map].
  assert (Happ : forall cs cs', created_in_setup cs = [] ->
                   created_in_setup (cs ++ cs') = created_in_setup cs').
  { induction cs as [|c1 cs1 IH1]; intros cs' H; [reflexivity|].
    destruct c1; cbn [app created_in_setup] in *;
      try discriminate H; try (apply IH1; exact H).
    apply app_eq_nil in H as [H1 H2]. rewrite H1. cbn [app]. apply IH1. exact H2. }
  rewrite Happ by apply Hg. exact IH.
Qed.


(** ** Textures from images *)





(** ** What a successful run was made of *)

Lemma sbind_ok_inv {A C} (m : Setup A) (f : A -> Setup C) c b c2 cs :
  sbind m f c = (Ok b, c2, cs) ->
  exists a c1 cs1 cs2,
    m c = (Ok a, c1, cs1) /\ f a c1 = (Ok b, c2, cs2) /\ cs = cs1 ++ cs2.
Proof.
  unfold sbind. destruct (m c) as [[[a| | |] c1] cs1]; try discriminate.
  destruct (f a c1) as [[r c2'] cs2] eqn:Ef. intros H. injection H as -> -> <-.
  exists a, c1, cs1, cs2. repeat split. exact Ef.
Qed.

Lemma lift_gl_ok_inv {A} (m : GL A) (c : Context) a c1 cs :
  lift_gl m c = (Ok a, c1, cs) ->
  exists w cs0,
    m (world c) = (Ok a, w, cs0) /\
    c1 = mkContext w (next_buffer c) (next_vertex_array c) /\ cs = map gl cs0.
Proof.
  unfold lift_gl. destruct (m (world c)) as [[r w] cs0]. intros H.
  injection H as -> <- <-. exists w, cs0. repeat split.
Qed.

Lemma compileShader_ok_inv (B : Backend) (filename : string) (type : GLenum)
    (w : World) a w1 cs :
  compileShader B filename type w = (Ok a, w1, cs) ->
  a = next_shader_program (names w) /\ w1 = world_after_program w /\
  cs = compileShader_calls B filename type (next_shader_program (names w)) /\
  shader_built B filename (next_shader_program (names w)).
Proof.
  rewrite compileShader_run. unfold shader_built.
  destruct (String.eqb_spec (File_readText B filename) EmptyString) as [He|He];
    [discriminate|].
  destruct (Z.eqb_spec (compile_status B (next_shader_program (names w))) GL_TRUE)
    as [Hc|Hc];
    [|intros H; injection H as H _ _; destruct (compile_abort_not_ok _ _ _ _ H)].
  intros H. injection H as <- <- <-. repeat split; assumption.
Qed.

Lemma linkProgram_ok_inv (B : Backend) (shaders : list GLuint) (w : World) a w1 cs :
  linkProgram B shaders w = (Ok a, w1, cs) ->
  a = next_shader_program (names w) /\ w1 = world_after_program w /\
  cs = link_calls (next_shader_program (names w)) shaders ++
       validate_calls (next_shader_program (names w)) /\
  program_built B (next_shader_program (names w)).
Proof.
  rewrite linkProgram_run. unfold program_built.
  destruct (Z.eqb_spec (link_status B (next_shader_program (names w))) GL_TRUE)
    as [Hl|Hl];
    [|intros H; injection H as H _ _; destruct (link_abort_not_ok _ _ _ H)].
  destruct (Z.eqb_spec (validate_status B (next_shader_program (names w))) GL_TRUE)
    as [Hv|Hv];
    [|intros H; injection H as H _ _; destruct (link_abort_not_ok _ _ _ H)].
  intros H. injection H as <- <- <-. repeat split; assumption.
Qed.

Lemma createTexture_ok_inv (target : GLenum) (width height : Z)
    (internalformat : GLenum) (levels : Z) (w : World) t w1 cs :
  createTexture target width height internalformat levels w = (Ok t, w1, cs) ->
  exists n,
    (if levels <=? 0
     then mip_levels_loop 32 (Z.lor width height) 1
     else Ok levels) = Ok n /\
    t = mkTexture (next_texture (names w)) width height n /\
    w1 = world_after_texture w /\
    cs = createTexture_calls target (next_texture (names w)) n internalformat
           width height.
Proof.
  destruct ((if levels <=? 0
             then mip_levels_loop 32 (Z.lor width height) 1
             else Ok levels)) as [n| | |] eqn:En.
  - rewrite (createTexture_run target width height internalformat levels n w En).
    intros H. injection H as <- <- <-. exists n. repeat split.
  - unfold createTexture, bind. destruct (levels <=? 0); [|discriminate En].
    unfold lift. rewrite En. discriminate.
  - unfold createTexture, bind. destruct (levels <=? 0); [|discriminate En].
    unfold lift. rewrite En. discriminate.
  - unfold createTexture, bind. destruct (levels <=? 0); [|discriminate En].
    unfold lift. rewrite En. discriminate.
Qed.

Lemma created_in_setup_app (cs cs' : list SetupCall) :
  created_in_setup (cs ++ cs') = created_in_setup cs ++ created_in_setup cs'.
Proof.
  induction cs as [|c cs IH]; [reflexivity|].
  destruct c; cbn [app created_in_setup]; rewrite IH;
    try reflexivity; try apply app_assoc.
Qed.

Lemma deleted_in_setup_app (cs cs' : list SetupCall) :
  deleted_in_setup (cs ++ cs') = deleted_in_setup cs ++ deleted_in_setup cs'.
Proof.
  induction cs as [|c cs IH]; [reflexivity|].
  destruct c; cbn [app deleted_in_setup]; rewrite IH;
    try reflexivity; try apply app_assoc.
Qed.

Lemma dispatches_in_setup_app (cs cs' : list SetupCall) :
  dispatches_in_setup (cs ++ cs') = dispatches_in_setup cs ++ dispatches_in_setup cs'.
Proof.
  induction cs as [|c cs IH]; [reflexivity|].
  destruct c as [g| | | | | | | | |]; cbn [app dispatches_in_setup];
    try (rewrite IH; reflexivity).
  destruct g; cbn [app]; rewrite IH; reflexivity.
Qed.

Lemma created_in_setup_gl (cs : list GLCall) :
  created_in_setup (map gl cs) = created_objects cs.
Proof.
  induction cs as [|c cs IH]; [reflexivity|].
  cbn [map created_in_setup]. rewrite IH. destruct c; reflexivity.
Qed.

Lemma deleted_in_setup_gl (cs : list GLCall) :
  deleted_in_setup (map gl cs) = deleted_objects cs.
Proof.
  induction cs as [|c cs IH]; [reflexivity|].
  cbn [map deleted_in_setup]. rewrite IH. destruct c; reflexivity.
Qed.

Lemma deleted_in_attribute_calls {A} (g : A -> list SetupCall) (xs : list A) :
  (forall x, deleted_in_setup (g x) = []) ->
  deleted_in_setup (flat_map g xs) = [].
Proof.
  intros Hg. induction xs as [|x xs IH]; [reflexivity|].
  cbn [flat_map]. rewrite deleted_in_setup_app, Hg, IH. reflexivity.
Qed.

Lemma dispatches_in_attribute_calls {A} (g : A -> list SetupCall) (xs : list A) :
  (forall x, dispatches_in_setup (g x) = []) ->
  dispatches_in_setup (flat_map g xs) = [].
Proof.
  intros Hg. induction xs as [|x xs IH]; [reflexivity|].
  cbn [flat_map]. rewrite dispatches_in_setup_app, Hg, IH. reflexivity.
Qed.

Lemma created_in_createVertexBuffer (layout : MeshLayout) (mesh : Mesh) (c : Context) :
  created_in_setup (createVertexBuffer_calls layout mesh c) =
  [ BufferObject (next_buffer c); BufferObject (next_buffer c + 1);
    VertexArrayObject (next_vertex_array c) ].
Proof.
  unfold createVertexBuffer_calls, mesh_attribute_calls.
  cbn [app created_in_setup].
  rewrite created_in_attribute_calls by reflexivity. reflexivity.
Qed.

Lemma deleted_in_createVertexBuffer (layout : MeshLayout) (mesh : Mesh) (c : Context) :
  deleted_in_setup (createVertexBuffer_calls layout mesh c) = [].
Proof.
  unfold createVertexBuffer_calls, mesh_attribute_calls.
  cbn [app deleted_in_setup].
  apply deleted_in_attribute_calls. reflexivity.
Qed.

Lemma dispatches_in_createVertexBuffer (layout : MeshLayout) (mesh : Mesh)
    (c : Context) :
  dispatches_in_setup (createVertexBuffer_calls layout mesh c) = [].
Proof.
  unfold createVertexBuffer_calls, mesh_attribute_calls.
  cbn [app dispatches_in_setup].
  apply dispatches_in_attribute_calls. reflexivity.
Qed.

Lemma createVertexBuffer_ok_inv (build : Build) (layout : MeshLayout) (mesh : Mesh)
    (c c1 : Context) (b : VertexBuffer) (cs : list SetupCall) :
  createVertexBuffer build layout mesh c = (Ok b, c1, cs) ->
  b = createVertexBuffer_handle mesh c /\
  c1 = mkContext (world c) (next_buffer c + 1 + 1) (next_vertex_array c + 1) /\
  cs = createVertexBuffer_calls layout mesh c /\
  (checked_subscript build = true ->
   mesh_vertices mesh <> [] /\ mesh_faces mesh <> []).
Proof.
  intros H.
  assert (Hne : checked_subscript build = true ->
                mesh_vertices mesh <> [] /\ mesh_faces mesh <> []).
  { intros Hc. unfold createVertexBuffer in H. rewrite Hc in H.
    destruct (mesh_vertices mesh) as [|v vs] eqn:Ev.
    { cbn in H. discriminate H. }
    destruct (mesh_faces mesh) as [|f fs] eqn:Ef.
    { cbn in H. discriminate H. }
    split; discriminate. }
  rewrite (createVertexBuffer_run build layout mesh c Hne) in H.
  injection H as <- <- <-. repeat split; apply Hne; assumption.
Qed.

Ltac snorm H :=
  unfold context_after_texture, world_after_program, world_after_texture,
    names_after_program, createVertexBuffer_handle in H;
  cbn [world next_buffer next_vertex_array names this next_texture
       next_renderbuffer next_framebuffer next_shader_program] in H.

(** Sums of a name and several ones, as the name plus one numeral. *)
Ltac znorm :=
  repeat rewrite <- Z.add_assoc;
  repeat match goal with
         | |- context [Z.pos ?p + Z.pos ?q] =>
             let k := eval vm_compute in (Z.pos p + Z.pos q) in
             change (Z.pos p + Z.pos q) with k
         end.

Ltac znorm_in H :=
  repeat rewrite <- Z.add_assoc in H;
  repeat match type of H with
         | context [Z.pos ?p + Z.pos ?q] =>
             let k := eval vm_compute in (Z.pos p + Z.pos q) in
             change (Z.pos p + Z.pos q) with k in H
         end.

Ltac sinv_with H tac :=
  let a := fresh "a" in
  let c1 := fresh "c" in
  let cs1 := fresh "cs" in
  let cs2 := fresh "cs" in
  let Hm := fresh "Hm" in
  apply sbind_ok_inv in H; destruct H as (a & c1 & cs1 & cs2 & Hm & H & ->);
  cbv beta in H;
  first
    [ (* a call, a member assignment, a read of the renderer, an asset *)
      progress (unfold scall, set_member, get_renderer in Hm);
      first [ injection Hm as <- <- <-
            | unfold lift_gl, modify_this in Hm; cbv beta iota zeta in Hm;
              cbn [map world this names next_buffer next_vertex_array] in Hm;
              injection Hm as <- <- <- ]
    | let Hasset := fresh "Hasset" in
      progress (unfold lift_outcome in Hm); injection Hm as Hasset <- <-
    | (* a shader or a program *)
      let w := fresh "w" in
      let cs0 := fresh "cs" in
      apply lift_gl_ok_inv in Hm; destruct Hm as (w & cs0 & Hm & -> & ->);
      let Hbuilt := fresh "Hbuilt" in
      first [ apply compileShader_ok_inv in Hm;
              destruct Hm as (-> & -> & -> & Hbuilt)
            | apply linkProgram_ok_inv in Hm;
              destruct Hm as (-> & -> & -> & Hbuilt) ];
      snorm Hbuilt
    | (* a texture *)
      let w := fresh "w" in
      let cs0 := fresh "cs" in
      let n := fresh "n" in
      let Hn := fresh "Hn" in
      apply lift_gl_ok_inv in Hm; destruct Hm as (w & cs0 & Hm & -> & ->);
      apply createTexture_ok_inv in Hm; destruct Hm as (n & Hn & -> & -> & ->)
    | (* a vertex buffer *)
      let Hmesh := fresh "Hmesh" in
      first [ rewrite createClipSpaceQuad_run in Hm; injection Hm as <- <- <-
            | apply createVertexBuffer_ok_inv in Hm;
              destruct Hm as (-> & -> & -> & Hmesh) ]
    | tac Hm
    | idtac ];
  snorm H;
  try match type of a with unit => destruct a end.

Ltac sinv H := sinv_with H ltac:(fun Hm => fail).

Ltac sread :=
  rewrite ?created_in_setup_app, ?deleted_in_setup_app, ?dispatches_in_setup_app.

(** ** Lifetimes *)

Ltac read_handles_in H :=
  cbn [this names world app
       m_framebuffer m_resolveFramebuffer m_screenQuad m_skybox m_pbrModel
       m_tonemapProgram m_skyboxProgram m_pbrProgram m_envTexture
       m_irmapTexture m_spmapTexture m_spBRDF_LUT m_albedoTexture
       m_normalTexture m_metalnessTexture m_roughnessTexture
       set_m_framebuffer set_m_resolveFramebuffer set_m_screenQuad
       set_m_skybox set_m_pbrModel set_m_envTexture set_m_irmapTexture
       set_m_spmapTexture set_m_spBRDF_LUT set_m_albedoTexture
       set_m_normalTexture set_m_metalnessTexture set_m_roughnessTexture
       set_m_tonemapProgram set_m_skyboxProgram set_m_pbrProgram
       vb_vbo vb_ibo vb_vao vb_numElements tex_id tex_width tex_height tex_levels
       fb_id fb_colorTarget fb_depthStencilTarget fb_width fb_height fb_samples]
    in H.

Ltac read_handles :=
  cbn [this names world app
       m_framebuffer m_resolveFramebuffer m_screenQuad m_skybox m_pbrModel
       m_tonemapProgram m_skyboxProgram m_pbrProgram m_envTexture
       m_irmapTexture m_spmapTexture m_spBRDF_LUT m_albedoTexture
       m_normalTexture m_metalnessTexture m_roughnessTexture
       set_m_framebuffer set_m_resolveFramebuffer set_m_screenQuad
       set_m_skybox set_m_pbrModel set_m_envTexture set_m_irmapTexture
       set_m_spmapTexture set_m_spBRDF_LUT set_m_albedoTexture
       set_m_normalTexture set_m_metalnessTexture set_m_roughnessTexture
       set_m_tonemapProgram set_m_skyboxProgram set_m_pbrProgram
       vb_vbo vb_ibo vb_vao vb_numElements tex_id tex_width tex_height tex_levels
       fb_id fb_colorTarget fb_depthStencilTarget fb_width fb_height fb_samples].

Lemma well_scoped_app (cs cs' : list SetupCall) (alive dead : list GLObject) :
  well_scoped alive dead cs ->
  well_scoped (alive ++ created_in_setup cs) (dead ++ deleted_in_setup cs) cs' ->
  well_scoped alive dead (cs ++ cs').
Proof.
  revert alive dead. induction cs as [|c cs IH]; intros alive dead Hcs Hcs'.
  - cbn [created_in_setup deleted_in_setup app] in *.
    rewrite !app_nil_r in Hcs'. exact Hcs'.
  - cbn [app well_scoped] in *. destruct Hcs as (Huses & Hcs).
    split; [exact Huses|]. apply IH; [exact Hcs|].
    rewrite <- !app_assoc.
    rewrite <- created_in_setup_app, <- deleted_in_setup_app. exact Hcs'.
Qed.

Lemma well_scoped_cons (c : SetupCall) (cs : list SetupCall)
    (alive dead : list GLObject) :
  Forall (fun o => In o alive /\ ~ In o dead) (uses_of_call c) ->
  well_scoped (alive ++ created_in_setup [c]) (dead ++ deleted_in_setup [c]) cs ->
  well_scoped alive dead (c :: cs).
Proof. intros Huses Hcs. split; assumption. Qed.

Lemma well_scoped_flat_map {A} (g : A -> list SetupCall) (xs : list A)
    (alive dead : list GLObject) :
  (forall x, created_in_setup (g x) = [] /\ deleted_in_setup (g x) = [] /\
             well_scoped alive dead (g x)) ->
  well_scoped alive dead (flat_map g xs).
Proof.
  intros Hg. induction xs as [|x xs IH]; [exact I|].
  cbn [flat_map]. destruct (Hg x) as (Hc & Hd & Hs).
  apply well_scoped_app; [exact Hs|]. rewrite Hc, Hd, !app_nil_r. exact IH.
Qed.

(** An object is alive when it is among the objects created and not among
    the objects deleted. *)
Ltac alive_now :=
  first
    [ solve [repeat first [left; reflexivity | right]]
    | solve [apply in_or_app; right; repeat first [left; reflexivity | right]]
    | solve [apply in_or_app; left; assumption]
    | assumption ].

Ltac not_dead :=
  let Hin := fresh "Hin" in
  intros Hin;
  first
    [ apply in_app_or in Hin; destruct Hin as [Hin|Hin];
      [ contradiction
      | cbn [In] in Hin;
        repeat (destruct Hin as [Hin|Hin];
                [first [discriminate Hin|injection Hin; lia]|]);
        exact Hin ]
    | contradiction
    | cbn [In] in Hin;
      repeat (destruct Hin as [Hin|Hin];
              [first [discriminate Hin|injection Hin; lia]|]);
      exact Hin ].

Ltac uses_alive :=
  cbn [uses_of_call used_objects];
  try change (0 =? 0) with true; cbv iota;
  repeat match goal with
         | |- context [?x =? 0] => rewrite (eqb_false_of_neq x 0) by lia
         end;
  repeat (apply Forall_cons; [split; [alive_now|not_dead]|]);
  apply Forall_nil.

(** The objects created and deleted so far, as one list each. *)
Ltac accumulate :=
  cbn [created_in_setup deleted_in_setup created_objects deleted_objects app];
  rewrite <- ?app_assoc; cbn [app]; rewrite ?app_nil_r.

Ltac fresh_objects :=
  repeat match goal with
         | H : Forall _ (_ :: _) |- _ =>
             apply Forall_cons_iff in H;
             let Hfresh := fresh "Hfresh" in destruct H as [Hfresh H]
         end.

Lemma created_in_mesh_attributes (layout : MeshLayout) (vao vbo : GLuint) :
  created_in_setup (mesh_attribute_calls layout vao vbo) = [].
Proof. apply created_in_attribute_calls. reflexivity. Qed.

Lemma deleted_in_mesh_attributes (layout : MeshLayout) (vao vbo : GLuint) :
  deleted_in_setup (mesh_attribute_calls layout vao vbo) = [].
Proof. apply deleted_in_attribute_calls. reflexivity. Qed.

Lemma well_scoped_mesh_attributes (layout : MeshLayout) (vao vbo : GLuint)
    (alive dead : list GLObject) :
  In (VertexArrayObject vao) alive -> ~ In (VertexArrayObject vao) dead ->
  In (BufferObject vbo) alive -> ~ In (BufferObject vbo) dead ->
  well_scoped alive dead (mesh_attribute_calls layout vao vbo).
Proof.
  intros Ha Hd Hb Hbd. apply well_scoped_flat_map. intros i.
  split; [reflexivity|]. split; [reflexivity|].
  repeat (apply well_scoped_cons;
          [ cbn [uses_of_call];
            repeat (apply Forall_cons; [split; assumption|]); apply Forall_nil
          | cbn [created_in_setup deleted_in_setup]; rewrite ?app_nil_r ]).
  exact I.
Qed.

Lemma map_gl_spmap_levels (program texture : GLuint) (delta : float32)
    (Ls : list Z) :
  map gl (flat_map (spmap_level_calls program texture delta) Ls) =
  flat_map (fun L => map gl (spmap_level_calls program texture delta L)) Ls.
Proof.
  induction Ls as [|L Ls IH]; [reflexivity|].
  cbn [flat_map]. rewrite map_app, IH. reflexivity.
Qed.

Lemma well_scoped_spmap_levels (program texture : GLuint) (delta : float32)
    (Ls : list Z) (alive dead : list GLObject) :
  In (ProgramObject program) alive -> ~ In (ProgramObject program) dead ->
  In (TextureObject texture) alive -> ~ In (TextureObject texture) dead ->
  well_scoped alive dead
    (map gl (flat_map (spmap_level_calls program texture delta) Ls)).
Proof.
  intros Hp Hpd Ht Htd. rewrite map_gl_spmap_levels.
  apply well_scoped_flat_map. intros L.
  split; [reflexivity|]. split; [reflexivity|].
  unfold spmap_level_calls. cbn [map].
  repeat (apply well_scoped_cons;
          [ cbn [uses_of_call used_objects];
            repeat (apply Forall_cons; [split; assumption|]); apply Forall_nil
          | cbn [created_in_setup deleted_in_setup created_objects deleted_objects
                 app];
            rewrite ?app_nil_r ]).
  exact I.
Qed.

Lemma objects_in_map_gl_spmap_levels (program texture : GLuint) (delta : float32)
    (Ls : list Z) :
  created_in_setup (map gl (flat_map (spmap_level_calls program texture delta) Ls)) = [] /\
  deleted_in_setup (map gl (flat_map (spmap_level_calls program texture delta) Ls)) = [].
Proof.
  rewrite created_in_setup_gl, deleted_in_setup_gl.
  induction Ls as [|L Ls [IHc IHd]]; [split; reflexivity|].
  cbn [flat_map spmap_level_calls app created_objects deleted_objects].
  split; assumption.
Qed.

Lemma quad_attribute_calls_explicit (vao vbo : GLuint) :
  quad_attribute_calls vao vbo =
  [ glVertexArrayVertexBuffer vao 0 vbo 0 16; glEnableVertexArrayAttrib vao 0;
    glVertexArrayAttribFormat vao 0 2 GL_FLOAT GL_FALSE 0;
    glVertexArrayAttribBinding vao 0 0;
    glVertexArrayVertexBuffer vao 1 vbo 8 16; glEnableVertexArrayAttrib vao 1;
    glVertexArrayAttribFormat vao 1 2 GL_FLOAT GL_FALSE 0;
    glVertexArrayAttribBinding vao 1 1 ].
Proof. reflexivity. Qed.

(** One step of a lifetime proof: a call, a loop, or the calls of an
    upload known by what they create and delete. *)
Ltac scoped_call :=
  lazymatch goal with
  | |- well_scoped _ _ [] => exact I
  | |- well_scoped _ _ (_ :: _) =>
      apply well_scoped_cons; [uses_alive|accumulate]
  | |- well_scoped _ _ (mesh_attribute_calls _ _ _ ++ _) =>
      apply well_scoped_app;
      [ apply well_scoped_mesh_attributes; [alive_now|not_dead|alive_now|not_dead]
      | rewrite created_in_mesh_attributes, deleted_in_mesh_attributes; accumulate ]
  | |- well_scoped _ _ (map gl (flat_map (spmap_level_calls ?p ?t ?d) ?Ls) ++ _) =>
      apply well_scoped_app;
      [ apply well_scoped_spmap_levels; [alive_now|not_dead|alive_now|not_dead]
      | destruct (objects_in_map_gl_spmap_levels p t d Ls) as (-> & ->); accumulate ]
  | |- well_scoped _ _ (?cs ++ _) =>
      is_var cs;
      apply well_scoped_app;
      [ match goal with
        | Hs : forall alive dead, _ -> well_scoped alive dead cs |- _ =>
            apply Hs; not_dead
        end
      | match goal with
        | Hc : created_in_setup cs = _, Hd : deleted_in_setup cs = _ |- _ =>
            rewrite Hc, Hd
        end; accumulate ]
  | |- well_scoped _ _ ?cs =>
      is_var cs;
      match goal with
      | Hs : forall alive dead, _ -> well_scoped alive dead cs |- _ =>
          apply Hs; not_dead
      end
  end.

Ltac scoped_start :=
  unfold compileShader_calls, link_calls, validate_calls, createTexture_calls,
    createClipSpaceQuad_calls, createVertexBuffer_calls;
  rewrite ?quad_attribute_calls_explicit;
  cbn [world next_buffer next_vertex_array names this next_texture
       next_renderbuffer next_framebuffer next_shader_program];
  read_handles;
  repeat match goal with
         | E : created_in_setup _ = _ |- _ => progress (znorm_in E)
         | E : deleted_in_setup _ = _ |- _ => progress (znorm_in E)
         | E : forall alive dead, _ -> well_scoped alive dead _ |- _ =>
             progress (znorm_in E)
         end;
  znorm;
  rewrite <- ?app_assoc;
  cbn [map app flat_map].

Lemma createTexture_image_ok_inv (image : Image) (format internalformat : GLenum)
    (levels : Z) (c c1 : Context) (t : Texture) (cs : list SetupCall) :
  createTexture_image image format internalformat levels c = (Ok t, c1, cs) ->
  exists n,
    t = mkTexture (next_texture (names (world c))) (image_width image)
          (image_height image) n /\
    c1 = context_after_texture c /\
    created_in_setup cs = [TextureObject (next_texture (names (world c)))] /\
    deleted_in_setup cs = [] /\ dispatches_in_setup cs = [] /\
    forall alive dead,
      ~ In (TextureObject (next_texture (names (world c)))) dead ->
      well_scoped alive dead cs.
Proof.
  intros H. unfold createTexture_image in H.
  sinv H. clear Hn.
  apply sbind_ok_inv in H. destruct H as (u & c2 & up & rest & Hm & H & ->).
  assert (Hup : c2 = mkContext (world_after_texture (world c)) (next_buffer c)
                       (next_vertex_array c) /\
                up = [glTextureSubImage2D (next_texture (names (world c))) 0 0 0
                        (image_width image) (image_height image) format
                        (if image_isHDR image then GL_FLOAT else GL_UNSIGNED_BYTE)
                        (image_pixels image)]).
  { cbn [tex_id tex_width tex_height] in Hm.
    destruct (image_isHDR image); unfold scall in Hm; injection Hm as _ <- <-;
      split; reflexivity. }
  destruct Hup as (-> & ->). clear Hm.
  apply sbind_ok_inv in H. destruct H as (u' & c3 & mip & rest' & Hm & H & ->).
  unfold sret in H. injection H as <- <- <-.
  cbn [tex_levels tex_id] in Hm.
  assert (Hmip : c3 = mkContext (world_after_texture (world c)) (next_buffer c)
                        (next_vertex_array c) /\
                 mip = if 1 <? n
                       then [gl (glGenerateTextureMipmap
                                   (next_texture (names (world c))))]
                       else []).
  { destruct (1 <? n); unfold swhen, scall, sret in Hm; injection Hm as _ <- <-;
      split; reflexivity. }
  destruct Hmip as (-> & ->).
  exists n. split; [reflexivity|]. split; [reflexivity|].
  unfold createTexture_calls. cbn [map app].
  split; [destruct (1 <? n); reflexivity|].
  split; [destruct (1 <? n); reflexivity|].
  split; [destruct (1 <? n); reflexivity|].
  intros alive dead Hfresh.
  destruct (1 <? n); cbn [app]; repeat scoped_call.
Qed.

Ltac sinv_image H :=
  sinv_with H ltac:(fun Hm =>
    let n := fresh "n" in
    let Hc := fresh "Hcreated" in
    let Hd := fresh "Hdeleted" in
    let Hp := fresh "Hdispatched" in
    let Hs := fresh "Hscoped" in
    apply createTexture_image_ok_inv in Hm;
    destruct Hm as (n & -> & -> & Hc & Hd & Hp & Hs);
    snorm Hc; snorm Hs).

Ltac sfacts :=
  repeat match goal with
         | E : created_in_setup ?cs = _ |- _ => progress (znorm_in E)
         | E : deleted_in_setup ?cs = _ |- _ => progress (znorm_in E)
         end;
  sread;
  rewrite ?created_in_createVertexBuffer, ?deleted_in_createVertexBuffer,
    ?dispatches_in_createVertexBuffer;
  repeat match goal with
         | E : created_in_setup ?cs = _ |- _ => rewrite E; clear E
         | E : deleted_in_setup ?cs = _ |- _ => rewrite E; clear E
         | E : dispatches_in_setup ?cs = _ |- _ => rewrite E; clear E
         end.

Ltac sclose := sfacts; cbn; znorm; reflexivity.

(** The requirements met on the way, gathered. *)
Ltac sbuilt :=
  repeat match goal with
         | E : shader_built _ _ _ |- _ => progress (znorm_in E)
         | E : program_built _ _ |- _ => progress (znorm_in E)
         end;
  repeat match goal with
         | |- _ /\ _ => split
         end;
  try assumption.

Lemma setup_irmap_ok (B : Backend) (c c' : Context) (cs : list SetupCall) :
  setup_irmap B c = (Ok tt, c', cs) ->
  let ns := next_shader_program (names (world c)) in
  let nt := next_texture (names (world c)) in
  c' = mkContext
         (mkWorld (set_m_irmapTexture (mkTexture nt 32 32 1) (this (world c)))
            (mkNames (nt + 1) (next_renderbuffer (names (world c)))
               (next_framebuffer (names (world c))) (ns + 2)))
         (next_buffer c) (next_vertex_array c) /\
  created_in_setup cs = [ShaderObject ns; ProgramObject (ns + 1); TextureObject nt] /\
  deleted_in_setup cs = [ShaderObject ns; ProgramObject (ns + 1)] /\
  dispatches_in_setup cs = [(1, 1, 6)] /\
  (shader_built B "shaders/glsl/irmap_cs.glsl" ns /\ program_built B (ns + 1)) /\
  forall alive dead,
    In (TextureObject (tex_id (m_envTexture (this (world c))))) alive ->
    ~ In (TextureObject (tex_id (m_envTexture (this (world c))))) dead ->
    Forall (fun o => ~ In o dead) (created_in_setup cs) ->
    well_scoped alive dead cs.
Proof.
  intros H. unfold setup_irmap in H.
  do 9 sinv H.
  cbn [Z.leb Z.compare] in Hn. injection Hn as <-.
  unfold scall in H. injection H as <- <-.
  cbv zeta. split; [znorm; reflexivity|].
  match goal with
  | |- created_in_setup ?l = ?objects /\ _ =>
      assert (Hcreated : created_in_setup l = objects) by sclose
  end.
  split; [exact Hcreated|]. split; [sclose|]. split; [sclose|].
  split; [sbuilt|].
  intros alive dead Halive Hdead Hfresh. rewrite Hcreated in Hfresh.
  clear Hcreated. fresh_objects. scoped_start.
  repeat scoped_call.
Qed.


Lemma setup_spBRDF_ok (B : Backend) (c c' : Context) (cs : list SetupCall) :
  setup_spBRDF B c = (Ok tt, c', cs) ->
  let ns := next_shader_program (names (world c)) in
  let nt := next_texture (names (world c)) in
  c' = mkContext
         (mkWorld (set_m_spBRDF_LUT (mkTexture nt 256 256 1) (this (world c)))
            (mkNames (nt + 1) (next_renderbuffer (names (world c)))
               (next_framebuffer (names (world c))) (ns + 2)))
         (next_buffer c) (next_vertex_array c) /\
  created_in_setup cs = [ShaderObject ns; ProgramObject (ns + 1); TextureObject nt] /\
  deleted_in_setup cs = [ShaderObject ns; ProgramObject (ns + 1)] /\
  dispatches_in_setup cs = [(8, 8, 1)] /\
  (shader_built B "shaders/glsl/spbrdf_cs.glsl" ns /\ program_built B (ns + 1)) /\
  forall alive dead,
    Forall (fun o => ~ In o dead) (created_in_setup cs) ->
    well_scoped alive dead cs.
Proof.
  intros H. unfold setup_spBRDF in H.
  do 8 sinv H.
  cbn [Z.leb Z.compare] in Hn. injection Hn as <-.
  unfold scall in H. injection H as <- <-.
  cbv zeta. split; [znorm; reflexivity|].
  match goal with
  | |- created_in_setup ?l = ?objects /\ _ =>
      assert (Hobjects : created_in_setup l = objects) by sclose
  end.
  split; [exact Hobjects|]. split; [sclose|]. split; [sclose|].
  split; [sbuilt|].
  intros alive dead Hfresh. rewrite Hobjects in Hfresh.
  clear Hobjects. fresh_objects. scoped_start.
  repeat scoped_call.
Qed.

Lemma setup_envmap_ok (B : Backend) (assets : Assets) (default_levels : Z)
    (c c' : Context) (cs : list SetupCall) :
  setup_envmap B assets default_levels c = (Ok tt, c', cs) ->
  let ns := next_shader_program (names (world c)) in
  let nt := next_texture (names (world c)) in
  c' = mkContext
         (mkWorld (set_m_envTexture
                     (mkTexture (nt + 1) 1024 1024 (spmap_levels default_levels))
                     (this (world c)))
            (mkNames (nt + 2) (next_renderbuffer (names (world c)))
               (next_framebuffer (names (world c))) (ns + 2)))
         (next_buffer c) (next_vertex_array c) /\
  created_in_setup cs =
    [ ShaderObject ns; ProgramObject (ns + 1); TextureObject nt;
      TextureObject (nt + 1) ] /\
  deleted_in_setup cs = [ShaderObject ns; TextureObject nt; ProgramObject (ns + 1)] /\
  dispatches_in_setup cs = [(32, 32, 6)] /\
  (shader_built B "shaders/glsl/equirect2cube_cs.glsl" ns /\
   program_built B (ns + 1) /\
   image_loaded assets "environment.hdr" 3) /\
  forall alive dead,
    Forall (fun o => ~ In o dead) (created_in_setup cs) ->
    well_scoped alive dead cs.
Proof.
  intros H. unfold setup_envmap in H.
  do 3 sinv H. sinv_image H. do 8 sinv H.
  rewrite spmap_levels_found in Hn. injection Hn as <-.
  sinv H.
  unfold scall in H. injection H as <- <-.
  cbv zeta. split; [znorm; reflexivity|].
  match goal with
  | |- created_in_setup ?l = ?objects /\ _ =>
      assert (Hobjects : created_in_setup l = objects) by sclose
  end.
  split; [exact Hobjects|]. split; [sclose|]. split; [sclose|].
  split; [sbuilt; eexists; eassumption|].
  intros alive dead Hfresh. rewrite Hobjects in Hfresh.
  clear Hobjects. fresh_objects. scoped_start.
  repeat scoped_call.
Qed.

Lemma setup_assets_ok (B : Backend) (build : Build) (assets : Assets)
    (layout : MeshLayout)
    (image_levels : Z) (c c' : Context) (cs : list SetupCall) :
  setup_assets B build assets layout image_levels c = (Ok tt, c', cs) ->
  let ns := next_shader_program (names (world c)) in
  let nt := next_texture (names (world c)) in
  let nb := next_buffer c in
  let nv := next_vertex_array c in
  exists (eS eM : GLuint) (iA iN iM iR : Image) (nA nN nM nR : Z),
    c' = mkContext
           (mkWorld
              (set_m_roughnessTexture
                 (mkTexture (nt + 3) (image_width iR) (image_height iR) nR)
              (set_m_metalnessTexture
                 (mkTexture (nt + 2) (image_width iM) (image_height iM) nM)
              (set_m_normalTexture
                 (mkTexture (nt + 1) (image_width iN) (image_height iN) nN)
              (set_m_albedoTexture
                 (mkTexture nt (image_width iA) (image_height iA) nA)
              (set_m_pbrProgram (ns + 8)
              (set_m_pbrModel (mkVertexBuffer (nb + 3) (nb + 4) (nv + 2) eM)
              (set_m_skyboxProgram (ns + 5)
              (set_m_skybox (mkVertexBuffer (nb + 1) (nb + 2) (nv + 1) eS)
              (set_m_tonemapProgram (ns + 2)
              (set_m_screenQuad (mkVertexBuffer nb 0 nv 0)
                 (this (world c))))))))))))
              (mkNames (nt + 4) (next_renderbuffer (names (world c)))
                 (next_framebuffer (names (world c))) (ns + 9)))
           (nb + 5) (nv + 3) /\
    created_in_setup cs =
      [ BufferObject nb; VertexArrayObject nv;
        ShaderObject ns; ShaderObject (ns + 1); ProgramObject (ns + 2);
        BufferObject (nb + 1); BufferObject (nb + 2); VertexArrayObject (nv + 1);
        ShaderObject (ns + 3); ShaderObject (ns + 4); ProgramObject (ns + 5);
        BufferObject (nb + 3); BufferObject (nb + 4); VertexArrayObject (nv + 2);
        ShaderObject (ns + 6); ShaderObject (ns + 7); ProgramObject (ns + 8);
        TextureObject nt; TextureObject (nt + 1); TextureObject (nt + 2);
        TextureObject (nt + 3) ] /\
    deleted_in_setup cs =
      [ ShaderObject ns; ShaderObject (ns + 1);
        ShaderObject (ns + 3); ShaderObject (ns + 4);
        ShaderObject (ns + 6); ShaderObject (ns + 7) ] /\
    dispatches_in_setup cs = [] /\
    (shader_built B "shaders/glsl/passthrough_vs.glsl" ns /\
     shader_built B "shaders/glsl/tonemap_fs.glsl" (ns + 1) /\
     program_built B (ns + 2) /\
     shader_built B "shaders/glsl/skybox_vs.glsl" (ns + 3) /\
     shader_built B "shaders/glsl/skybox_fs.glsl" (ns + 4) /\
     program_built B (ns + 5) /\
     shader_built B "shaders/glsl/pbr_vs.glsl" (ns + 6) /\
     shader_built B "shaders/glsl/pbr_fs.glsl" (ns + 7) /\
     program_built B (ns + 8)) /\
    (mesh_loaded build assets "meshes/skybox.obj" /\
     mesh_loaded build assets "meshes/cerberus.fbx") /\
    (image_loaded assets "textures/cerberus_A.png" 3 /\
     image_loaded assets "textures/cerberus_N.png" 3 /\
     image_loaded assets "textures/cerberus_M.png" 1 /\
     image_loaded assets "textures/cerberus_R.png" 1) /\
    forall alive dead,
      Forall (fun o => ~ In o dead) (created_in_setup cs) ->
      well_scoped alive dead cs.
Proof.
  intros H. unfold setup_assets in H.
  do 23 sinv H.
  do 3 (sinv H; sinv_image H; sinv H).
  sinv H. sinv_image H.
  unfold set_member, lift_gl, modify_this in H. cbv beta iota zeta in H.
  snorm H. injection H as <- <-.
  cbv zeta.
  exists (to_GLuint (to_GLuint (Z.of_nat (List.length (mesh_faces a))) * 3)),
    (to_GLuint (to_GLuint (Z.of_nat (List.length (mesh_faces a0))) * 3)),
    a1, a2, a3, a4, n, n0, n1, n2.
  split; [znorm; reflexivity|].
  match goal with
  | |- created_in_setup ?l = ?objects /\ _ =>
      assert (Hobjects : created_in_setup l = objects) by sclose
  end.
  split; [exact Hobjects|]. split; [sclose|]. split; [sclose|].
  split; [sbuilt|]. unfold mesh_loaded, image_loaded.
  split; [split; (eexists; split; [eassumption|assumption])|].
  split; [repeat split; eexists; eassumption|].
  intros alive dead Hfresh. rewrite Hobjects in Hfresh.
  clear Hobjects. fresh_objects. scoped_start.
  repeat scoped_call.
Qed.

Lemma bind_ok_inv {A C} (m : GL A) (f : A -> GL C) w b w2 cs :
  bind m f w = (Ok b, w2, cs) ->
  exists a w1 cs1 cs2,
    m w = (Ok a, w1, cs1) /\ f a w1 = (Ok b, w2, cs2) /\ cs = cs1 ++ cs2.
Proof.
  unfold bind. destruct (m w) as [[[a| | |] w1] cs1]; try discriminate.
  destruct (f a w1) as [[r w2'] cs2] eqn:Ef. intros H. injection H as -> -> <-.
  exists a, w1, cs1, cs2. repeat split. exact Ef.
Qed.

Lemma dispatches_in_spmap_levels (program texture : GLuint) (delta : float32)
    (Ls : list Z) :
  dispatches_in_setup (map gl (flat_map (spmap_level_calls program texture delta) Ls)) =
  map (fun L => (spmap_groups L, spmap_groups L, 6)) Ls.
Proof.
  induction Ls as [|L Ls IH]; [reflexivity|].
  cbn [flat_map spmap_level_calls app map dispatches_in_setup].
  rewrite IH. reflexivity.
Qed.

Lemma objects_in_spmap_levels (program texture : GLuint) (delta : float32)
    (Ls : list Z) :
  created_objects (flat_map (spmap_level_calls program texture delta) Ls) = [] /\
  deleted_objects (flat_map (spmap_level_calls program texture delta) Ls) = [].
Proof.
  induction Ls as [|L Ls [IHc IHd]]; [split; reflexivity|].
  cbn [flat_map spmap_level_calls app created_objects deleted_objects].
  split; assumption.
Qed.

Lemma setup_spmap_ok (B : Backend) (default_levels : Z) (c c' : Context)
    (cs : list SetupCall) :
  lift_gl (setup_spmap B default_levels) c = (Ok tt, c', cs) ->
  default_levels < INT_MAX ->
  let ns := next_shader_program (names (world c)) in
  let nt := next_texture (names (world c)) in
  c' = mkContext
         (mkWorld (set_m_spmapTexture
                     (mkTexture nt 1024 1024 (spmap_levels default_levels))
                     (this (world c)))
            (mkNames (nt + 1) (next_renderbuffer (names (world c)))
               (next_framebuffer (names (world c))) (ns + 2)))
         (next_buffer c) (next_vertex_array c) /\
  created_in_setup cs = [ShaderObject ns; ProgramObject (ns + 1); TextureObject nt] /\
  deleted_in_setup cs = [ShaderObject ns; ProgramObject (ns + 1)] /\
  dispatches_in_setup cs =
    map (fun L => (spmap_groups L, spmap_groups L, 6))
      (levels_upto (spmap_levels default_levels)) /\
  (shader_built B "shaders/glsl/spmap_cs.glsl" ns /\ program_built B (ns + 1)) /\
  forall alive dead,
    In (TextureObject (tex_id (m_envTexture (this (world c))))) alive ->
    ~ In (TextureObject (tex_id (m_envTexture (this (world c))))) dead ->
    Forall (fun o => ~ In o dead) (created_in_setup cs) ->
    well_scoped alive dead cs.
Proof.
  intros H Hmax.
  assert (Hlevels : 1 <= spmap_levels default_levels < INT_MAX).
  { unfold spmap_levels, INT_MAX in *.
    destruct (Z.leb_spec default_levels 0); lia. }
  apply lift_gl_ok_inv in H. destruct H as (w & cs0 & H & -> & ->).
  unfold setup_spmap in H.
  apply bind_ok_inv in H. destruct H as (shader & w1 & l1 & l1' & Hm & H & ->).
  apply compileShader_ok_inv in Hm. destruct Hm as (-> & -> & -> & Hshader).
  apply bind_ok_inv in H. destruct H as (program & w2 & l2 & l2' & Hm & H & ->).
  apply linkProgram_ok_inv in Hm. destruct Hm as (-> & -> & -> & Hprogram).
  unfold world_after_program, names_after_program in Hprogram.
  cbn [names next_shader_program] in Hprogram.
  apply bind_ok_inv in H. destruct H as (t & w3 & l3 & l3' & Hm & H & ->).
  apply createTexture_ok_inv in Hm. destruct Hm as (n & Hn & -> & -> & ->).
  rewrite spmap_levels_found in Hn. injection Hn as <-.
  apply bind_ok_inv in H. destruct H as (u & w4 & l4 & l4' & Hm & H & ->).
  unfold modify_this in Hm. injection Hm as <- <- <-.
  apply bind_ok_inv in H. destruct H as (u' & w5 & l5 & l5' & Hm & H & ->).
  rewrite spmap_prefilter_run in Hm
    by (cbn [this set_m_spmapTexture m_spmapTexture tex_levels]; lia).
  injection Hm as <- <- <-.
  unfold call in H. injection H as <- <-.
  cbv zeta.
  unfold world_after_texture, world_after_program, names_after_program.
  cbn [world next_buffer next_vertex_array names this next_texture
       next_renderbuffer next_framebuffer next_shader_program
       set_m_spmapTexture m_spmapTexture m_envTexture tex_levels tex_id].
  split; [znorm; reflexivity|].
  destruct (objects_in_spmap_levels
              (next_shader_program (names (world c)) + 1)
              (next_texture (names (world c)))
              (spmap_deltaRoughness (spmap_levels default_levels))
              (levels_upto (spmap_levels default_levels))) as (Hc & Hd).
  match goal with
  | |- created_in_setup ?l = ?objects /\ _ =>
      assert (Hobjects : created_in_setup l = objects)
  end.
  { rewrite !map_app. sread.
    cbn [map app created_in_setup created_objects].
    rewrite !created_in_setup_gl, Hc. cbn. rewrite ?app_nil_r. reflexivity. }
  split; [exact Hobjects|].
  split.
  { rewrite !map_app. sread.
    cbn [map app deleted_in_setup deleted_objects].
    rewrite !deleted_in_setup_gl, Hd. cbn. rewrite ?app_nil_r. reflexivity. }
  split.
  { rewrite !map_app. sread.
    cbn [map app dispatches_in_setup].
    rewrite dispatches_in_spmap_levels. cbn. rewrite ?app_nil_r. reflexivity. }
  split; [split; assumption|].
  intros alive dead Halive Hdead Hfresh. rewrite Hobjects in Hfresh.
  clear Hobjects Hc Hd. fresh_objects.
  rewrite !map_app. scoped_start.
  repeat scoped_call.
Qed.

Lemma setup_ok (B : Backend) (build : Build) (assets : Assets)
    (layout : MeshLayout)
    (default_levels image_levels : Z) (c c' : Context) (cs : list SetupCall) :
  setup B build assets layout default_levels image_levels c = (Ok tt, c', cs) ->
  default_levels < INT_MAX ->
  exists (eS eM : GLuint) (iA iN iM iR : Image) (nA nN nM nR : Z),
    c' = Context_after_setup c
           (Renderer_after_setup c default_levels eS eM iA iN iM iR nA nN nM nR) /\
    created_in_setup cs = setup_created c /\
    deleted_in_setup cs = setup_deleted c /\
    dispatches_in_setup cs = setup_dispatches default_levels /\
    (exists before, cs = before ++ [gl glFinish]) /\
    setup_requirements B build assets c /\
    forall alive dead,
      Forall (fun o => ~ In o dead) (setup_created c) ->
      well_scoped alive dead cs.
Proof.
  intros H Hmax. unfold setup in H.
  sinv H. apply setup_assets_ok in Hm. cbv zeta in Hm.
  destruct Hm as (eS & eM & iA & iN & iM & iR & nA & nN & nM & nR &
                  -> & Hc1 & Hd1 & Hp1 & Hprograms & Hmeshes & Himages & Hscoped1).
  snorm H.
  sinv H. apply setup_envmap_ok in Hm. cbv zeta in Hm. snorm Hm.
  destruct Hm as (-> & Hc2 & Hd2 & Hp2 & (Hs2 & Hl2 & Hi2) & Hscoped2). snorm H.
  sinv H. apply setup_irmap_ok in Hm. cbv zeta in Hm. snorm Hm.
  destruct Hm as (-> & Hc3 & Hd3 & Hp3 & (Hs3 & Hl3) & Hscoped3). snorm H.
  sinv H. apply setup_spmap_ok in Hm; [|exact Hmax]. cbv zeta in Hm. snorm Hm.
  destruct Hm as (-> & Hc4 & Hd4 & Hp4 & (Hs4 & Hl4) & Hscoped4). snorm H.
  sinv H. apply setup_spBRDF_ok in Hm. cbv zeta in Hm. snorm Hm.
  destruct Hm as (-> & Hc5 & Hd5 & Hp5 & (Hs5 & Hl5) & Hscoped5). snorm H.
  unfold scall in H. injection H as <- <-.
  exists eS, eM, iA, iN, iM, iR, nA, nN, nM, nR.
  split.
  { unfold Context_after_setup, Renderer_after_setup. znorm. reflexivity. }
  unfold setup_created, setup_deleted, setup_dispatches.
  split; [|split; [|split; [|split; [|split]]]].
  6: { intros alive dead Hfresh. cbv zeta in Hfresh. fresh_objects.
       read_handles_in Hscoped3. read_handles_in Hscoped4.
       znorm_in Hscoped3. znorm_in Hscoped4.
       repeat match goal with
              | E : created_in_setup _ = _ |- _ => progress (znorm_in E)
              | E : deleted_in_setup _ = _ |- _ => progress (znorm_in E)
              | E : forall alive dead, _ -> well_scoped alive dead _ |- _ =>
                  progress (znorm_in E)
              end.
       apply well_scoped_app.
       { apply Hscoped1. rewrite Hc1.
         repeat (apply Forall_cons; [not_dead|]). apply Forall_nil. }
       rewrite Hc1, Hd1. accumulate.
       apply well_scoped_app.
       { apply Hscoped2. rewrite Hc2.
         repeat (apply Forall_cons; [not_dead|]). apply Forall_nil. }
       rewrite Hc2, Hd2. accumulate.
       apply well_scoped_app.
       { apply Hscoped3; [alive_now|not_dead|]. rewrite Hc3.
         repeat (apply Forall_cons; [not_dead|]). apply Forall_nil. }
       rewrite Hc3, Hd3. accumulate.
       apply well_scoped_app.
       { apply Hscoped4; [alive_now|not_dead|]. rewrite Hc4.
         repeat (apply Forall_cons; [not_dead|]). apply Forall_nil. }
       rewrite Hc4, Hd4. accumulate.
       apply well_scoped_app.
       { apply Hscoped5. rewrite Hc5.
         repeat (apply Forall_cons; [not_dead|]). apply Forall_nil. }
       rewrite Hc5, Hd5. accumulate.
       repeat scoped_call. }
  4: { eexists. rewrite !app_assoc. reflexivity. }
  4: { destruct Hprograms as (? & ? & ? & ? & ? & ? & ? & ? & ?).
       destruct Hmeshes as (? & ?). destruct Himages as (? & ? & ? & ?).
       unfold setup_requirements. cbv zeta.
       repeat match goal with
              | E : shader_built _ _ _ |- _ => progress (znorm_in E)
              | E : program_built _ _ |- _ => progress (znorm_in E)
              end.
       repeat split; repeat (apply Forall_cons; [assumption|]); apply Forall_nil. }
  all: sfacts; cbn [app created_in_setup deleted_in_setup
                    dispatches_in_setup created_objects deleted_objects];
    rewrite ?app_nil_r; reflexivity.
Qed.

Lemma setup_run_ok (B : Backend) (build : Build) (assets : Assets)
    (layout : MeshLayout)
    (default_levels image_levels : Z) (c : Context) :
  result_of_setup (setup B build assets layout default_levels image_levels c) = Ok tt ->
  default_levels < INT_MAX ->
  let run := setup B build assets layout default_levels image_levels c in
  exists (eS eM : GLuint) (iA iN iM iR : Image) (nA nN nM nR : Z),
    context_of run =
      Context_after_setup c
        (Renderer_after_setup c default_levels eS eM iA iN iM iR nA nN nM nR) /\
    created_in_setup (calls_of_setup run) = setup_created c /\
    deleted_in_setup (calls_of_setup run) = setup_deleted c /\
    dispatches_in_setup (calls_of_setup run) = setup_dispatches default_levels /\
    (exists before, calls_of_setup run = before ++ [gl glFinish]) /\
    setup_requirements B build assets c /\
    forall alive dead,
      Forall (fun o => ~ In o dead) (setup_created c) ->
      well_scoped alive dead (calls_of_setup run).
Proof.
  intros Hok Hmax. cbv zeta.
  destruct (setup B build assets layout default_levels image_levels c) as [[r c'] cs] eqn:E.
  unfold result_of_setup in Hok. cbn [fst snd] in Hok. subst r.
  unfold context_of, calls_of_setup. cbn [fst snd].
  exact (setup_ok B build assets layout default_levels image_levels c c' cs E Hmax).
Qed.

Ltac nonzero_names :=
  repeat match goal with
         | |- context [?x =? 0] =>
             rewrite (eqb_false_of_neq x 0) by lia
         end.

Lemma deleted_objects_app (cs cs' : list GLCall) :
  deleted_objects (cs ++ cs') = deleted_objects cs ++ deleted_objects cs'.
Proof.
  induction cs as [|c cs IH]; [reflexivity|].
  destruct c; cbn [app deleted_objects]; rewrite IH; reflexivity.
Qed.

Lemma created_objects_app (cs cs' : list GLCall) :
  created_objects (cs ++ cs') = created_objects cs ++ created_objects cs'.
Proof.
  induction cs as [|c cs IH]; [reflexivity|].
  destruct c; cbn [app created_objects]; rewrite IH; reflexivity.
Qed.

Lemma shutdown_after_setup (c : Context) (default_levels : Z)
    (eS eM : GLuint) (iA iN iM iR : Image) (nA nN nM nR : Z) :
  0 < next_texture (names (world c)) ->
  0 < next_shader_program (names (world c)) ->
  0 < next_buffer c -> 0 < next_vertex_array c ->
  deleted_objects
    (shutdown_calls
       (Renderer_after_setup c default_levels eS eM iA iN iM iR nA nN nM nR)) =
  deleted_objects (shutdown_framebuffer_calls (this (world c))) ++ setup_kept c.
Proof.
  intros Hnt Hns Hnb Hnv.
  unfold shutdown_calls, shutdown_framebuffer_calls.
  rewrite app_assoc, deleted_objects_app. f_equal.
  unfold shutdown_rest_calls, deleteVertexBuffer_calls, Renderer_after_setup,
    setup_kept.
  read_handles. nonzero_names. rewrite Z.eqb_refl.
  reflexivity.
Qed.

Ltac split_at a l :=
  lazymatch l with
  | a :: ?t => constr:((@nil GLObject, t))
  | ?h :: ?t =>
      let p := split_at a t in
      lazymatch p with
      | (?l1, ?l2) => constr:((h :: l1, l2))
      end
  end.

Ltac permutation_of_objects :=
  repeat lazymatch goal with
         | |- Permutation [] [] => apply perm_nil
         | |- Permutation (?a :: ?l) ?r =>
             let p := split_at a r in
             lazymatch p with
             | (?l1, ?l2) => apply (Permutation_cons_app l1 l2 a); cbn [app]
             end
         end.

Ltac distinct_objects :=
  repeat constructor; cbn [In]; intros H;
  repeat (destruct H as [H|H]; [first [discriminate H|injection H; lia]|]);
  exact H.

Lemma setup_objects_balance (c : Context) :
  Permutation (setup_created c) (setup_deleted c ++ setup_kept c) /\
  NoDup (setup_created c).
Proof.
  unfold setup_created, setup_deleted, setup_kept. cbv zeta. cbn [app].
  split; [permutation_of_objects|distinct_objects].
Qed.


Lemma initialize_objects (B : Backend) (build : Build) (width height samples : Z)
    (w : World) :
  names_ok (names w) -> 0 <= samples ->
  let w1 := world_initialized w width height samples in
  created_objects (initialize_calls B build w width height samples) =
    initialize_created w samples /\
  deleted_objects (initialize_calls B build w width height samples) = [] /\
  deleted_objects (shutdown_framebuffer_calls (this w1)) = initialize_kept w samples /\
  next_texture (names w1) = next_texture (names w) + 1 /\
  next_shader_program (names w1) = next_shader_program (names w).
Proof.
  intros (Hnt & Hnr & Hnf & Hns) Hs. cbv zeta.
  destruct w as [r [nt nr nf ns]].
  cbn [names next_texture next_renderbuffer next_framebuffer next_shader_program]
    in *.
  unfold initialize_calls, initialize_window_calls, initialize_context_calls,
    createFrameBuffer_calls, world_initialized, world_with_main,
    createFrameBuffer_handle, createFrameBuffer_names,
    initialize_created, initialize_kept, shutdown_framebuffer_calls,
    deleteFrameBuffer_calls.
  destruct (Z.ltb_spec 0 samples) as [Hms|Hms]; destruct (_DEBUG build);
    cbn [names this next_texture next_renderbuffer next_framebuffer
         next_shader_program negb andb Z.eqb Z.ltb Z.compare
         GL_RGBA16F GL_DEPTH24_STENCIL8 GL_NONE];
    read_handles;
    cbn [created_objects deleted_objects];
    rewrite ?Z.eqb_refl, ?eqb_succ_self, ?eqb_self_succ;
    nonzero_names;
    try (rewrite (eqb_false_of_neq samples 0) by lia);
    try (replace samples with 0 by lia; rewrite Z.eqb_refl);
    cbn [app deleted_objects];
    repeat split.
Qed.

(** X15. When [setup] runs through, it dispatches compute work in this
    order and no other: the environment cubemap in 32 x 32 groups on each
    of 6 faces, the irradiance cubemap in one group per face, the
    specular prefilter once for each mip level 0, 1, ..., [levels] of its
    texture, and the BRDF look-up table in 8 x 8 groups; the call it ends
    with is [glFinish]. *)
Theorem setup_dispatch_sequence (B : Backend) (build : Build) (assets : Assets)
    (layout : MeshLayout)
    (default_levels image_levels : Z) (c : Context) :
  default_levels < INT_MAX ->
  let run := setup B build assets layout default_levels image_levels c in
  result_of_setup run = Ok tt ->
  dispatches_in_setup (calls_of_setup run) =
    [ (32, 32, 6); (1, 1, 6) ] ++
    map (fun L => (spmap_groups L, spmap_groups L, 6))
      (levels_upto (tex_levels (m_spmapTexture (this (world (context_of run)))))) ++
    [ (8, 8, 1) ] /\
  exists before, calls_of_setup run = before ++ [gl glFinish].
Proof.
  intros Hmax run Hok. subst run.
  destruct (setup_run_ok _ _ _ _ _ _ _ Hok Hmax)
    as (eS & eM & iA & iN & iM & iR & nA & nN & nM & nR &
        -> & _ & _ & -> & Hlast & _).
  split; [|exact Hlast].
  unfold Context_after_setup, Renderer_after_setup. read_handles.
  reflexivity.
Qed.

(** X16. The objects of a whole run are balanced.  After a successful
    [initialize] with a sample count of 0 or more and a successful
    [setup], in a context whose names are positive, no object is created
    twice, and the objects deleted by [setup] itself together with those
    deleted by [shutdown] are exactly the objects [initialize] and [setup]
    created, each deleted once: nothing is leaked, nothing is deleted
    twice, and nothing is deleted that was not created. *)
Theorem renderer_objects_lifecycle (B : Backend) (build : Build) (assets : Assets)
    (layout : MeshLayout) (default_levels image_levels : Z)
    (width height samples : Z) (w : World) (nb nv : Z) (window : GLFWwindow) :
  names_ok (names w) -> 0 < nb -> 0 < nv -> 0 <= samples ->
  default_levels < INT_MAX ->
  let init := initialize B build width height samples w in
  let run := setup B build assets layout default_levels image_levels
               (mkContext (world_of init) nb nv) in
  result_of init = Ok window ->
  result_of_setup run = Ok tt ->
  let created := created_objects (calls_of init) ++
                 created_in_setup (calls_of_setup run) in
  let deleted := deleted_objects (calls_of init) ++
                 deleted_in_setup (calls_of_setup run) ++
                 deleted_objects (calls_of (shutdown (world (context_of run)))) in
  NoDup created /\ Permutation created deleted.
Proof.
  intros Hnames Hnb Hnv Hs Hmax init run Hinit Hrun created deleted.
  subst created deleted run init.
  destruct (initialize_ok_conditions B build width height samples w window Hinit)
    as (_ & Hcond).
  clear Hinit.
  rewrite (initialize_run_ok B build width height samples w Hcond) in *.
  unfold world_of, calls_of in *. cbn [fst snd] in *.
  destruct (setup_run_ok _ _ _ _ _ _ _ Hrun Hmax)
    as (eS & eM & iA & iN & iM & iR & nA & nN & nM & nR & -> & -> & -> & _).
  clear Hrun.
  rewrite shutdown_full_run. cbn [fst snd].
  destruct (initialize_objects B build width height samples w Hnames Hs)
    as (Hcreated & Hdeleted & Hkept & Hnt' & Hns').
  destruct Hnames as (Hnt & Hnr & Hnf & Hns).
  unfold Context_after_setup. cbn [world this].
  rewrite shutdown_after_setup
    by (cbn [world names next_buffer next_vertex_array]; lia).
  cbn [world this]. rewrite Hcreated, Hdeleted, Hkept. cbn [app].
  unfold setup_created, setup_deleted, setup_kept. cbv zeta.
  cbn [world next_buffer next_vertex_array]. rewrite Hnt', Hns'.
  unfold initialize_created, initialize_kept.
  destruct (0 <? samples); cbn [app];
    (split; [distinct_objects|permutation_of_objects]).
Qed.

Ltac object_found := cbn [In app]; repeat first [left; reflexivity | right].

Ltac object_absent :=
  let H := fresh "H" in
  intros H; cbn [In app] in H;
  repeat (destruct H as [H|H]; [first [discriminate H|injection H; lia]|]);
  exact H.

(** X17. A frame uses only live objects.  After a successful
    [initialize] with a sample count of 0 or more and a successful
    [setup], in a context whose names are positive, [render] goes through,
    and every program, texture, vertex array and framebuffer object its
    calls name was created by [initialize] or by [setup] and has not been
    deleted by either: none of the shaders, compute programs and
    temporary textures that [setup] deletes is used by a frame. *)
Theorem render_uses_live_objects (B : Backend) (build : Build) (glm : Glm)
    (assets : Assets) (layout : MeshLayout) (default_levels image_levels : Z)
    (width height samples : Z) (w : World) (nb nv : Z) (window : GLFWwindow)
    (view : ViewSettings) :
  names_ok (names w) -> 0 < nb -> 0 < nv -> 0 <= samples ->
  default_levels < INT_MAX ->
  let init := initialize B build width height samples w in
  let run := setup B build assets layout default_levels image_levels
               (mkContext (world_of init) nb nv) in
  result_of init = Ok window ->
  result_of_setup run = Ok tt ->
  let frame := render build glm window view (world (context_of run)) in
  result_of frame = Ok tt /\
  forall o, In o (used_objects (calls_of frame)) ->
    In o (created_objects (calls_of init) ++ created_in_setup (calls_of_setup run)) /\
    ~ In o (deleted_objects (calls_of init) ++ deleted_in_setup (calls_of_setup run)).
Proof.
  intros Hnames Hnb Hnv Hs Hmax init run Hinit Hrun frame.
  subst frame run init.
  pose proof (initialize_resolvable B build width height samples w window
                (proj1 (proj2 Hnames)) Hinit) as Hres.
  cbv zeta in Hres.
  destruct (initialize_ok_conditions B build width height samples w window Hinit)
    as (_ & Hcond).
  clear Hinit.
  rewrite (initialize_run_ok B build width height samples w Hcond) in *.
  unfold world_of, calls_of in *. cbn [fst snd] in *.
  destruct (setup_run_ok _ _ _ _ _ _ _ Hrun Hmax)
    as (eS & eM & iA & iN & iM & iR & nA & nN & nM & nR & -> & -> & -> & _).
  clear Hrun.
  unfold Context_after_setup. cbn [world this].
  rewrite render_run
    by (unfold Renderer_after_setup; read_handles; exact Hres).
  unfold result_of. cbn [fst snd]. split; [reflexivity|].
  destruct (initialize_objects B build width height samples w Hnames Hs)
    as (Hcreated & Hdeleted & _ & Hnt' & Hns').
  rewrite Hcreated, Hdeleted. clear Hcreated Hdeleted Hres Hcond.
  destruct Hnames as (Hnt & Hnr & Hnf & Hns).
  unfold frame_uniforms, frame_clear, frame_skybox, frame_model, frame_resolve,
    resolve_calls, frame_tonemap, frame_present, Renderer_after_setup.
  read_handles.
  unfold setup_created, setup_deleted. cbv zeta.
  cbn [world next_buffer next_vertex_array]. rewrite Hnt', Hns'.
  clear Hnt' Hns'.
  unfold initialize_created, world_initialized, world_with_main,
    createFrameBuffer_handle, createFrameBuffer_names.
  destruct w as [r [nt nr nf ns]].
  cbn [names next_texture next_renderbuffer next_framebuffer next_shader_program]
    in *.
  apply Forall_forall.
  destruct (Z.ltb_spec 0 samples) as [Hms|Hms];
    cbn [negb andb Z.eqb Z.ltb Z.compare GL_RGBA16F GL_DEPTH24_STENCIL8 GL_NONE
         names next_texture next_renderbuffer next_framebuffer
         next_shader_program];
    read_handles;
    rewrite ?Z.eqb_refl, ?eqb_succ_self, ?eqb_self_succ;
    cbn [used_objects app];
    nonzero_names;
    change (0 =? 0) with true; cbv iota;
    repeat (apply Forall_cons; [split; [object_found|object_absent]|]);
    apply Forall_nil.
Qed.

(** X18. [setup] returns normally only if everything it asks for was
    there: each of its ten shader files could be read and compiled, each
    of its seven programs linked and validated, the two meshes and the
    five images were loaded.  When any of these fails, [setup] does not
    return normally.  An empty mesh stops it only in a build whose library
    checks the index of a vector: there each mesh has a vertex and a
    face. *)
Theorem setup_needs_every_asset (B : Backend) (build : Build) (assets : Assets)
    (layout : MeshLayout)
    (default_levels image_levels : Z) (c : Context) :
  default_levels < INT_MAX ->
  result_of_setup (setup B build assets layout default_levels image_levels c) = Ok tt ->
  let ns := next_shader_program (names (world c)) in
  Forall (fun '(filename, shader) =>
            File_readText B filename <> EmptyString /\
            compile_status B shader = GL_TRUE)
    [ ("shaders/glsl/passthrough_vs.glsl", ns);
      ("shaders/glsl/tonemap_fs.glsl", ns + 1);
      ("shaders/glsl/skybox_vs.glsl", ns + 3);
      ("shaders/glsl/skybox_fs.glsl", ns + 4);
      ("shaders/glsl/pbr_vs.glsl", ns + 6);
      ("shaders/glsl/pbr_fs.glsl", ns + 7);
      ("shaders/glsl/equirect2cube_cs.glsl", ns + 9);
      ("shaders/glsl/irmap_cs.glsl", ns + 11);
      ("shaders/glsl/spmap_cs.glsl", ns + 13);
      ("shaders/glsl/spbrdf_cs.glsl", ns + 15) ] /\
  Forall (fun program =>
            link_status B program = GL_TRUE /\ validate_status B program = GL_TRUE)
    [ ns + 2; ns + 5; ns + 8; ns + 10; ns + 12; ns + 14; ns + 16 ] /\
  Forall (fun filename =>
            exists mesh, Mesh_fromFile assets filename = Ok mesh /\
                         (checked_subscript build = true ->
                          mesh_vertices mesh <> [] /\ mesh_faces mesh <> []))
    [ "meshes/skybox.obj"; "meshes/cerberus.fbx" ] /\
  Forall (fun '(filename, channels) =>
            exists image, Image_fromFile assets filename channels = Ok image)
    [ ("textures/cerberus_A.png", 3); ("textures/cerberus_N.png", 3);
      ("textures/cerberus_M.png", 1); ("textures/cerberus_R.png", 1);
      ("environment.hdr", 3) ].
Proof.
  intros Hmax Hok ns. subst ns.
  destruct (setup_run_ok _ _ _ _ _ _ _ Hok Hmax)
    as (eS & eM & iA & iN & iM & iR & nA & nN & nM & nR &
        _ & _ & _ & _ & _ & Hneeds & _).
  exact Hneeds.
Qed.

Lemma created_objects_of_frame (glm : Glm) (window : GLFWwindow) (r : Renderer)
    (view : ViewSettings) :
  let frame := frame_uniforms glm r view ++ frame_clear r ++ frame_skybox r ++
               frame_model r ++ frame_resolve r ++ frame_tonemap r ++
               frame_present window in
  created_objects frame = [] /\ deleted_objects frame = [].
Proof.
  cbv zeta. unfold frame_resolve, resolve_calls.
  destruct (fb_id (m_framebuffer r) =? fb_id (m_resolveFramebuffer r));
    split; reflexivity.
Qed.

Lemma well_scoped_initialize (B : Backend) (build : Build)
    (width height samples : Z) (w : World) :
  well_scoped [] [] (map gl (initialize_calls B build w width height samples)).
Proof.
  destruct w as [r [nt nr nf ns]].
  unfold initialize_calls, initialize_window_calls, initialize_context_calls,
    createFrameBuffer_calls, world_with_main, createFrameBuffer_names.
  destruct (0 <? samples); destruct (_DEBUG build);
    cbn [names this next_texture next_renderbuffer next_framebuffer
         next_shader_program negb andb Z.eqb Z.ltb Z.compare
         GL_RGBA16F GL_DEPTH24_STENCIL8 GL_NONE map app];
    repeat scoped_call.
Qed.

(** X19. Over a whole run, that is [initialize], [setup], any number of
    frames and [shutdown], every call names only objects that are alive:
    created by an earlier call of the run and deleted by none.  With a
    sample count of 0 or more and positive names, no object is named by a
    call before the call that creates it or after the call that deletes
    it, and none is deleted twice.  The objects a call names are those
    among its arguments; what a draw or a dispatch reads through the
    bindings of the context is not counted. *)
Theorem renderer_run_well_scoped (B : Backend) (build : Build) (glm : Glm)
    (assets : Assets) (layout : MeshLayout) (default_levels image_levels : Z)
    (width height samples : Z) (w : World) (nb nv : Z) (window : GLFWwindow)
    (views : list ViewSettings) :
  names_ok (names w) -> 0 < nb -> 0 < nv -> 0 <= samples ->
  default_levels < INT_MAX ->
  let init := initialize B build width height samples w in
  let run := setup B build assets layout default_levels image_levels
               (mkContext (world_of init) nb nv) in
  result_of init = Ok window ->
  result_of_setup run = Ok tt ->
  let w2 := world (context_of run) in
  well_scoped [] []
    (map gl (calls_of init) ++
     calls_of_setup run ++
     flat_map (fun view => map gl (calls_of (render build glm window view w2))) views ++
     map gl (calls_of (shutdown w2))).
Proof.
  intros Hnames Hnb Hnv Hs Hmax init run Hinit Hrun w2.
  subst w2 run init.
  pose proof (initialize_resolvable B build width height samples w window
                (proj1 (proj2 Hnames)) Hinit) as Hres.
  cbv zeta in Hres.
  destruct (initialize_ok_conditions B build width height samples w window Hinit)
    as (_ & Hcond).
  clear Hinit.
  rewrite (initialize_run_ok B build width height samples w Hcond) in *.
  unfold world_of, calls_of in *. cbn [fst snd] in *.
  destruct (setup_run_ok _ _ _ _ _ _ _ Hrun Hmax)
    as (eS & eM & iA & iN & iM & iR & nA & nN & nM & nR &
        -> & Hcreated & Hdeleted & _ & _ & _ & Hscoped).
  clear Hrun Hcond.
  unfold Context_after_setup. cbn [world this].
  rewrite shutdown_full_run. cbn [fst snd].
  destruct (initialize_objects B build width height samples w Hnames Hs)
    as (Hcreated0 & Hdeleted0 & _ & Hnt' & Hns').
  apply well_scoped_app; [apply well_scoped_initialize|].
  rewrite created_in_setup_gl, deleted_in_setup_gl, Hcreated0, Hdeleted0.
  cbn [app].
  apply well_scoped_app.
  { apply Hscoped. apply Forall_forall. intros o _ []. }
  rewrite Hcreated, Hdeleted. cbn [app].
  clear Hcreated Hdeleted Hcreated0 Hdeleted0 Hscoped.
  assert (Hframe : forall view,
            well_scoped
              (initialize_created w samples ++
               setup_created (mkContext (world_initialized w width height samples)
                                nb nv))
              (setup_deleted (mkContext (world_initialized w width height samples)
                                nb nv))
              (map gl
                 (snd (render build glm window view
                         (mkWorld
                            (Renderer_after_setup
                               (mkContext (world_initialized w width height samples)
                                  nb nv)
                               default_levels eS eM iA iN iM iR nA nN nM nR)
                            (mkNames
                               (next_texture
                                  (names (world_initialized w width height samples)) + 9)
                               (next_renderbuffer
                                  (names (world_initialized w width height samples)))
                               (next_framebuffer
                                  (names (world_initialized w width height samples)))
                               (next_shader_program
                                  (names (world_initialized w width height samples)) +
                                17))))))).
  { intros view.
    rewrite render_run
      by (unfold Renderer_after_setup; read_handles; exact Hres).
    cbn [snd]. clear Hres.
    unfold frame_uniforms, frame_clear, frame_skybox, frame_model, frame_resolve,
      resolve_calls, frame_tonemap, frame_present, Renderer_after_setup.
    read_handles.
    unfold setup_created, setup_deleted. cbv zeta.
    cbn [world next_buffer next_vertex_array]. rewrite Hnt', Hns'.
    clear Hnt' Hns'.
    unfold initialize_created, world_initialized, world_with_main,
      createFrameBuffer_handle, createFrameBuffer_names.
    destruct Hnames as (Hnt & Hnr & Hnf & Hns).
    destruct w as [r [nt nr nf ns]].
    cbn [names next_texture next_renderbuffer next_framebuffer
         next_shader_program] in *.
    destruct (Z.ltb_spec 0 samples) as [Hms|Hms];
      cbn [negb andb Z.eqb Z.ltb Z.compare GL_RGBA16F GL_DEPTH24_STENCIL8 GL_NONE
           names next_texture next_renderbuffer next_framebuffer
           next_shader_program];
      read_handles;
      rewrite ?Z.eqb_refl, ?eqb_succ_self, ?eqb_self_succ;
      znorm; cbn [map app];
      repeat scoped_call. }
  assert (Hquiet : forall view,
            created_in_setup
              (map gl (snd (render build glm window view
                 (mkWorld
                    (Renderer_after_setup
                       (mkContext (world_initialized w width height samples) nb nv)
                       default_levels eS eM iA iN iM iR nA nN nM nR)
                    (mkNames
                       (next_texture
                          (names (world_initialized w width height samples)) + 9)
                       (next_renderbuffer
                          (names (world_initialized w width height samples)))
                       (next_framebuffer
                          (names (world_initialized w width height samples)))
                       (next_shader_program
                          (names (world_initialized w width height samples)) + 17))))))
            = [] /\
            deleted_in_setup
              (map gl (snd (render build glm window view
                 (mkWorld
                    (Renderer_after_setup
                       (mkContext (world_initialized w width height samples) nb nv)
                       default_levels eS eM iA iN iM iR nA nN nM nR)
                    (mkNames
                       (next_texture
                          (names (world_initialized w width height samples)) + 9)
                       (next_renderbuffer
                          (names (world_initialized w width height samples)))
                       (next_framebuffer
                          (names (world_initialized w width height samples)))
                       (next_shader_program
                          (names (world_initialized w width height samples)) + 17))))))
            = []).
  { intros view.
    rewrite render_run
      by (unfold Renderer_after_setup; read_handles; exact Hres).
    cbn [snd]. rewrite created_in_setup_gl, deleted_in_setup_gl.
    apply created_objects_of_frame. }
  clear Hres.
  apply well_scoped_app.
  { apply well_scoped_flat_map. intros view.
    destruct (Hquiet view) as (Hc & Hd).
    split; [exact Hc|]. split; [exact Hd|]. apply Hframe. }
  rewrite created_in_attribute_calls by (intros view; apply Hquiet).
  rewrite deleted_in_attribute_calls by (intros view; apply Hquiet).
  rewrite !app_nil_r. clear Hframe Hquiet.
  unfold shutdown_calls, shutdown_rest_calls, deleteFrameBuffer_calls,
    deleteVertexBuffer_calls, Renderer_after_setup.
  read_handles.
  unfold setup_created, setup_deleted. cbv zeta.
  cbn [world next_buffer next_vertex_array]. rewrite Hnt', Hns'.
  clear Hnt' Hns'.
  unfold initialize_created, world_initialized, world_with_main,
    createFrameBuffer_handle, createFrameBuffer_names.
  destruct Hnames as (Hnt & Hnr & Hnf & Hns).
  destruct w as [r [nt nr nf ns]].
  cbn [names next_texture next_renderbuffer next_framebuffer
       next_shader_program] in *.
  destruct (Z.ltb_spec 0 samples) as [Hms|Hms];
    cbn [negb andb Z.eqb Z.ltb Z.compare GL_RGBA16F GL_DEPTH24_STENCIL8 GL_NONE
         names next_texture next_renderbuffer next_framebuffer
         next_shader_program];
    read_handles;
    rewrite ?Z.eqb_refl, ?eqb_succ_self, ?eqb_self_succ;
    nonzero_names;
    try (rewrite (eqb_false_of_neq samples 0) by lia);
    try (replace samples with 0 by lia; rewrite Z.eqb_refl);
    znorm; cbn [map app];
    repeat scoped_call.
Qed.

Lemma well_scoped_app_inv (cs cs' : list SetupCall) (alive dead : list GLObject) :
  well_scoped alive dead (cs ++ cs') ->
  well_scoped (alive ++ created_in_setup cs) (dead ++ deleted_in_setup cs) cs'.
Proof.
  revert alive dead. induction cs as [|c cs IH]; intros alive dead H.
  - cbn [created_in_setup deleted_in_setup app] in *.
    rewrite !app_nil_r. exact H.
  - cbn [app well_scoped] in H. destruct H as (_ & H).
    apply IH in H. rewrite <- !app_assoc in H.
    rewrite <- created_in_setup_app, <- deleted_in_setup_app in H. exact H.
Qed.

(** X20. The sample count must not be negative.  After a successful
    [initialize] with a negative sample count, [shutdown] breaks the
    lifetimes even without [setup] in between: it deletes the colour
    target of the main framebuffer as a renderbuffer, which either was
    never created or is the depth-stencil renderbuffer it deletes again
    in its next call. *)
Theorem negative_samples_break_lifetimes (B : Backend) (build : Build)
    (width height samples : Z) (w : World) (window : GLFWwindow) :
  samples < 0 -> names_ok (names w) ->
  let init := initialize B build width height samples w in
  result_of init = Ok window ->
  ~ well_scoped [] []
      (map gl (calls_of init) ++ map gl (calls_of (shutdown (world_of init)))).
Proof.
  intros Hs (Hnt & Hnr & Hnf & _) init Hinit Hscoped. subst init.
  destruct (initialize_ok_conditions B build width height samples w window Hinit)
    as (_ & Hcond).
  clear Hinit.
  rewrite (initialize_run_ok B build width height samples w Hcond) in Hscoped.
  unfold world_of, calls_of in Hscoped. cbn [fst snd] in Hscoped.
  apply well_scoped_app_inv in Hscoped.
  rewrite shutdown_full_run in Hscoped. cbn [fst snd] in Hscoped.
  rewrite created_in_setup_gl, deleted_in_setup_gl in Hscoped.
  destruct w as [r [nt nr nf ns]].
  cbn [names next_texture next_renderbuffer next_framebuffer] in Hnt, Hnr, Hnf.
  assert (Hms : (0 <? samples) = false) by (apply Z.ltb_ge; lia).
  unfold initialize_calls, initialize_window_calls, initialize_context_calls,
    createFrameBuffer_calls, world_initialized, world_with_main,
    createFrameBuffer_handle, createFrameBuffer_names,
    shutdown_calls, deleteFrameBuffer_calls in Hscoped.
  rewrite Hms in Hscoped.
  cbn [names this next_texture next_renderbuffer next_framebuffer
       next_shader_program negb andb Z.eqb Z.ltb Z.compare
       GL_RGBA16F GL_DEPTH24_STENCIL8 GL_NONE] in Hscoped.
  read_handles_in Hscoped.
  rewrite Z.eqb_refl, (eqb_false_of_neq nf 0), (eqb_false_of_neq nt 0),
    (eqb_false_of_neq nr 0), (eqb_false_of_neq samples 0) in Hscoped by lia.
  assert (Hobjects :
            created_objects
              (initialize_window_calls build width height ++
               initialize_context_calls build (glfwCreateWindow_result B width height) ++
               [glCreateFramebuffers nf; glCreateTextures GL_TEXTURE_2D nt;
                glTextureStorage2D nt 1 GL_RGBA16F width height;
                glNamedFramebufferTexture nf GL_COLOR_ATTACHMENT0 nt 0;
                glCreateRenderbuffers nr;
                glNamedRenderbufferStorage nr GL_DEPTH24_STENCIL8 width height;
                glNamedFramebufferRenderbuffer nf GL_DEPTH_STENCIL_ATTACHMENT
                  GL_RENDERBUFFER nr;
                glCheckNamedFramebufferStatus nf GL_DRAW_FRAMEBUFFER]) =
            [FramebufferObject nf; TextureObject nt; RenderbufferObject nr] /\
            deleted_objects
              (initialize_window_calls build width height ++
               initialize_context_calls build (glfwCreateWindow_result B width height) ++
               [glCreateFramebuffers nf; glCreateTextures GL_TEXTURE_2D nt;
                glTextureStorage2D nt 1 GL_RGBA16F width height;
                glNamedFramebufferTexture nf GL_COLOR_ATTACHMENT0 nt 0;
                glCreateRenderbuffers nr;
                glNamedRenderbufferStorage nr GL_DEPTH24_STENCIL8 width height;
                glNamedFramebufferRenderbuffer nf GL_DEPTH_STENCIL_ATTACHMENT
                  GL_RENDERBUFFER nr;
                glCheckNamedFramebufferStatus nf GL_DRAW_FRAMEBUFFER]) = []).
  { unfold initialize_window_calls, initialize_context_calls.
    destruct (_DEBUG build); split; reflexivity. }
  unfold initialize_window_calls, initialize_context_calls in Hobjects.
  cbn [app] in Hobjects, Hscoped.
  destruct Hobjects as (Hc & Hd). rewrite Hc, Hd in Hscoped. clear Hc Hd.
  cbn [app map well_scoped uses_of_call used_objects created_in_setup
       deleted_in_setup created_objects deleted_objects] in Hscoped.
  destruct Hscoped as (_ & Hcolour & Hdepth & _).
  apply Forall_cons_iff in Hcolour. destruct Hcolour as ((Hin & _) & _).
  apply Forall_cons_iff in Hdepth. destruct Hdepth as ((_ & Hout) & _).
  cbn [In app] in Hin, Hout.
  destruct Hin as [Hin|[Hin|[Hin|[]]]]; try discriminate Hin.
  injection Hin as ->. apply Hout. right. left. reflexivity.
Qed.

(** ** The further properties at concrete inputs *)

Lemma blank_world_names_ok : names_ok (names blank_world).
Proof. repeat split. Qed.

Lemma willing_backend_initializes (samples : Z) :
  samples = 0 \/ samples = 4 ->
  result_of (initialize willing_backend debug_build 800 600 samples blank_world) = Ok 1.
Proof. intros [->| ->]; reflexivity. Qed.

Lemma sample_setup_runs (samples : Z) :
  samples = 0 \/ samples = 4 ->
  result_of_setup
    (setup willing_backend debug_build sample_assets sample_layout 0 0
       (mkContext (world_of (initialize willing_backend debug_build 800 600 samples
                               blank_world)) 1 1)) = Ok tt.
Proof. intros [->| ->]; vm_compute; reflexivity. Qed.


Lemma createFrameBuffer_deleteFrameBuffer_witness :
  let run := createFrameBuffer willing_backend 800 600 4 GL_RGBA16F
               GL_DEPTH24_STENCIL8 blank_world in
  deleted_objects (calls_of (deleteFrameBuffer (mkFrameBuffer 1 1 2 800 600 4)
                               blank_world)) =
  created_objects (calls_of run).
Proof.
  assert (Hs : 0 <= 4) by discriminate.
  exact (proj1 (createFrameBuffer_deleteFrameBuffer willing_backend 800 600 4
                  GL_RGBA16F GL_DEPTH24_STENCIL8 blank_world blank_world
                  (mkFrameBuffer 1 1 2 800 600 4) Hs blank_world_names_ok eq_refl)).
Defined.

Lemma negative_samples_colour_target_mismatch_witness :
  let run := createFrameBuffer willing_backend 800 600 (-1) GL_RGBA16F
               GL_DEPTH24_STENCIL8 blank_world in
  In (TextureObject 1) (created_objects (calls_of run)) /\
  In (RenderbufferObject 1)
    (deleted_objects (calls_of (deleteFrameBuffer (mkFrameBuffer 1 1 1 800 600 (-1))
                                  blank_world))).
Proof.
  assert (Hs : -1 < 0) by reflexivity.
  assert (Hc : GL_RGBA16F <> GL_NONE) by discriminate.
  assert (Hn : 0 < next_texture (names blank_world)) by reflexivity.
  destruct (negative_samples_colour_target_mismatch willing_backend 800 600 (-1)
              GL_RGBA16F GL_DEPTH24_STENCIL8 blank_world blank_world
              (mkFrameBuffer 1 1 1 800 600 (-1)) Hs Hc Hn eq_refl)
    as (Hcreated & Hdeleted & _).
  split; [exact Hcreated|exact Hdeleted].
Defined.

Lemma initialize_then_render_witness :
  result_of (render debug_build flat_glm 1 still_view
               (world_of (initialize willing_backend debug_build 800 600 4
                            blank_world))) = Ok tt.
Proof.
  exact (proj1 (initialize_then_render willing_backend debug_build flat_glm
                  800 600 4 blank_world 1 still_view blank_world_names_ok
                  (willing_backend_initializes 4 (or_intror eq_refl)))).
Defined.

Lemma createTexture_full_mip_chain_witness :
  2 ^ (11 - 1) <= Z.max 1024 1024 < 2 ^ 11 /\
  Z.shiftr (Z.max 1024 1024) (11 - 1) = 1.
Proof.
  assert (Hsize : 0 <= 1024 <= INT_MAX) by (split; discriminate).
  assert (Hmax : 1 <= Z.max 1024 1024) by discriminate.
  assert (Hlevels : 0 <= 0) by discriminate.
  destruct (createTexture_full_mip_chain GL_TEXTURE_CUBE_MAP 1024 1024 GL_RGBA16F 0
              blank_world (mkTexture 1 1024 1024 11) Hsize Hsize Hmax Hlevels eq_refl)
    as (Hpow & Hshift & _).
  split; [exact Hpow|exact Hshift].
Defined.

Lemma specular_prefilter_grid_covers_levels_witness :
  Forall (fun d =>
            exists L g, d_level d = Some L /\ 0 <= L /\ d_groups d = (g, g, 6) /\
                        1 <= g /\ Z.shiftr 1024 L <= 32 * g /\
                        (L <= 5 -> 32 * g = Z.shiftr 1024 L) /\
                        (5 <= L -> g = 1))
    (dispatch_trace None None (calls_of (setup_spmap willing_backend 0 blank_world))).
Proof.
  assert (H : 0 < INT_MAX) by reflexivity.
  assert (Hsrc : File_readText willing_backend "shaders/glsl/spmap_cs.glsl" <>
                 EmptyString) by discriminate.
  exact (specular_prefilter_grid_covers_levels willing_backend 0 blank_world H Hsrc
           eq_refl eq_refl eq_refl).
Defined.

Lemma triangle_mesh_not_empty :
  mesh_vertices triangle_mesh <> [] /\ mesh_faces triangle_mesh <> [].
Proof. split; discriminate. Qed.

Lemma createVertexBuffer_layout_witness :
  exists buffer : VertexBuffer,
    result_of_setup
      (createVertexBuffer hardened_build sample_layout triangle_mesh blank_context) =
      Ok buffer /\
    vb_numElements buffer = 3.
Proof.
  destruct (createVertexBuffer_layout hardened_build sample_layout triangle_mesh
              blank_context
              (proj1 triangle_mesh_not_empty) (proj2 triangle_mesh_not_empty))
    as (buffer & Hr & _ & _ & _ & _ & He & _).
  exists buffer. split; [exact Hr|exact He].
Defined.




Lemma setup_dispatch_sequence_witness :
  let run := setup willing_backend debug_build sample_assets sample_layout 0 0
               (mkContext (world_of (initialize willing_backend debug_build 800 600 4
                                       blank_world)) 1 1) in
  exists before, calls_of_setup run = before ++ [gl glFinish].
Proof.
  assert (H : 0 < INT_MAX) by reflexivity.
  exact (proj2 (setup_dispatch_sequence willing_backend debug_build sample_assets
                  sample_layout
                  0 0 _ H (sample_setup_runs 4 (or_intror eq_refl)))).
Defined.

Lemma renderer_objects_lifecycle_witness :
  let init := initialize willing_backend debug_build 800 600 4 blank_world in
  let run := setup willing_backend debug_build sample_assets sample_layout 0 0
               (mkContext (world_of init) 1 1) in
  NoDup (created_objects (calls_of init) ++ created_in_setup (calls_of_setup run)).
Proof.
  assert (H : 0 < INT_MAX) by reflexivity.
  assert (H1 : 0 < 1) by reflexivity.
  assert (Hs : 0 <= 4) by discriminate.
  exact (proj1 (renderer_objects_lifecycle willing_backend debug_build sample_assets
                  sample_layout 0 0 800 600 4 blank_world 1 1 1
                  blank_world_names_ok H1 H1 Hs H
                  (willing_backend_initializes 4 (or_intror eq_refl))
                  (sample_setup_runs 4 (or_intror eq_refl)))).
Defined.

Lemma render_uses_live_objects_witness :
  let init := initialize willing_backend debug_build 800 600 0 blank_world in
  let run := setup willing_backend debug_build sample_assets sample_layout 0 0
               (mkContext (world_of init) 1 1) in
  result_of (render debug_build flat_glm 1 still_view (world (context_of run))) = Ok tt.
Proof.
  assert (H : 0 < INT_MAX) by reflexivity.
  assert (H1 : 0 < 1) by reflexivity.
  assert (Hs : 0 <= 0) by discriminate.
  exact (proj1 (render_uses_live_objects willing_backend debug_build flat_glm
                  sample_assets sample_layout 0 0 800 600 0 blank_world 1 1 1
                  still_view blank_world_names_ok H1 H1 Hs H
                  (willing_backend_initializes 0 (or_introl eq_refl))
                  (sample_setup_runs 0 (or_introl eq_refl)))).
Defined.

Lemma sample_setup_runs_checked :
  result_of_setup
    (setup willing_backend hardened_build sample_assets sample_layout 0 0
       (mkContext (world_of (initialize willing_backend hardened_build 800 600 4
                               blank_world)) 1 1)) = Ok tt.
Proof. vm_compute. reflexivity. Qed.

Lemma setup_needs_every_asset_witness :
  Forall (fun filename =>
            exists mesh, Mesh_fromFile sample_assets filename = Ok mesh /\
                         mesh_vertices mesh <> [] /\ mesh_faces mesh <> [])
    [ "meshes/skybox.obj"; "meshes/cerberus.fbx" ].
Proof.
  assert (H : 0 < INT_MAX) by reflexivity.
  destruct (setup_needs_every_asset willing_backend hardened_build sample_assets
              sample_layout 0 0 _ H sample_setup_runs_checked)
    as (_ & _ & Hmeshes & _).
  apply Forall_forall. intros filename Hin.
  destruct (proj1 (Forall_forall _ _) Hmeshes filename Hin) as (mesh & Hmesh & Hne).
  exists mesh. split; [exact Hmesh|]. apply Hne. reflexivity.
Defined.

Lemma renderer_run_well_scoped_witness :
  let init := initialize willing_backend debug_build 800 600 4 blank_world in
  let run := setup willing_backend debug_build sample_assets sample_layout 0 0
               (mkContext (world_of init) 1 1) in
  let w2 := world (context_of run) in
  well_scoped [] []
    (map gl (calls_of init) ++
     calls_of_setup run ++
     flat_map (fun view => map gl (calls_of (render debug_build flat_glm 1 view w2)))
       [still_view; still_view] ++
     map gl (calls_of (shutdown w2))).
Proof.
  assert (H : 0 < INT_MAX) by reflexivity.
  assert (H1 : 0 < 1) by reflexivity.
  assert (Hs : 0 <= 4) by discriminate.
  exact (renderer_run_well_scoped willing_backend debug_build flat_glm
           sample_assets sample_layout 0 0 800 600 4 blank_world 1 1 1
           [still_view; still_view] blank_world_names_ok H1 H1 Hs H
           (willing_backend_initializes 4 (or_intror eq_refl))
           (sample_setup_runs 4 (or_intror eq_refl))).
Defined.

Lemma negative_samples_break_lifetimes_witness :
  let init := initialize willing_backend debug_build 800 600 (-1) blank_world in
  ~ well_scoped [] []
      (map gl (calls_of init) ++ map gl (calls_of (shutdown (world_of init)))).
Proof.
  assert (Hs : -1 < 0) by reflexivity.
  exact (negative_samples_break_lifetimes willing_backend debug_build 800 600 (-1)
           blank_world 1 Hs blank_world_names_ok eq_refl).
Defined.
